(** * A shallow embedding of the agent-based housing-market model

    The Python package [real_estate_toolkit.agent_based_model] describes
    houses, a housing market, consumers and a simulation that clears the
    market.  This development embeds its four modules

      - [houses.py]        ->  [Module Houses]
      - [house_market.py]  ->  [Module HouseMarket]
      - [consumers.py]     ->  [Module Consumers]
      - [simulation.py]    ->  [Module Sim]

    as Rocq functions, states the notions of the specification over them
    (part "Specification vocabulary") and proves properties of them: the
    claims of the specification (part "Properties"), and what the code
    shows beyond them, its exceptions, its invariants and how its methods
    compose (part "Further properties").

    Modelling conventions.

    - A Python [float] is an element of an arithmetic interface [Arith].
      The instance [Binary64.arith] is IEEE-754 binary64 as CPython computes
      it (Rocq's primitive floats); the instance [Exact.arith] is exact
      rational arithmetic.  Definitions are written once, over the interface;
      theorems that use no law of arithmetic hold for both instances.
    - A Python [int] is a [Z].
    - A raised exception is a value [Raise e] of the type [result]; the
      exception classes that occur are the constructors of [exn].  A method
      that raises before it has assigned anything returns [Raise e] alone:
      the objects are as they were.  A loop that can be left by an exception
      after it has changed objects returns the state together with the
      outcome.
    - House objects live in the market's list [houses]; a reference to a
      House object is its position in that list.  [Consumer.house] holds such
      a reference, so that a sale is visible through the market and through
      the consumer alike.  Consumer objects live in the simulation's list
      [consumers] and are referred to by position while they are processed. *)

From Stdlib Require Import ZArith QArith List Bool Ascii String Lia Lqa.
From Stdlib Require Import Permutation Sorted.
From Stdlib Require Import Floats.
Import ListNotations.

Set Implicit Arguments.

(** ** Exceptions *)

(** The exception classes raised in the package.  [statistics.StatisticsError]
    is a subclass of [ValueError] and is caught by [except ValueError]; it is
    represented by [ValueError]. *)
Inductive exn : Type :=
| ValueError
| TypeError
| KeyError
| ZeroDivisionError
| RuntimeError.

Definition exn_eqb (a b : exn) : bool :=
  match a, b with
  | ValueError, ValueError
  | TypeError, TypeError
  | KeyError, KeyError
  | ZeroDivisionError, ZeroDivisionError
  | RuntimeError, RuntimeError => true
  | _, _ => false
  end.

Inductive result (A : Type) : Type :=
| Ok (a : A)
| Raise (e : exn).

Arguments Ok {A} a.
Arguments Raise {A} e.

Definition bind {A B : Type} (r : result A) (k : A -> result B) : result B :=
  match r with
  | Ok a => k a
  | Raise e => Raise e
  end.

Notation "x <- r ;; k" := (bind r (fun x => k))
  (at level 61, r at next level, right associativity).

(** [try: body except classes: handler] *)
Definition try_except {A : Type} (body : result A) (classes : list exn)
    (handler : result A) : result A :=
  match body with
  | Ok a => Ok a
  | Raise e => if existsb (exn_eqb e) classes then handler else Raise e
  end.

Definition raises {A : Type} (r : result A) : bool :=
  match r with
  | Ok _ => false
  | Raise _ => true
  end.

(** ** The arithmetic interface *)

(** The operations the package applies to floats.  [lit q] is the float
    denoted by the decimal literal or the integer [q] (Python converts an
    [int] operand of a mixed operation to [float]; the true quotient of two
    ints is the float nearest to the exact quotient).  [round2 x] is
    [round(x, 2)] and [mean l] is [statistics.mean] of a non-empty list.
    Integers are taken to lie within the range of floats: beyond it Python
    raises [OverflowError] where [lit] yields an infinity. *)
Class Arith : Type := {
  num : Type;
  fadd : num -> num -> num;
  fsub : num -> num -> num;
  fmul : num -> num -> num;
  fdiv : num -> num -> num;
  flt : num -> num -> bool;
  fle : num -> num -> bool;
  feq : num -> num -> bool;
  lit : Q -> num;
  round2 : num -> num;
  mean : list num -> num
}.

Declare Scope py_scope.
Delimit Scope py_scope with py.
Infix "+" := fadd : py_scope.
Infix "-" := fsub : py_scope.
Infix "*" := fmul : py_scope.
Infix "/" := fdiv : py_scope.
Infix "<?" := flt (at level 70, no associativity) : py_scope.
Infix "<=?" := fle (at level 70, no associativity) : py_scope.
Infix "=?" := feq (at level 70, no associativity) : py_scope.
Notation "x >? y" := (flt y x) (at level 70, no associativity) : py_scope.
Notation "x >=? y" := (fle y x) (at level 70, no associativity) : py_scope.

(** An [int] used where a float is expected. *)
Definition of_int {A : Arith} (z : Z) : num := lit (inject_Z z).

(** Python's [x / y] on floats: division by zero raises. *)
Definition truediv {A : Arith} (x y : num) : result num :=
  if (y =? lit 0)%py then Raise ZeroDivisionError else Ok (x / y)%py.

(** Python's [min(a, b)]: the first argument unless the second is smaller. *)
Definition py_min {A : Arith} (a b : num) : num :=
  if (b <? a)%py then b else a.

(** [statistics.mean]: an empty sample raises [StatisticsError]. *)
Definition py_mean {A : Arith} (l : list num) : result num :=
  match l with
  | [] => Raise ValueError
  | _ :: _ => Ok (mean l)
  end.

(** The nearest integer to a rational, ties to the even one. *)
Definition round_half_even (q : Q) : Z :=
  let n := Qnum q in
  let d := Zpos (Qden q) in
  let f := (n / d)%Z in
  match (2 * (n mod d) ?= d)%Z with
  | Lt => f
  | Gt => (f + 1)%Z
  | Eq => if Z.even f then f else (f + 1)%Z
  end.

Definition Qsum (l : list Q) : Q := fold_left Qplus l 0%Q.

(** *** Binary64: the arithmetic of CPython's float *)

Module Binary64.

(** The binary64 number nearest to a rational (ties to even), as the
    correctly rounded quotient of numerator and denominator.  This is how
    CPython reads a decimal literal, converts an int and divides two
    ints. *)
Definition SF_of_Q (q : Q) : spec_float :=
  match Qnum q with
  | Z0 => S754_zero false
  | Zpos n =>
      SFdiv prec emax (S754_finite false n 0) (S754_finite false (Qden q) 0)
  | Zneg n =>
      SFdiv prec emax (S754_finite true n 0) (S754_finite false (Qden q) 0)
  end.

Definition of_Q (q : Q) : float := SF2Prim (SF_of_Q q).

(** The exact value of a finite float; [None] for infinities and NaN. *)
Definition Q_of_SF (x : spec_float) : option Q :=
  match x with
  | S754_zero _ => Some 0%Q
  | S754_finite s m e =>
      let a := match e with
               | Z0 => Zpos m # 1
               | Zpos _ => (Zpos m * 2 ^ e)%Z # 1
               | Zneg p => Zpos m # Pos.shiftl 1 (Npos p)
               end in
      Some (if s then Qopp a else a)
  | S754_infinity _ | S754_nan => None
  end.

Definition to_Q (x : float) : option Q := Q_of_SF (Prim2SF x).

(** [round(x, 2)] on a float: the exact value is rounded to the nearest
    multiple of 1/100, ties to even, and the float nearest to that decimal
    is returned; the sign of a zero result is the sign of [x]; infinities
    and NaN are returned as they are. *)
Definition round2 (x : float) : float :=
  match to_Q x with
  | None => x
  | Some q =>
      let n := round_half_even (q * 100) in
      if (n =? 0)%Z then (if get_sign x then neg_zero else zero)
      else of_Q (n # 100)
  end.

Fixpoint exact_values (l : list float) : option (list Q) :=
  match l with
  | [] => Some []
  | x :: l' =>
      match to_Q x, exact_values l' with
      | Some q, Some qs => Some (q :: qs)
      | _, _ => None
      end
  end.

(** [statistics.mean] on floats: the exact sum of the sample divided by its
    size, rounded once; when the sample holds an infinity or a NaN, the
    float sum of those entries divided by the size. *)
Definition mean (l : list float) : float :=
  match exact_values l with
  | Some qs => of_Q (Qred (Qsum qs / inject_Z (Z.of_nat (List.length l))))
  | None =>
      PrimFloat.div
        (fold_left PrimFloat.add (filter (fun x => negb (is_finite x)) l) zero)
        (of_Q (inject_Z (Z.of_nat (List.length l))))
  end.

Definition arith : Arith :=
  Build_Arith PrimFloat.add PrimFloat.sub PrimFloat.mul PrimFloat.div
    PrimFloat.ltb PrimFloat.leb PrimFloat.eqb of_Q round2 mean.

End Binary64.

(** *** Exact rational arithmetic *)

Module Exact.

Definition round2 (q : Q) : Q := round_half_even (q * 100) # 100.

Definition mean (l : list Q) : Q :=
  Qsum l / inject_Z (Z.of_nat (List.length l)).

Definition arith : Arith :=
  Build_Arith Qplus Qminus Qmult Qdiv
    (fun a b => negb (Qle_bool b a)) Qle_bool Qeq_bool (fun q => q)
    round2 mean.

End Exact.

(** ** houses.py *)

(** [QualityScore.AVERAGE] is written [AVERAGE_QUALITY], to keep the name
    [AVERAGE] for the segment of types.py. *)
Inductive QualityScore : Type :=
| EXCELLENT
| GOOD
| AVERAGE_QUALITY
| FAIR
| POOR.

(** [QualityScore.value] *)
Definition quality_value (q : QualityScore) : Z :=
  match q with
  | EXCELLENT => 5
  | GOOD => 4
  | AVERAGE_QUALITY => 3
  | FAIR => 2
  | POOR => 1
  end.

Definition quality_eqb (a b : QualityScore) : bool :=
  (quality_value a =? quality_value b)%Z.

Module Houses.
Section WithArith.
Context {A : Arith}.

Record House : Type := {
  id : Z;
  price : num;
  area : num;
  bedrooms : Z;
  year_built : Z;
  quality_score : option QualityScore;
  available : bool
}.

Definition set_quality_score (h : House) (q : option QualityScore) : House :=
  {| id := id h; price := price h; area := area h; bedrooms := bedrooms h;
     year_built := year_built h; quality_score := q;
     available := available h |}.

Definition set_available (h : House) (b : bool) : House :=
  {| id := id h; price := price h; area := area h; bedrooms := bedrooms h;
     year_built := year_built h; quality_score := quality_score h;
     available := b |}.

Definition calculate_price_per_square_foot (h : House) : result num :=
  if (area h <=? lit 0)%py then Raise ValueError
  else
    let price_per_sqft := (price h / area h)%py in
    Ok (round2 price_per_sqft).

Definition is_new_construction (h : House) (current_year : Z) : result bool :=
  if (year_built h >? current_year)%Z then Raise ValueError
  else if (year_built h <? 1800)%Z then Raise ValueError
  else
    let age := (current_year - year_built h)%Z in
    Ok (age <? 5)%Z.

(** The composite score of [get_quality_score], before it is mapped to the
    enumeration.  [age / max_age] divides two ints; [max_age] is 224. *)
Definition total_score (h : House) : num :=
  let current_year := 2024%Z in
  let max_age := (current_year - 1800)%Z in
  let age := (current_year - year_built h)%Z in
  let age_score := (lit 1 - lit (age # Z.to_pos max_age))%py in
  let avg_room_size := 200%Z in
  let size_per_bedroom := (area h / of_int (Z.max 1 (bedrooms h)))%py in
  let size_score :=
    py_min (lit 1) (size_per_bedroom / of_int (avg_room_size * 2))%py in
  let avg_house_size := 2000%Z in
  let base_size_score :=
    py_min (lit 1) (area h / of_int (avg_house_size * 2))%py in
  (age_score * lit (3 # 10) + size_score * lit (4 # 10)
   + base_size_score * lit (3 # 10))%py.

Definition score_to_quality (total : num) : QualityScore :=
  if (total >=? lit (8 # 10))%py then EXCELLENT
  else if (total >=? lit (6 # 10))%py then GOOD
  else if (total >=? lit (4 # 10))%py then AVERAGE_QUALITY
  else if (total >=? lit (2 # 10))%py then FAIR
  else POOR.

Definition get_quality_score (h : House) : House :=
  match quality_score h with
  | Some _ => h
  | None => set_quality_score h (Some (score_to_quality (total_score h)))
  end.

Definition sell_house (h : House) : House := set_available h false.

End WithArith.
End Houses.

(** ** types.py *)

Inductive Segment : Type :=
| FANCY
| OPTIMIZER
| AVERAGE.

(** ** house_market.py *)

(** [l[i] = x] on a list. *)
Fixpoint list_set {X : Type} (l : list X) (i : nat) (x : X) : list X :=
  match l, i with
  | [], _ => []
  | _ :: l', O => x :: l'
  | y :: l', S i' => y :: list_set l' i' x
  end.

Module HouseMarket.
Section WithArith.
Context {A : Arith}.
Import Houses.

(** The market owns the list [houses].  The dictionary [_house_index] built
    by the constructor maps every [house.id] to the same objects and is
    read only by [get_house_by_id]. *)
Record HousingMarket : Type := { houses : list House }.

(** [dict.get] on an index built by a comprehension: for a repeated id the
    last house wins. *)
Definition get_house_by_id (m : HousingMarket) (house_id : Z) : option House :=
  find (fun h => (id h =? house_id)%Z) (rev (houses m)).

Definition calculate_average_price (m : HousingMarket) (bedrooms : option Z)
  : result num :=
  if match bedrooms with Some b => (b <? 0)%Z | None => false end
  then Raise ValueError
  else
    let filtered_houses :=
      filter (fun house =>
                available house
                && match bedrooms with
                   | None => true
                   | Some b => (Houses.bedrooms house =? b)%Z
                   end)
             (houses m) in
    match filtered_houses with
    | [] => Raise ValueError
    | _ :: _ => Ok (mean (map price filtered_houses))
    end.

(** The segment-specific filter applied to one house by the loop of
    [get_houses_that_meet_requirements]: [Ok true] when the house is
    appended, [Ok false] when the loop continues with the next house, and
    [Raise e] when an exception leaves the loop. *)
Definition segment_filter (m : HousingMarket) (segment : Segment)
    (house : House) : result bool :=
  let current_year := 2024%Z in
  match segment with
  | FANCY =>
      new <- is_new_construction house current_year ;;
      if negb new
         || negb (match quality_score house with
                  | Some q => quality_eqb q EXCELLENT
                  | None => false
                  end)
      then Ok false
      else Ok true
  | OPTIMIZER =>
      try_except
        (house_price_per_sqft <- calculate_price_per_square_foot house ;;
         market_avg_price <- calculate_average_price m None ;;
         market_avg_size <-
           py_mean (map area (filter available (houses m))) ;;
         market_price_per_sqft <- truediv market_avg_price market_avg_size ;;
         if (house_price_per_sqft >=? market_price_per_sqft)%py
         then Ok false
         else Ok true)
        [ValueError; ZeroDivisionError]
        (Ok false)
  | AVERAGE =>
      try_except
        (market_avg_price <- calculate_average_price m None ;;
         if (price house >? market_avg_price)%py then Ok false else Ok true)
        [ValueError]
        (Ok false)
  end.

(** The loop [for house in self.houses]; [i] is the position of the head of
    [hs] in the market's list, and the result lists the positions of the
    houses appended to [matching_houses], in the order of appending. *)
Fixpoint matching_loop (m : HousingMarket) (max_price : num)
    (segment : Segment) (i : nat) (hs : list House) : result (list nat) :=
  match hs with
  | [] => Ok []
  | house :: rest =>
      if negb (available house) || (price house >? max_price)%py
      then matching_loop m max_price segment (S i) rest
      else
        keep <- segment_filter m segment house ;;
        matching_houses <- matching_loop m max_price segment (S i) rest ;;
        Ok (if keep then i :: matching_houses else matching_houses)
  end.

Definition get_houses_that_meet_requirements (m : HousingMarket)
    (max_price : num) (segment : Segment) : result (list nat) :=
  if (max_price <=? lit 0)%py then Raise ValueError
  else matching_loop m max_price segment 0 (houses m).

End WithArith.
End HouseMarket.

(** ** consumers.py *)

Module Consumers.
Section WithArith.
Context {A : Arith}.
Import Houses HouseMarket.

(** [house] is [None] or a reference to a House object of the market. *)
Record Consumer : Type := {
  id : Z;
  annual_income : num;
  children_number : Z;
  segment : Segment;
  house : option nat;
  savings : num;
  saving_rate : num;
  interest_rate : num
}.

Definition set_savings (c : Consumer) (s : num) : Consumer :=
  {| id := id c; annual_income := annual_income c;
     children_number := children_number c; segment := segment c;
     house := house c; savings := s; saving_rate := saving_rate c;
     interest_rate := interest_rate c |}.

Definition set_house (c : Consumer) (h : option nat) : Consumer :=
  {| id := id c; annual_income := annual_income c;
     children_number := children_number c; segment := segment c;
     house := h; savings := savings c; saving_rate := saving_rate c;
     interest_rate := interest_rate c |}.

(** The body of [for _ in range(years)], run [n] times on the savings. *)
Fixpoint savings_loop (n : nat) (annual_contribution rate s : num) : num :=
  match n with
  | O => s
  | S n' =>
      let s1 := (s + annual_contribution)%py in
      let s2 := (s1 * (lit 1 + rate))%py in
      savings_loop n' annual_contribution rate s2
  end.

Definition compute_savings (c : Consumer) (years : Z) : result Consumer :=
  if (years <? 0)%Z then Raise ValueError
  else
    let annual_contribution := (annual_income c * saving_rate c)%py in
    let s := savings_loop (Z.to_nat years) annual_contribution
               (interest_rate c) (savings c) in
    Ok (set_savings c (round2 s)).

(** [buy_a_house] changes the consumer and, through [sell_house], a house
    of the market; an exception leaves both as they were.  The positions
    returned by the market are positions of its list, so the lookup of the
    selected house cannot fail. *)
Definition buy_a_house (c : Consumer) (housing_market : HousingMarket)
  : result (Consumer * HousingMarket) :=
  match house c with
  | Some _ => Ok (c, housing_market)
  | None =>
      let max_price := (savings c * of_int 5)%py in
      suitable_houses <-
        get_houses_that_meet_requirements housing_market max_price
          (segment c) ;;
      match suitable_houses with
      | [] => Ok (c, housing_market)
      | selected :: _ =>
          match nth_error (houses housing_market) selected with
          | None => Ok (c, housing_market)
          | Some selected_house =>
              let market' :=
                {| houses := list_set (houses housing_market) selected
                               (sell_house selected_house) |} in
              let c1 := set_house c (Some selected) in
              let c2 :=
                set_savings c1
                  (savings c1 - price selected_house * lit (2 # 10))%py in
              Ok (c2, market')
          end
      end
  end.

End WithArith.
End Consumers.

(** ** simulation.py *)

Inductive CleaningMarketMechanism : Type :=
| INCOME_ORDER_DESCENDANT
| INCOME_ORDER_ASCENDANT
| RANDOM.

(** A cell of a raw record.  The records come from [csv.DictReader] through
    the package's loader and cleaner, which leave a string in a cell or
    replace it by [None]. *)
Inductive PyVal : Type :=
| PyNone
| PyStr (s : string).

(** A raw record, [Dict[str, Any]]. *)
Definition RawRecord : Type := list (string * PyVal).

(** [key in data] *)
Definition dict_mem (data : RawRecord) (key : string) : bool :=
  existsb (fun kv => String.eqb (fst kv) key) data.

(** [data[key]] *)
Definition dict_get (data : RawRecord) (key : string) : result PyVal :=
  match find (fun kv => String.eqb (fst kv) key) data with
  | Some kv => Ok (snd kv)
  | None => Raise KeyError
  end.

(** Python's parsers of numerals, [int(s)] and [float(s)] on a string: [None]
    stands for the [ValueError] of a string that is not a numeral. *)
Class Parsers {A : Arith} : Type := {
  int_of_str : string -> option Z;
  float_of_str : string -> option num
}.

Module Sim.
Section WithArith.
Context {A : Arith} {P : Parsers}.
Import Houses HouseMarket Consumers.

Record AnnualIncomeStatistics : Type := {
  income_minimum : num;
  income_average : num;
  income_standard_deviation : num;
  income_maximum : num
}.

Record ChildrenRange : Type := {
  children_minimum : num;
  children_maximum : num
}.

(** The dataclass fields, and the two attributes [housing_market] and
    [consumers], which exist once [create_housing_market] and
    [create_consumers] have set them ([hasattr]). *)
Record Simulation : Type := {
  housing_market_data : list RawRecord;
  consumers_number : Z;
  years : Z;
  annual_income : AnnualIncomeStatistics;
  children_range : ChildrenRange;
  cleaning_market_mechanism : CleaningMarketMechanism;
  down_payment_percentage : num;
  saving_rate : num;
  interest_rate : num;
  housing_market : option HousingMarket;
  consumers : option (list Consumer)
}.

Definition set_housing_market (s : Simulation) (m : option HousingMarket)
  : Simulation :=
  {| housing_market_data := housing_market_data s;
     consumers_number := consumers_number s; years := years s;
     annual_income := annual_income s; children_range := children_range s;
     cleaning_market_mechanism := cleaning_market_mechanism s;
     down_payment_percentage := down_payment_percentage s;
     saving_rate := saving_rate s; interest_rate := interest_rate s;
     housing_market := m; consumers := consumers s |}.

Definition set_consumers (s : Simulation) (cs : option (list Consumer))
  : Simulation :=
  {| housing_market_data := housing_market_data s;
     consumers_number := consumers_number s; years := years s;
     annual_income := annual_income s; children_range := children_range s;
     cleaning_market_mechanism := cleaning_market_mechanism s;
     down_payment_percentage := down_payment_percentage s;
     saving_rate := saving_rate s; interest_rate := interest_rate s;
     housing_market := housing_market s; consumers := cs |}.

(** [int(v)] and [float(v)] on a cell: [None] is not a number
    ([TypeError]), a string that is not a numeral is a [ValueError]. *)
Definition py_int (v : PyVal) : result Z :=
  match v with
  | PyNone => Raise TypeError
  | PyStr s =>
      match int_of_str s with
      | Some z => Ok z
      | None => Raise ValueError
      end
  end.

Definition py_float (v : PyVal) : result num :=
  match v with
  | PyNone => Raise TypeError
  | PyStr s =>
      match float_of_str s with
      | Some x => Ok x
      | None => Raise ValueError
      end
  end.

Definition quality_of_overall_qual (score_value : Z) : QualityScore :=
  if (score_value <=? 2)%Z then POOR
  else if (score_value <=? 4)%Z then FAIR
  else if (score_value <=? 6)%Z then AVERAGE_QUALITY
  else if (score_value <=? 8)%Z then GOOD
  else EXCELLENT.

(** The body of the [try] block for the record at index [idx]. *)
Definition house_of_record (idx : nat) (data : RawRecord) : result House :=
  quality_score <-
    (if dict_mem data "overall_qual"
     then
       v <- dict_get data "overall_qual" ;;
       score_value <- py_int v ;;
       Ok (Some (quality_of_overall_qual score_value))
     else Ok None) ;;
  price <- (v <- dict_get data "sale_price" ;; py_float v) ;;
  area <- (v <- dict_get data "gr_liv_area" ;; py_float v) ;;
  bedrooms <- (v <- dict_get data "bedroom_abv_gr" ;; py_int v) ;;
  year_built <- (v <- dict_get data "year_built" ;; py_int v) ;;
  Ok {| Houses.id := Z.of_nat idx; Houses.price := price;
        Houses.area := area; Houses.bedrooms := bedrooms;
        Houses.year_built := year_built;
        Houses.quality_score := quality_score;
        Houses.available := true |}.

(** The loop [for idx, data in enumerate(self.housing_market_data)]:
    [KeyError] and [ValueError] skip the record, any other exception leaves
    the loop. *)
Fixpoint houses_loop (idx : nat) (records : list RawRecord)
  : result (list House) :=
  match records with
  | [] => Ok []
  | data :: rest =>
      appended <-
        try_except
          (house <- house_of_record idx data ;; Ok (Some house))
          [KeyError; ValueError]
          (Ok None) ;;
      houses <- houses_loop (S idx) rest ;;
      Ok (match appended with
          | Some house => house :: houses
          | None => houses
          end)
  end.

(** An exception leaves the simulation without the attribute
    [housing_market]. *)
Definition create_housing_market (s : Simulation) : result Simulation :=
  houses <- houses_loop 0 (housing_market_data s) ;;
  Ok (set_housing_market s (Some {| houses := houses |})).

(** [create_consumers], given for every consumer the accepted draw of the
    income, the drawn number of children and the drawn segment. *)
Definition create_consumers (s : Simulation)
    (draws : list (num * Z * Segment)) : Simulation :=
  let consumers :=
    map (fun id_draw =>
           let '(i, (income, children, segment)) := id_draw in
           {| Consumers.id := Z.of_nat i;
              Consumers.annual_income := income;
              Consumers.children_number := children;
              Consumers.segment := segment;
              Consumers.house := None;
              Consumers.savings := lit 0;
              Consumers.saving_rate := saving_rate s;
              Consumers.interest_rate := interest_rate s |})
        (combine (seq 0 (List.length draws)) draws) in
  set_consumers s (Some consumers).

(** A loop over consumer objects that may be left by an exception: the
    consumers changed before the exception stay changed. *)
Fixpoint savings_all (years : Z) (done todo : list Consumer)
  : list Consumer * result unit :=
  match todo with
  | [] => (done, Ok tt)
  | consumer :: rest =>
      match compute_savings consumer years with
      | Ok consumer' => savings_all years (done ++ [consumer']) rest
      | Raise e => (done ++ todo, Raise e)
      end
  end.

Definition compute_consumers_savings (s : Simulation)
  : Simulation * result unit :=
  match consumers s with
  | None => (s, Raise RuntimeError)
  | Some cs =>
      let '(cs', r) := savings_all (years s) [] cs in
      (set_consumers s (Some cs'), r)
  end.

(** [list.sort(key=...)] is stable and compares keys with [<] only; on
    totally ordered keys it yields the list that this insertion sort
    yields. *)
Fixpoint insert_by_key {X : Type} (key : X -> num) (x : X) (l : list X)
  : list X :=
  match l with
  | [] => [x]
  | y :: l' =>
      if (key y <? key x)%py then y :: insert_by_key key x l'
      else x :: y :: l'
  end.

Definition sort_by_key {X : Type} (key : X -> num) (l : list X) : list X :=
  fold_right (insert_by_key key) [] l.

(** [reverse=True] sorts the reversed list and reverses the result, which
    keeps the sort stable. *)
Definition sort_by_key_reverse {X : Type} (key : X -> num) (l : list X)
  : list X :=
  rev (sort_by_key (fun x => key x) (rev l)).

(** The order in which the consumer objects are processed, as positions
    of [self.consumers].  [shuffle] is the permutation [random.shuffle]
    applies. *)
Definition processing_order (shuffle : list nat -> list nat)
    (mechanism : CleaningMarketMechanism) (cs : list Consumer) : list nat :=
  let consumers_to_process := combine (seq 0 (List.length cs)) cs in
  let key := fun ic : nat * Consumer => Consumers.annual_income (snd ic) in
  match mechanism with
  | INCOME_ORDER_DESCENDANT =>
      map fst (sort_by_key_reverse key consumers_to_process)
  | INCOME_ORDER_ASCENDANT =>
      map fst (sort_by_key key consumers_to_process)
  | RANDOM => shuffle (map fst consumers_to_process)
  end.

(** The loop [for consumer in consumers_to_process]: each consumer object
    is read from and written back to its position. *)
Fixpoint buy_loop (order : list nat) (cs : list Consumer)
    (m : HousingMarket) : list Consumer * HousingMarket * result unit :=
  match order with
  | [] => (cs, m, Ok tt)
  | i :: rest =>
      match nth_error cs i with
      | None => buy_loop rest cs m
      | Some consumer =>
          match buy_a_house consumer m with
          | Ok (consumer', m') => buy_loop rest (list_set cs i consumer') m'
          | Raise e => (cs, m, Raise e)
          end
      end
  end.

Definition clean_the_market (shuffle : list nat -> list nat)
    (s : Simulation) : Simulation * result unit :=
  match consumers s, housing_market s with
  | Some cs, Some m =>
      let order :=
        processing_order shuffle (cleaning_market_mechanism s) cs in
      let '(cs', m', r) := buy_loop order cs m in
      (set_housing_market (set_consumers s (Some cs')) (Some m'), r)
  | _, _ => (s, Raise RuntimeError)
  end.

Definition count_owners (cs : list Consumer) : nat :=
  List.length
    (filter (fun c => match Consumers.house c with
                      | Some _ => true
                      | None => false
                      end) cs).

Definition count_available (hs : list House) : nat :=
  List.length (filter available hs).

Definition count_sold (hs : list House) : nat :=
  List.length (filter (fun h => negb (available h)) hs).

(** [a / b] on two ints: a zero divisor raises; otherwise the result is the
    float nearest to the exact quotient, which [lit] is given in lowest
    terms. *)
Definition int_truediv (a b : Z) : result num :=
  if (b =? 0)%Z then Raise ZeroDivisionError
  else Ok (lit (Qred (inject_Z a / inject_Z b))).

Definition compute_owners_population_rate (s : Simulation) : result num :=
  match consumers s with
  | None => Raise RuntimeError
  | Some cs =>
      let owners := count_owners cs in
      int_truediv (Z.of_nat owners) (Z.of_nat (List.length cs))
  end.

Definition compute_houses_availability_rate (s : Simulation) : result num :=
  match housing_market s with
  | None => Raise RuntimeError
  | Some m =>
      let available := count_available (houses m) in
      int_truediv (Z.of_nat available) (Z.of_nat (List.length (houses m)))
  end.

End WithArith.
End Sim.

(** * Specification vocabulary *)

(** The notions the properties below are stated with. *)

Section MarketVocabulary.
Context {A : Arith}.
Import Houses HouseMarket.

Definition available_houses (m : HousingMarket) : list House :=
  filter available (houses m).

(** The average price and the average area over the available houses. *)
Definition average_price (m : HousingMarket) : num :=
  mean (map price (available_houses m)).

Definition average_area (m : HousingMarket) : num :=
  mean (map area (available_houses m)).

(** The data model's range of [year_built]: 1800 up to the reference year
    2024 of the market. *)
Definition valid_year (h : House) : Prop :=
  (1800 <= year_built h <= 2024)%Z.

(** The rule of each segment, in the words of the specification.
    - FANCY: new construction (age below 5 in 2024) of EXCELLENT quality;
    - OPTIMIZER: the price per area, which needs a positive area, is
      strictly below average price over average area, which needs a
      non-zero average area;
    - AVERAGE: the price is not above the average price. *)
Definition segment_rule (m : HousingMarket) (segment : Segment) (h : House)
  : bool :=
  match segment with
  | FANCY =>
      (2024 - year_built h <? 5)%Z
      && match quality_score h with
         | Some EXCELLENT => true
         | _ => false
         end
  | OPTIMIZER =>
      negb (area h <=? lit 0)%py
      && negb (average_area m =? lit 0)%py
      && negb (round2 (price h / area h)
               >=? average_price m / average_area m)%py
  | AVERAGE => negb (price h >? average_price m)%py
  end.

(** A house is eligible when it is available, its price is not above
    [max_price], and it meets the rule of the segment. *)
Definition eligible (m : HousingMarket) (max_price : num)
    (segment : Segment) (h : House) : bool :=
  available h && negb (price h >? max_price)%py && segment_rule m segment h.

(** The positions of the houses that satisfy [p], in the order of the
    list, counted from [i]. *)
Definition positions_from (p : House -> bool) (i : nat) (hs : list House)
  : list nat :=
  map fst (filter (fun ih => p (snd ih)) (combine (seq i (List.length hs)) hs)).

Definition eligible_positions (m : HousingMarket) (max_price : num)
    (segment : Segment) : list nat :=
  positions_from (eligible m max_price segment) 0 (houses m).

Definition is_ok_true (r : result bool) : bool :=
  match r with
  | Ok true => true
  | _ => false
  end.

(** What the loop appends for one house. *)
Definition appended (m : HousingMarket) (max_price : num)
    (segment : Segment) (h : House) : bool :=
  available h && negb (price h >? max_price)%py
  && is_ok_true (segment_filter m segment h).

End MarketVocabulary.

(** ** Concrete markets in binary64 *)

Module Examples.
Import Houses HouseMarket Consumers.

Definition B : Arith := Binary64.arith.

(** [House(id, price, area, bedrooms, year_built, quality_score)] *)
Definition mk_house (i : Z) (p a : Q) (b y : Z) (q : option QualityScore)
  : @House B :=
  {| Houses.id := i; price := @lit B p; area := @lit B a; bedrooms := b;
     year_built := y; quality_score := q; available := true |}.

(** [Consumer(id, annual_income, children_number, segment, None, savings)]
    with the default saving rate 0.3 and interest rate 0.05. *)
Definition mk_consumer (i : Z) (income : Q) (seg : Segment) (s : Q)
  : @Consumer B :=
  {| Consumers.id := i; annual_income := @lit B income;
     children_number := 0; segment := seg; house := None;
     savings := @lit B s; saving_rate := @lit B (3 # 10);
     interest_rate := @lit B (5 # 100) |}.

(** Three houses priced 50000, 140000 and 60000. *)
Definition market_three : @HousingMarket B :=
  {| houses := [ mk_house 0 50000 1000 2 1990 None;
                 mk_house 1 140000 1500 3 2000 None;
                 mk_house 2 60000 1200 3 2010 None ] |}.

(** A market whose only house was built, by its record, in 2025. *)
Definition market_future : @HousingMarket B :=
  {| houses := [ mk_house 0 250000 2000 3 2025 (Some EXCELLENT) ] |}.

(** A market with a new EXCELLENT house and, after it, a house whose
    record gives the year 1790. *)
Definition market_old : @HousingMarket B :=
  {| houses := [ mk_house 0 250000 2000 3 2022 (Some EXCELLENT);
                 mk_house 1 90000 900 2 1790 (Some GOOD) ] |}.

(** A consumer with savings 40000 and a market whose only house costs
150000. *)
Definition consumer_40000 : @Consumer B := mk_consumer 0 60000 AVERAGE 40000.

Definition market_150000 : @HousingMarket B :=
  {| houses := [ mk_house 0 150000 1500 3 2005 None ] |}.

(** A consumer with savings 20000.6 and a market whose only house costs
100003. *)
Definition consumer_20000_6 : @Consumer B :=
  mk_consumer 0 50000 AVERAGE (200006 # 10).

Definition market_100003 : @HousingMarket B :=
  {| houses := [ mk_house 0 100003 1000 3 2000 None ] |}.

(** A consumer whose savings are 0.125, and one with income 50000 and no
savings. *)
Definition consumer_eighth : @Consumer B :=
  mk_consumer 0 50000 AVERAGE (125 # 1000).

Definition consumer_new : @Consumer B := mk_consumer 0 50000 AVERAGE 0.

(** A simulation about to clear its market: two consumers with savings of
30000 and 40000 and incomes of 45000 and 60000, and the market of three
houses. *)
Definition simulation_two_consumers : @Sim.Simulation B :=
  {| Sim.housing_market_data := [];
     Sim.consumers_number := 2;
     Sim.years := 5;
     Sim.annual_income :=
       {| Sim.income_minimum := @lit B 20000;
          Sim.income_average := @lit B 50000;
          Sim.income_standard_deviation := @lit B 10000;
          Sim.income_maximum := @lit B 100000 |};
     Sim.children_range :=
       {| Sim.children_minimum := @lit B 0; Sim.children_maximum := @lit B 5 |};
     Sim.cleaning_market_mechanism := INCOME_ORDER_DESCENDANT;
     Sim.down_payment_percentage := @lit B (2 # 10);
     Sim.saving_rate := @lit B (3 # 10);
     Sim.interest_rate := @lit B (5 # 100);
     Sim.housing_market := Some market_three;
     Sim.consumers := Some [ mk_consumer 0 45000 AVERAGE 30000;
                             mk_consumer 1 60000 AVERAGE 40000 ] |}.

(** Two raw records as the loader yields them: a complete one, and one
whose sale price was an empty cell. *)
Definition record_complete : RawRecord :=
  [ ("sale_price", PyStr "208500"); ("gr_liv_area", PyStr "1710");
    ("bedroom_abv_gr", PyStr "3"); ("year_built", PyStr "2003");
    ("overall_qual", PyStr "7") ]%string.

Definition record_empty_price : RawRecord :=
  [ ("sale_price", PyNone); ("gr_liv_area", PyStr "1262");
    ("bedroom_abv_gr", PyStr "3"); ("year_built", PyStr "1976") ]%string.

Definition simulation_with_records (records : list RawRecord)
  : @Sim.Simulation B :=
  {| Sim.housing_market_data := records;
     Sim.consumers_number := 2;
     Sim.years := 5;
     Sim.annual_income :=
       {| Sim.income_minimum := @lit B 20000;
          Sim.income_average := @lit B 50000;
          Sim.income_standard_deviation := @lit B 10000;
          Sim.income_maximum := @lit B 100000 |};
     Sim.children_range :=
       {| Sim.children_minimum := @lit B 0; Sim.children_maximum := @lit B 5 |};
     Sim.cleaning_market_mechanism := INCOME_ORDER_DESCENDANT;
     Sim.down_payment_percentage := @lit B (2 # 10);
     Sim.saving_rate := @lit B (3 # 10);
     Sim.interest_rate := @lit B (5 # 100);
     Sim.housing_market := None;
     Sim.consumers := None |}.

(** Houses in exact arithmetic: one of the data model, and one whose record
gives the year 2100. *)
Definition exact_house (y : Z) (a : Q) (b : Z) : @House Exact.arith :=
  {| Houses.id := 0; price := @lit Exact.arith 100000;
     area := @lit Exact.arith a; bedrooms := b; year_built := y;
     quality_score := None; available := true |}.

(** The same consumer and market in exact arithmetic. *)
Definition E : Arith := Exact.arith.

Definition exact_consumer_20000_6 : @Consumer E :=
  {| Consumers.id := 0; annual_income := @lit E 50000; children_number := 0;
     segment := AVERAGE; house := None; savings := @lit E (200006 # 10);
     saving_rate := @lit E (3 # 10); interest_rate := @lit E (5 # 100) |}.

Definition exact_market_100003 : @HousingMarket E :=
  {| houses := [ {| Houses.id := 0; price := @lit E 100003;
                    area := @lit E 1000; bedrooms := 3; year_built := 2000;
                    quality_score := None; available := true |} ] |}.

(** Python's [int] and [float] on plain decimal numerals, the non-empty
strings of digits: ["208500"] is read as 208500 and as 208500.0.  On every
other string this instance answers [None]; the examples below hold plain
numerals only. *)
Definition digit_value (c : ascii) : option Z :=
  let n := Z.of_N (N_of_ascii c) in
  if ((48 <=? n) && (n <=? 57))%Z then Some (n - 48)%Z else None.

Fixpoint digits_value (acc : Z) (s : string) : option Z :=
  match s with
  | EmptyString => Some acc
  | String c s' =>
      match digit_value c with
      | Some d => digits_value (10 * acc + d) s'
      | None => None
      end
  end.

Definition plain_numeral (s : string) : option Z :=
  match s with
  | EmptyString => None
  | String _ _ => digits_value 0 s
  end.

Definition plain_parsers : @Parsers B :=
  @Build_Parsers B plain_numeral
    (fun s => option_map (fun z => @lit B (inject_Z z)) (plain_numeral s)).

(** A record without the field [gr_liv_area], a third complete record, and
the three records in a row. *)
Definition record_without_area : RawRecord :=
  [ ("sale_price", PyStr "181500"); ("bedroom_abv_gr", PyStr "3");
    ("year_built", PyStr "1976"); ("overall_qual", PyStr "6") ]%string.

Definition record_2001 : RawRecord :=
  [ ("sale_price", PyStr "223500"); ("gr_liv_area", PyStr "1786");
    ("bedroom_abv_gr", PyStr "3"); ("year_built", PyStr "2001");
    ("overall_qual", PyStr "9") ]%string.

Definition records_three : list RawRecord :=
  [ record_complete; record_without_area; record_2001 ].

(** The houses of the first and the third record. *)
Definition house_of_record_complete : @House B :=
  {| Houses.id := 0; price := @lit B 208500; area := @lit B 1710;
     bedrooms := 3; year_built := 2003; quality_score := Some GOOD;
     available := true |}.

Definition house_of_record_2001 : @House B :=
  {| Houses.id := 2; price := @lit B 223500; area := @lit B 1786;
     bedrooms := 3; year_built := 2001; quality_score := Some EXCELLENT;
     available := true |}.

End Examples.

Section ConsumerVocabulary.
Context {A : Arith}.
Import Houses HouseMarket Consumers.

(** The highest price a consumer can afford: five times the savings. *)
Definition max_affordable (c : Consumer) : num := (savings c * of_int 5)%py.

(** The down payment for a house: 0.2 times its price. *)
Definition down_payment (h : House) : num := (price h * lit (2 # 10))%py.

(** A consumer differs from another at most in [house] and [savings]. *)
Definition same_identity (c c' : Consumer) : Prop :=
  Consumers.id c' = Consumers.id c
  /\ annual_income c' = annual_income c
  /\ children_number c' = children_number c
  /\ segment c' = segment c
  /\ saving_rate c' = saving_rate c
  /\ interest_rate c' = interest_rate c.



End ConsumerVocabulary.

Section ClearingVocabulary.
Context {A : Arith}.
Import Houses HouseMarket Consumers.

(** Every house a consumer owns is a house of the market that is no longer
    available. *)
Definition owned_houses_sold (cs : list Consumer) (m : HousingMarket) : Prop :=
  forall k c r,
    nth_error cs k = Some c -> house c = Some r ->
    exists h, nth_error (houses m) r = Some h /\ available h = false.

(** No house is the owned house of more than one consumer. *)
Definition no_shared_house (cs : list Consumer) : Prop :=
  forall j k cj ck r,
    nth_error cs j = Some cj -> nth_error cs k = Some ck ->
    house cj = Some r -> house ck = Some r -> j = k.

(** From [hs] to [hs'] the market keeps its houses, and no house that was
    unavailable is available again. *)
Definition availability_only_falls (hs hs' : list House) : Prop :=
  List.length hs' = List.length hs
  /\ forall i h h',
       nth_error hs i = Some h -> nth_error hs' i = Some h' ->
       available h = false -> available h' = false.

(** The consumers and the market as [create_consumers] and
    [create_housing_market] leave them: nobody owns a house, every house is
    available. *)
Definition nobody_owns (cs : list Consumer) : Prop :=
  Forall (fun c => house c = None) cs.

Definition all_available (hs : list House) : Prop :=
  Forall (fun h => available h = true) hs.

End ClearingVocabulary.

Section QualityVocabulary.
Context {A : Arith}.
Import Houses.




End QualityVocabulary.

Section IngestionVocabulary.
Context {A : Arith} {P : Parsers}.

(** A cell that [float] or [int] converts. *)
Definition float_cell (v : PyVal) : bool := negb (raises (Sim.py_float v)).
Definition int_cell (v : PyVal) : bool := negb (raises (Sim.py_int v)).

(** The field [key] is present and its cell passes [conv]. *)
Definition field_ok (conv : PyVal -> bool) (data : RawRecord) (key : string)
  : bool :=
  match dict_get data key with
  | Ok v => conv v
  | Raise _ => false
  end.

(** A well-formed record: the four required fields are present with
    convertible values, and so is the optional quality when it is present. *)
Definition well_formed_record (data : RawRecord) : bool :=
  (if dict_mem data "overall_qual" then field_ok int_cell data "overall_qual"
   else true)
  && field_ok float_cell data "sale_price"
  && field_ok float_cell data "gr_liv_area"
  && field_ok int_cell data "bedroom_abv_gr"
  && field_ok int_cell data "year_built".

(** Every cell of the record holds a string. *)
Definition cells_are_strings (data : RawRecord) : Prop :=
  forall key, In (key, PyNone) data -> False.

End IngestionVocabulary.

Section IndexVocabulary.
Context {A : Arith} {P : Parsers}.
Import Houses.

(** The house that the record at index [i] of the input yields, if it
    yields one. *)
Definition house_of_index (records : list RawRecord) (i : nat)
  : option House :=
  match nth_error records i with
  | Some data =>
      match Sim.house_of_record i data with
      | Ok h => Some h
      | Raise _ => None
      end
  | None => None
  end.

(** The fields that [create_housing_market] reads from a record. *)
Definition fields_read : list string :=
  [ "overall_qual"; "sale_price"; "gr_liv_area"; "bedroom_abv_gr";
    "year_built" ]%string.

End IndexVocabulary.

Section OutcomeVocabulary.
Context {A : Arith}.
Import Houses HouseMarket Consumers.

(** A house after some purchases: as it was, or, if it was available, the
    same house sold. *)
Definition house_kept_or_sold (h h' : House) : Prop :=
  h' = h \/ (available h = true /\ h' = sell_house h).

(** A consumer after some purchases on the market [m]: as it was, or, if
    it held no house, holding a house that was available and whose price
    was not above 5 times the savings, with the savings less the down
    payment for it; the house of a FANCY consumer is EXCELLENT and was
    built from 2020 to 2024. *)
Definition consumer_kept_or_bought (m : HousingMarket) (c c' : Consumer)
  : Prop :=
  c' = c
  \/ (house c = None
      /\ exists j h,
           nth_error (houses m) j = Some h
           /\ available h = true
           /\ (price h >? max_affordable c)%py = false
           /\ (segment c = FANCY ->
               quality_score h = Some EXCELLENT
               /\ (2020 <= year_built h <= 2024)%Z)
           /\ c' = set_savings (set_house c (Some j))
                     (savings c - down_payment h)%py).

(** From the consumers [cs] and the market [m] to [cs'] and [m'] nothing
    happened but purchases. *)
Definition only_purchases (cs : list Consumer) (m : HousingMarket)
    (cs' : list Consumer) (m' : HousingMarket) : Prop :=
  Forall2 house_kept_or_sold (houses m) (houses m')
  /\ Forall2 (consumer_kept_or_bought m) cs cs'.

End OutcomeVocabulary.

Section OrderVocabulary.
Context {A : Arith}.
Import Consumers.

(** The consumer at position [i] comes before the one at position [j]
    when the incomes ascend: its income is smaller, or neither income is
    smaller and it stands earlier in the list of consumers. *)
Definition before_ascending (cs : list Consumer) (i j : nat) : Prop :=
  match nth_error cs i, nth_error cs j with
  | Some ci, Some cj =>
      (annual_income ci <? annual_income cj)%py = true
      \/ ((annual_income cj <? annual_income ci)%py = false /\ (i < j)%nat)
  | _, _ => False
  end.

(** The same when the incomes descend: its income is greater, or neither
    income is greater and it stands earlier in the list of consumers. *)
Definition before_descending (cs : list Consumer) (i j : nat) : Prop :=
  match nth_error cs i, nth_error cs j with
  | Some ci, Some cj =>
      (annual_income ci >? annual_income cj)%py = true
      \/ ((annual_income cj >? annual_income ci)%py = false /\ (i < j)%nat)
  | _, _ => False
  end.

(** The order of a stable sort by [key]: [x] goes before [y] when its key
    is smaller, or neither key is smaller and [x] was the earlier of the
    two. *)
Definition sorted_before {X : Type} (key : X -> num)
    (earlier : X -> X -> Prop) (x y : X) : Prop :=
  (key x <? key y)%py = true
  \/ ((key y <? key x)%py = false /\ earlier x y).

(** [x] is not negative: [x < 0] is false. *)
Definition not_negative (x : num) : Prop := (x <? lit 0)%py = false.

End OrderVocabulary.

(** A float, read through [Prim2SF], that is not negative: a zero of
    either sign, a positive number, plus infinity or NaN. *)
Definition SF_not_negative (x : spec_float) : bool :=
  match x with
  | S754_infinity true | S754_finite true _ _ => false
  | _ => true
  end.

Section ParameterVocabulary.
Context {A : Arith}.

(** The simulation with another [down_payment_percentage]. *)
Definition with_down_payment_percentage (s : Sim.Simulation) (d : num)
  : Sim.Simulation :=
  {| Sim.housing_market_data := Sim.housing_market_data s;
     Sim.consumers_number := Sim.consumers_number s;
     Sim.years := Sim.years s;
     Sim.annual_income := Sim.annual_income s;
     Sim.children_range := Sim.children_range s;
     Sim.cleaning_market_mechanism := Sim.cleaning_market_mechanism s;
     Sim.down_payment_percentage := d;
     Sim.saving_rate := Sim.saving_rate s;
     Sim.interest_rate := Sim.interest_rate s;
     Sim.housing_market := Sim.housing_market s;
     Sim.consumers := Sim.consumers s |}.

End ParameterVocabulary.

(** * Properties *)

(** ** Lists updated by position *)

Lemma list_set_length {X : Type} (l : list X) (i : nat) (x : X) :
  List.length (list_set l i x) = List.length l.
Proof.
  revert i; induction l as [|y l IH]; intros [|i]; simpl; auto.
Qed.

Lemma nth_error_list_set_same {X : Type} (l : list X) (i : nat) (x : X) :
  (i < List.length l)%nat -> nth_error (list_set l i x) i = Some x.
Proof.
  revert i; induction l as [|y l IH]; intros [|i] Hi; simpl in *;
    try lia; auto.
  apply IH; lia.
Qed.

Lemma nth_error_list_set_other {X : Type} (l : list X) (i j : nat) (x : X) :
  i <> j -> nth_error (list_set l i x) j = nth_error l j.
Proof.
  revert i j; induction l as [|y l IH]; intros [|i] [|j] Hij; simpl;
    try congruence; auto.
Qed.

Lemma nth_error_list_set_inv {X : Type} (l : list X) (i j : nat) (x y : X) :
  nth_error (list_set l i x) j = Some y ->
  (i = j /\ y = x /\ (i < List.length l)%nat) \/ (i <> j /\ nth_error l j = Some y).
Proof.
  intros H. destruct (Nat.eq_dec i j) as [->|Hne].
  - left. assert (Hj : (j < List.length l)%nat).
    { rewrite <- (list_set_length l j x).
      apply nth_error_Some. congruence. }
    rewrite nth_error_list_set_same in H by assumption.
    repeat split; congruence.
  - right. rewrite nth_error_list_set_other in H by assumption. auto.
Qed.

(** ** The eligibility query (house_market.py) *)

Section MarketQueries.
Context {A : Arith}.
Import Houses HouseMarket.

Lemma positions_from_cons p i h hs :
  positions_from p i (h :: hs) =
  if p h then i :: positions_from p (S i) hs else positions_from p (S i) hs.
Proof.
  unfold positions_from; simpl. destruct (p h); reflexivity.
Qed.

Lemma positions_from_spec p i hs k :
  In k (positions_from p i hs) <->
  exists h, (i <= k)%nat /\ nth_error hs (k - i) = Some h /\ p h = true.
Proof.
  revert i; induction hs as [|h hs IH]; intros i.
  - unfold positions_from; simpl. split; [tauto|].
    intros (h & _ & Hn & _). destruct (k - i)%nat; discriminate.
  - rewrite positions_from_cons.
    assert (Hrest : In k (positions_from p (S i) hs) <->
                    exists h', (S i <= k)%nat
                               /\ nth_error (h :: hs) (k - i) = Some h'
                               /\ p h' = true).
    { rewrite IH. split; intros (h' & Hle & Hn & Hp); exists h';
        repeat split; auto.
      - replace (k - i)%nat with (S (k - S i)) by lia. exact Hn.
      - replace (k - i)%nat with (S (k - S i)) in Hn by lia. exact Hn. }
    destruct (p h) eqn:Hph.
    + simpl. rewrite Hrest. split.
      * intros [<-|(h' & Hle & Hn & Hp)].
        -- exists h. rewrite Nat.sub_diag. auto.
        -- exists h'. repeat split; auto; lia.
      * intros (h' & Hle & Hn & Hp).
        destruct (Nat.eq_dec i k) as [->|Hne]; [now left|right].
        exists h'. repeat split; auto; lia.
    + rewrite Hrest. split.
      * intros (h' & Hle & Hn & Hp). exists h'. repeat split; auto; lia.
      * intros (h' & Hle & Hn & Hp).
        destruct (Nat.eq_dec i k) as [->|Hne].
        -- rewrite Nat.sub_diag in Hn. simpl in Hn. congruence.
        -- exists h'. repeat split; auto; lia.
Qed.

Lemma positions_from_lower p i hs k :
  In k (positions_from p i hs) -> (i <= k)%nat.
Proof.
  rewrite positions_from_spec. intros (h & Hle & _). exact Hle.
Qed.

(** Positions are listed in increasing order: the order of the market. *)
Lemma positions_from_increasing p i hs :
  StronglySorted lt (positions_from p i hs).
Proof.
  revert i; induction hs as [|h hs IH]; intros i.
  - constructor.
  - rewrite positions_from_cons. destruct (p h); auto.
    constructor; auto.
    apply Forall_forall. intros k Hk.
    apply positions_from_lower in Hk. lia.
Qed.

Lemma available_filter_nonempty (m : HousingMarket) (h : House) :
  In h (houses m) -> available h = true -> available_houses m <> [].
Proof.
  intros Hin Hav Hnil.
  assert (Hf : In h (available_houses m)) by (apply filter_In; auto).
  rewrite Hnil in Hf. exact Hf.
Qed.

Lemma calculate_average_price_available (m : HousingMarket) (h : House) :
  In h (houses m) -> available h = true ->
  calculate_average_price m None = Ok (average_price m).
Proof.
  intros Hin Hav. unfold calculate_average_price, average_price.
  rewrite (filter_ext (fun house => available house && true) available)
    by (intros; apply andb_true_r).
  pose proof (available_filter_nonempty m h Hin Hav) as Hne.
  unfold available_houses in *.
  destruct (filter available (houses m)); [congruence|reflexivity].
Qed.

Lemma py_mean_available_area (m : HousingMarket) (h : House) :
  In h (houses m) -> available h = true ->
  py_mean (map area (filter available (houses m))) = Ok (average_area m).
Proof.
  intros Hin Hav. unfold average_area.
  pose proof (available_filter_nonempty m h Hin Hav) as Hne.
  unfold available_houses in *.
  destruct (filter available (houses m)); [congruence|reflexivity].
Qed.

Lemma quality_eqb_excellent (q : QualityScore) :
  quality_eqb q EXCELLENT = match q with EXCELLENT => true | _ => false end.
Proof. destruct q; reflexivity. Qed.

(** On an available house of the market, outside FANCY or with a valid
    year, the filter of the loop decides the rule of the segment and
    raises nothing. *)
Lemma segment_filter_rule (m : HousingMarket) (segment : Segment) (h : House) :
  In h (houses m) -> available h = true ->
  (segment = FANCY -> valid_year h) ->
  segment_filter m segment h = Ok (segment_rule m segment h).
Proof.
  intros Hin Hav Hyear.
  destruct segment; unfold segment_filter, segment_rule.
  - specialize (Hyear eq_refl). unfold valid_year in Hyear.
    unfold is_new_construction.
    replace (year_built h >? 2024)%Z with false by (symmetry; lia).
    replace (year_built h <? 1800)%Z with false by (symmetry; lia).
    unfold bind.
    destruct (2024 - year_built h <? 5)%Z; [|reflexivity].
    destruct (quality_score h) as [q|]; [|reflexivity].
    rewrite quality_eqb_excellent. destruct q; reflexivity.
  - unfold calculate_price_per_square_foot.
    destruct (area h <=? lit 0)%py; [reflexivity|].
    rewrite (calculate_average_price_available m h Hin Hav).
    rewrite (py_mean_available_area m h Hin Hav).
    unfold truediv, bind.
    destruct (average_area m =? lit 0)%py; [reflexivity|].
    destruct (round2 (price h / area h) >=? average_price m / average_area m)%py;
      reflexivity.
  - rewrite (calculate_average_price_available m h Hin Hav).
    unfold bind.
    destruct (price h >? average_price m)%py; reflexivity.
Qed.

Lemma matching_loop_spec (m : HousingMarket) (max_price : num)
    (segment : Segment) (hs : list House) (i : nat) :
  (forall h, In h hs -> In h (houses m)) ->
  (segment = FANCY -> Forall valid_year hs) ->
  matching_loop m max_price segment i hs =
  Ok (positions_from (eligible m max_price segment) i hs).
Proof.
  revert i; induction hs as [|h hs IH]; intros i Hsub Hyear.
  - reflexivity.
  - assert (Hsub' : forall h', In h' hs -> In h' (houses m))
      by (intros; apply Hsub; now right).
    assert (Hyear' : segment = FANCY -> Forall valid_year hs)
      by (intros Hs; specialize (Hyear Hs); now inversion Hyear).
    simpl matching_loop. rewrite positions_from_cons. unfold eligible at 1.
    destruct (available h) eqn:Hav; simpl; [|now apply IH].
    destruct (price h >? max_price)%py; simpl; [now apply IH|].
    rewrite segment_filter_rule; auto.
    + simpl. rewrite IH by assumption. simpl.
      destruct (segment_rule m segment h); reflexivity.
    + apply Hsub; now left.
    + intros Hs. specialize (Hyear Hs). now inversion Hyear.
Qed.

End MarketQueries.

Section MarketQueryResults.
Context {A : Arith}.
Import Houses HouseMarket.

(** Whenever the query returns, it returns the positions of the appended
    houses, whatever the years of the houses are. *)
Lemma matching_loop_sound (m : HousingMarket) (max_price : num)
    (segment : Segment) (hs : list House) (i : nat) (l : list nat) :
  matching_loop m max_price segment i hs = Ok l ->
  l = positions_from (appended m max_price segment) i hs.
Proof.
  revert i l; induction hs as [|h hs IH]; intros i l H.
  - simpl in H. now inversion H.
  - simpl matching_loop in H. rewrite positions_from_cons.
    unfold appended at 1.
    destruct (available h); simpl in *; [|now apply IH].
    destruct (price h >? max_price)%py; simpl in *; [now apply IH|].
    destruct (segment_filter m segment h) as [keep|e]; simpl in H;
      [|discriminate].
    destruct (matching_loop m max_price segment (S i) hs) as [l'|e] eqn:Hl;
      simpl in H; [|discriminate].
    inversion H; subst. rewrite <- (IH _ _ Hl).
    destruct keep; reflexivity.
Qed.

Lemma get_houses_sound (m : HousingMarket) (max_price : num)
    (segment : Segment) (l : list nat) :
  get_houses_that_meet_requirements m max_price segment = Ok l ->
  (max_price <=? lit 0)%py = false
  /\ l = positions_from (appended m max_price segment) 0 (houses m).
Proof.
  unfold get_houses_that_meet_requirements.
  destruct (max_price <=? lit 0)%py; [discriminate|].
  intros H. split; [reflexivity|]. now apply matching_loop_sound.
Qed.

(** Every returned position refers to an available house whose price is
    not above [max_price]. *)
Lemma get_houses_member (m : HousingMarket) (max_price : num)
    (segment : Segment) (l : list nat) (k : nat) :
  get_houses_that_meet_requirements m max_price segment = Ok l ->
  In k l ->
  exists h, nth_error (houses m) k = Some h
            /\ available h = true
            /\ (price h >? max_price)%py = false.
Proof.
  intros H Hk. apply get_houses_sound in H. destruct H as [_ ->].
  apply positions_from_spec in Hk. destruct Hk as (h & _ & Hn & Hp).
  rewrite Nat.sub_0_r in Hn. exists h. split; [exact Hn|].
  unfold appended in Hp.
  apply andb_prop in Hp. destruct Hp as [Hp _].
  apply andb_prop in Hp. destruct Hp as [Hav Hpr].
  split; [exact Hav|]. now apply negb_true_iff.
Qed.

End MarketQueryResults.

(** X1 ([HousingMarket.get_houses_that_meet_requirements]): the
    eligibility query when no house fails the validation of its year.
    [get_houses_that_meet_requirements(max_price, segment)] raises
    [ValueError] exactly when [max_price <= 0]; otherwise it returns, in the
    order of the market's list, exactly the positions of the available houses
    whose price is not above [max_price] and that satisfy the rule of the
    segment.  For AVERAGE a house priced above the average price over the
    available houses is left out even when its price is not above
    [max_price], and no failure of the average escapes.  The premise is
    about FANCY only: the years of the houses lie in the data model's
    range, 1800 to 2024. *)
Theorem get_houses_that_meet_requirements_spec {A : Arith}
    (m : HouseMarket.HousingMarket) (max_price : num) (segment : Segment) :
  (segment = FANCY -> Forall valid_year (HouseMarket.houses m)) ->
  HouseMarket.get_houses_that_meet_requirements m max_price segment =
    (if (max_price <=? lit 0)%py then Raise ValueError
     else Ok (eligible_positions m max_price segment))
  /\ StronglySorted lt (eligible_positions m max_price segment)
  /\ (forall k,
        In k (eligible_positions m max_price segment) <->
        exists h, nth_error (HouseMarket.houses m) k = Some h
                  /\ Houses.available h = true
                  /\ (Houses.price h >? max_price)%py = false
                  /\ segment_rule m segment h = true)
  /\ (segment = AVERAGE ->
      forall k h,
        nth_error (HouseMarket.houses m) k = Some h ->
        (Houses.price h >? average_price m)%py = true ->
        ~ In k (eligible_positions m max_price segment)).
Proof.
  intros Hyear.
  assert (Hmem : forall k,
             In k (eligible_positions m max_price segment) <->
             exists h, nth_error (HouseMarket.houses m) k = Some h
                       /\ Houses.available h = true
                       /\ (Houses.price h >? max_price)%py = false
                       /\ segment_rule m segment h = true).
  { intros k. unfold eligible_positions. rewrite positions_from_spec.
    rewrite Nat.sub_0_r. unfold eligible.
    split.
    - intros (h & _ & Hn & Hp). exists h.
      apply andb_prop in Hp. destruct Hp as [Hp Hr].
      apply andb_prop in Hp. destruct Hp as [Hav Hpr].
      apply negb_true_iff in Hpr. auto.
    - intros (h & Hn & Hav & Hpr & Hr). exists h.
      rewrite Hav, Hpr, Hr. repeat split; auto. lia. }
  split; [|split; [|split]].
  - unfold HouseMarket.get_houses_that_meet_requirements.
    destruct (max_price <=? lit 0)%py; [reflexivity|].
    apply matching_loop_spec; auto.
  - apply positions_from_increasing.
  - exact Hmem.
  - intros -> k h Hn Hgt Hin. apply Hmem in Hin.
    destruct Hin as (h' & Hn' & _ & _ & Hr).
    assert (h' = h) by congruence. subst h'.
    simpl in Hr. rewrite Hgt in Hr. discriminate.
Qed.

(** The query on three houses priced 50000, 140000 and 60000 with
    [max_price = 150000] and segment AVERAGE: the average is 83333.33, and
    the second house, although affordable, is left out. *)
Lemma get_houses_that_meet_requirements_average_example :
  HouseMarket.get_houses_that_meet_requirements
    Examples.market_three (@lit Examples.B 150000) AVERAGE
  = Ok [0%nat; 2%nat].
Proof.
  rewrite (proj1 (@get_houses_that_meet_requirements_spec Examples.B
                    Examples.market_three (@lit Examples.B 150000) AVERAGE
                    (fun H => ltac:(discriminate H)))).
  vm_compute. reflexivity.
Defined.

(** C4: with segment FANCY a house whose year fails the validation of
    [is_new_construction] should be left out without an error.  Here the
    market holds one available, affordable house built in 2025: the
    [ValueError] of [is_new_construction] leaves the query. *)
Theorem fancy_future_year_raises :
  HouseMarket.get_houses_that_meet_requirements
    Examples.market_future (@lit Examples.B 1000000) FANCY
  = Raise ValueError.
Proof. vm_compute. reflexivity. Qed.

(** C5: the query should raise exactly when [max_price <= 0] and otherwise
    return the eligible houses.  Here [max_price] is 1000000, the first
    house of the market is new, EXCELLENT and affordable, and the second
    house has the year 1790: with segment FANCY the query raises
    [ValueError] instead of returning the first house.  With segment
    AVERAGE the same market is answered without an error. *)
Theorem positive_max_price_raises :
  @fle Examples.B (lit 1000000) (lit 0) = false
  /\ HouseMarket.get_houses_that_meet_requirements
       Examples.market_old (@lit Examples.B 1000000) FANCY
     = Raise ValueError
  /\ HouseMarket.get_houses_that_meet_requirements
       Examples.market_old (@lit Examples.B 1000000) AVERAGE
     = Ok [1%nat].
Proof. repeat split; vm_compute; reflexivity. Qed.

(** In any arithmetic: the first house that is available, not above
    [max_price] and outside the range of years makes the FANCY query
    raise. *)
Lemma fancy_invalid_year_raises {A : Arith} (m : HouseMarket.HousingMarket)
    (max_price : num) (i : nat) (h : Houses.House) (rest : list Houses.House) :
  Houses.available h = true ->
  (Houses.price h >? max_price)%py = false ->
  (Houses.year_built h > 2024 \/ Houses.year_built h < 1800)%Z ->
  HouseMarket.matching_loop m max_price FANCY i (h :: rest) = Raise ValueError.
Proof.
  intros Hav Hpr Hy. simpl HouseMarket.matching_loop.
  rewrite Hav, Hpr. unfold HouseMarket.segment_filter.
  unfold Houses.is_new_construction.
  destruct (Houses.year_built h >? 2024)%Z eqn:H1; [reflexivity|].
  replace (Houses.year_built h <? 1800)%Z with true by (symmetry; lia).
  reflexivity.
Qed.

(** ** Saving (consumers.py) *)

Section Savings.
Context {A : Arith}.
Import Consumers.



Lemma set_savings_same (c : Consumer) : set_savings c (savings c) = c.
Proof. destruct c; reflexivity. Qed.

End Savings.



(** C7, as stated, fails: [compute_savings(0)] on savings of 0.125 leaves
    0.12, which Python's [==] tells apart from 0.125. *)
Lemma compute_savings_zero_changes_savings :
  exists c',
    Consumers.compute_savings Examples.consumer_eighth 0 = Ok c'
    /\ Consumers.savings c' = @lit Examples.B (12 # 100)
    /\ @feq Examples.B (Consumers.savings c')
         (Consumers.savings Examples.consumer_eighth) = false.
Proof.
  eexists. split; [reflexivity|]. split; reflexivity.
Qed.

(** C7, amended: [compute_savings(0)] replaces the savings by their rounding
    to 2 decimal places and changes nothing else; the savings are unchanged
    whenever they are already rounded. *)
Theorem compute_savings_zero_years {A : Arith} (c : Consumers.Consumer) :
  Consumers.compute_savings c 0
  = Ok (Consumers.set_savings c (round2 (Consumers.savings c)))
  /\ (round2 (Consumers.savings c) = Consumers.savings c ->
      Consumers.compute_savings c 0 = Ok c).
Proof.
  split.
  - reflexivity.
  - intros H. unfold Consumers.compute_savings. simpl.
    rewrite H. rewrite set_savings_same. reflexivity.
Qed.

(** The initial savings 0.0 are rounded already: [compute_savings(0)] leaves
    a new consumer as it is. *)
Lemma compute_savings_zero_years_new_consumer :
  Consumers.compute_savings Examples.consumer_new 0 = Ok Examples.consumer_new.
Proof.
  apply (proj2 (@compute_savings_zero_years Examples.B Examples.consumer_new)).
  reflexivity.
Defined.

(** ** Signs and comparison in binary64 *)

Section Binary64Facts.

Lemma shr_1_nonneg (mrs : shr_record) :
  (0 <= shr_m mrs)%Z -> (0 <= shr_m (shr_1 mrs))%Z.
Proof.
  destruct mrs as [m r s]. simpl. intros H.
  destruct m as [|p|p]; simpl; try lia.
  destruct p; simpl; lia.
Qed.

Lemma iter_pos_shr_1_nonneg (p : positive) (mrs : shr_record) :
  (0 <= shr_m mrs)%Z -> (0 <= shr_m (iter_pos shr_1 p mrs))%Z.
Proof.
  revert mrs; induction p as [p IH|p IH|]; intros mrs H; simpl.
  - apply IH, IH, shr_1_nonneg, H.
  - apply IH, IH, H.
  - apply shr_1_nonneg, H.
Qed.

Lemma shr_fexp_nonneg (m e : Z) (l : location) :
  (0 <= m)%Z -> (0 <= shr_m (fst (shr_fexp prec emax m e l)))%Z.
Proof.
  intros H. unfold shr_fexp, shr.
  assert (H0 : (0 <= shr_m (shr_record_of_loc m l))%Z).
  { destruct l as [|[| |]]; simpl; exact H. }
  destruct (fexp prec emax (Zdigits2 m + e) - e)%Z; simpl; auto.
  apply iter_pos_shr_1_nonneg, H0.
Qed.

Lemma round_nearest_even_nonneg (m : Z) (l : location) :
  (0 <= m)%Z -> (0 <= round_nearest_even m l)%Z.
Proof.
  intros H. destruct l as [|[| |]]; simpl; try lia.
  destruct (Z.even m); lia.
Qed.

(** Rounding keeps the sign and yields no NaN. *)
Lemma binary_round_aux_sign (sx : bool) (mx ex : Z) (lx : location) :
  (0 <= mx)%Z ->
  match binary_round_aux prec emax sx mx ex lx with
  | S754_zero s | S754_infinity s | S754_finite s _ _ => s = sx
  | S754_nan => False
  end.
Proof.
  intros H. unfold binary_round_aux.
  pose proof (@shr_fexp_nonneg mx ex lx H) as H1.
  destruct (shr_fexp prec emax mx ex lx) as [mrs' e'].
  simpl in H1.
  pose proof (@shr_fexp_nonneg
                (round_nearest_even (shr_m mrs') (loc_of_shr_record mrs'))
                e' loc_Exact
                (@round_nearest_even_nonneg _ (loc_of_shr_record mrs') H1))
    as H2.
  destruct (shr_fexp prec emax
              (round_nearest_even (shr_m mrs') (loc_of_shr_record mrs'))
              e' loc_Exact) as [mrs'' e''].
  simpl in H2.
  destruct (shr_m mrs''); try lia; auto.
  destruct (e'' <=? emax - prec)%Z; reflexivity.
Qed.

(** In binary64, [s <= 0] gives [s * 5 <= 0]: a NaN is not [<= 0], and the
    product of a negative number and 5 is rounded to a negative number, a
    negative zero or minus infinity. *)
Lemma binary64_times_five_nonpositive (s : float) :
  PrimFloat.leb s (Binary64.of_Q 0) = true ->
  PrimFloat.leb (PrimFloat.mul s (Binary64.of_Q (inject_Z 5)))
    (Binary64.of_Q 0) = true.
Proof.
  assert (H0 : Prim2SF (Binary64.of_Q 0) = S754_zero false) by reflexivity.
  assert (H5 : Prim2SF (Binary64.of_Q (inject_Z 5))
               = S754_finite false 5629499534213120 (-50)) by reflexivity.
  rewrite !leb_spec, mul_spec, H0, H5.
  destruct (Prim2SF s) as [b|b| |b m e]; simpl.
  - auto.
  - destruct b; auto.
  - auto.
  - destruct b; [intros _|discriminate].
    pose proof (@binary_round_aux_sign true
                  (Z.pos (m * 5629499534213120)) (e + -50) loc_Exact) as H.
    unfold SF64mul, SFmul. cbn [xorb].
    destruct (binary_round_aux prec emax true
                (Z.pos (m * 5629499534213120)) (e + -50) loc_Exact)
      as [s'|s'| |s' m' e'];
      try (specialize (H ltac:(lia))); try (subst s'; reflexivity).
    contradiction.
Qed.

(** Comparison of floats that are not NaN is total: [price > max_price] is
    false exactly when [price <= max_price]. *)
Lemma SFcompare_antisym (x y : spec_float) :
  SFcompare y x = option_map CompOpp (SFcompare x y).
Proof.
  destruct x as [sx|sx| |sx mx ex], y as [sy|sy| |sy my ey]; simpl;
    try reflexivity;
    try (destruct sx; reflexivity); try (destruct sy; reflexivity);
    try (destruct sx, sy; reflexivity).
  destruct sx, sy; try reflexivity.
  - rewrite (Z.compare_antisym ex ey).
    destruct (ex ?= ey)%Z; simpl; try reflexivity.
    change (Pos.compare_cont Eq my mx) with (Pos.compare my mx).
    change (Pos.compare_cont Eq mx my) with (Pos.compare mx my).
    rewrite (Pos.compare_antisym mx my).
    destruct (mx ?= my)%positive; reflexivity.
  - rewrite (Z.compare_antisym ex ey).
    destruct (ex ?= ey)%Z; simpl; try reflexivity.
    change (Pos.compare_cont Eq my mx) with (Pos.compare my mx).
    change (Pos.compare_cont Eq mx my) with (Pos.compare mx my).
    rewrite (Pos.compare_antisym mx my).
    destruct (mx ?= my)%positive; reflexivity.
Qed.

Lemma SFcompare_defined (x y : spec_float) :
  SFeqb x x = true -> SFeqb y y = true -> SFcompare x y <> None.
Proof.
  destruct x as [sx|sx| |sx mx ex], y as [sy|sy| |sy my ey]; simpl;
    intros Hx Hy; try discriminate.
Qed.

Lemma binary64_not_above_is_le (p m : float) :
  is_nan p = false -> is_nan m = false ->
  @flt Binary64.arith m p = negb (@fle Binary64.arith p m).
Proof.
  change (is_nan p = false -> is_nan m = false ->
          PrimFloat.ltb m p = negb (PrimFloat.leb p m)).
  unfold is_nan. rewrite !eqb_spec, ltb_spec, leb_spec.
  intros Hp Hm. apply negb_false_iff in Hp, Hm.
  pose proof (SFcompare_defined _ _ Hp Hm) as Hd.
  unfold SFltb, SFleb.
  rewrite (SFcompare_antisym (Prim2SF p) (Prim2SF m)).
  destruct (SFcompare (Prim2SF p) (Prim2SF m)) as [[| |]|];
    try reflexivity. congruence.
Qed.

Lemma exact_not_above_is_le (p m : Q) :
  @flt Exact.arith m p = negb (@fle Exact.arith p m).
Proof. reflexivity. Qed.

End Binary64Facts.

(** ** Buying (consumers.py) *)

Section Buying.
Context {A : Arith}.
Import Houses HouseMarket Consumers.

Lemma buy_a_house_owner (c : Consumer) (m : HousingMarket) (r : nat) :
  house c = Some r -> buy_a_house c m = Ok (c, m).
Proof. intros H. unfold buy_a_house. rewrite H. reflexivity. Qed.

(** The two ways in which [buy_a_house] returns: nothing changed, or the
    first house of the market's answer was bought. *)
Lemma buy_a_house_inv (c c' : Consumer) (m m' : HousingMarket) :
  buy_a_house c m = Ok (c', m') ->
  (c' = c /\ m' = m)
  \/ (house c = None
      /\ exists i l h,
           get_houses_that_meet_requirements m (max_affordable c) (segment c)
             = Ok (i :: l)
           /\ nth_error (houses m) i = Some h
           /\ available h = true
           /\ (price h >? max_affordable c)%py = false
           /\ c' = set_savings (set_house c (Some i))
                     (savings c - down_payment h)%py
           /\ m' = {| houses := list_set (houses m) i (sell_house h) |}).
Proof.
  unfold buy_a_house. fold (max_affordable c).
  destruct (house c) as [r|] eqn:Hh.
  - intros H; inversion H; auto.
  - destruct (get_houses_that_meet_requirements m (max_affordable c) (segment c))
      as [l|e] eqn:Hq; simpl; [|discriminate].
    destruct l as [|i l].
    + intros H; inversion H; auto.
    + destruct (get_houses_member _ _ _ i Hq (or_introl eq_refl))
        as (h & Hn & Hav & Hpr).
      rewrite Hn. intros H; inversion H; subst. right. split; [reflexivity|].
      exists i, l, h. repeat split; auto.
Qed.

End Buying.

(** C2: [buy_a_house(market)] changes nothing when the consumer holds a
    house.  Otherwise it asks the market for the houses under
    [savings * 5] and the consumer's segment; an exception of the market
    leaves [buy_a_house]; an empty answer changes nothing; of a non-empty
    answer it takes the first house, which becomes unavailable while every
    other house stays as it was, the consumer's [house] refers to it, the
    savings become [savings - price * 0.2], and no other field of the
    consumer changes.  In binary64, savings of 40000 afford 200000, and
    0.2 of 150000 is 30000, which leaves 10000. *)
Theorem buy_a_house_spec {A : Arith}
    (c : Consumers.Consumer) (m : HouseMarket.HousingMarket) :
  (forall r, Consumers.house c = Some r -> Consumers.buy_a_house c m = Ok (c, m))
  /\ (Consumers.house c = None ->
      forall answer,
        HouseMarket.get_houses_that_meet_requirements m
          (Consumers.savings c * of_int 5)%py (Consumers.segment c) = answer ->
        match answer with
        | Raise e => Consumers.buy_a_house c m = Raise e
        | Ok [] => Consumers.buy_a_house c m = Ok (c, m)
        | Ok (first :: _) =>
            exists h c' m',
              Consumers.buy_a_house c m = Ok (c', m')
              /\ nth_error (HouseMarket.houses m) first = Some h
              /\ Houses.available h = true
              /\ nth_error (HouseMarket.houses m') first
                 = Some (Houses.set_available h false)
              /\ (forall j, j <> first ->
                    nth_error (HouseMarket.houses m') j
                    = nth_error (HouseMarket.houses m) j)
              /\ Consumers.house c' = Some first
              /\ Consumers.savings c'
                 = (Consumers.savings c - Houses.price h * lit (2 # 10))%py
              /\ same_identity c c'
        end)
  /\ (@lit Examples.B 40000 * @of_int Examples.B 5)%py = @lit Examples.B 200000
  /\ (@lit Examples.B 150000 * @lit Examples.B (2 # 10))%py
     = @lit Examples.B 30000
  /\ (@lit Examples.B 40000 - @lit Examples.B 30000)%py = @lit Examples.B 10000.
Proof.
  split; [|split; [|repeat split; reflexivity]].
  - intros r Hr. now apply buy_a_house_owner with (r := r).
  - intros Hnone answer Hq.
    unfold Consumers.buy_a_house. rewrite Hnone, Hq.
    destruct answer as [[|first l]|e]; simpl; try reflexivity.
    destruct (get_houses_member _ _ _ first Hq (or_introl eq_refl))
      as (h & Hn & Hav & Hpr).
    rewrite Hn. eexists h, _, _. split; [reflexivity|]. simpl.
    assert (Hlt : (first < List.length (HouseMarket.houses m))%nat)
      by (apply nth_error_Some; congruence).
    repeat split; auto.
    + now apply nth_error_list_set_same.
    + intros j Hj. apply nth_error_list_set_other. congruence.
Qed.

(** A consumer with savings 40000 buys the house priced 150000: the house
    is sold and the savings are 10000. *)
Lemma buy_a_house_example :
  exists c' m',
    Consumers.buy_a_house Examples.consumer_40000 Examples.market_150000
    = Ok (c', m')
    /\ Consumers.house c' = Some 0%nat
    /\ Consumers.savings c' = @lit Examples.B 10000
    /\ option_map Houses.available (nth_error (HouseMarket.houses m') 0)
       = Some false.
Proof.
  pose proof (proj1 (proj2 (@buy_a_house_spec Examples.B
                              Examples.consumer_40000 Examples.market_150000))
                eq_refl _ eq_refl) as H.
  change (HouseMarket.get_houses_that_meet_requirements
            Examples.market_150000
            (Consumers.savings Examples.consumer_40000 * of_int 5)%py
            (Consumers.segment Examples.consumer_40000))
    with (@Ok (list nat) [0%nat]) in H.
  destruct H as (h & c' & m' & Hb & Hn & Hav & Hn' & _ & Hh & Hs & _).
  exists c', m'. split; [exact Hb|]. split; [exact Hh|].
  injection Hn as <-. split.
  - rewrite Hs. reflexivity.
  - rewrite Hn'. reflexivity.
Defined.

(** C6, as stated, fails in the arithmetic of the code: savings of 20000.6
    afford the house priced 100003 ([20000.6 * 5] is 100003.0 in binary64),
    the down payment [100003 * 0.2] is rounded to 20000.600000000002, and
    the savings left are negative. *)
Lemma buy_a_house_makes_savings_negative :
  @fle Examples.B (lit 0) (Consumers.savings Examples.consumer_20000_6) = true
  /\ exists c' m',
       Consumers.buy_a_house Examples.consumer_20000_6 Examples.market_100003
       = Ok (c', m')
       /\ Consumers.house c' = Some 0%nat
       /\ @flt Examples.B (Consumers.savings c') (lit 0) = true.
Proof.
  split; [vm_compute; reflexivity|].
  let r := eval vm_compute in
             (Consumers.buy_a_house Examples.consumer_20000_6
                Examples.market_100003) in
  match r with
  | Ok (?c', ?m') => exists c', m'
  end.
  split; [reflexivity|]. split; [reflexivity|].
  vm_compute; reflexivity.
Qed.

(** C6, amended: [buy_a_house] changes the savings only at a purchase, by
    subtracting [price * 0.2] for a house whose price is not above
    [savings * 5]; in exact arithmetic this never makes savings that are
    [>= 0] negative. *)
Theorem buy_a_house_savings :
  (forall (A : Arith) (c c' : Consumers.Consumer)
          (m m' : HouseMarket.HousingMarket),
      Consumers.buy_a_house c m = Ok (c', m') ->
      Consumers.savings c' = Consumers.savings c
      \/ exists i h,
           nth_error (HouseMarket.houses m) i = Some h
           /\ (Houses.price h >? Consumers.savings c * of_int 5)%py = false
           /\ Consumers.savings c'
              = (Consumers.savings c - Houses.price h * lit (2 # 10))%py)
  /\ (forall (c c' : @Consumers.Consumer Exact.arith)
             (m m' : @HouseMarket.HousingMarket Exact.arith),
        (0 <= Consumers.savings c)%Q ->
        Consumers.buy_a_house c m = Ok (c', m') ->
        (0 <= Consumers.savings c')%Q).
Proof.
  split.
  - intros A c c' m m' H. apply buy_a_house_inv in H.
    destruct H as [[-> _]|(_ & i & l & h & _ & Hn & _ & Hpr & -> & _)].
    + now left.
    + right. exists i, h. repeat split; auto.
  - intros c c' m m' Hs H. apply buy_a_house_inv in H.
    destruct H as [[-> _]|(_ & i & l & h & _ & Hn & _ & Hpr & -> & _)].
    + exact Hs.
    + unfold max_affordable, down_payment, of_int in *. simpl in *.
      apply negb_false_iff in Hpr. apply Qle_bool_iff in Hpr.
      change (inject_Z 5) with (5 # 1)%Q in Hpr.
      lra.
Qed.

(** In exact arithmetic the purchase of the house priced 100003 with
    savings of 20000.6 leaves savings that are not negative. *)
Lemma buy_a_house_savings_exact_example :
  exists c' m',
    Consumers.buy_a_house Examples.exact_consumer_20000_6
      Examples.exact_market_100003 = Ok (c', m')
    /\ (0 <= Consumers.savings c')%Q.
Proof.
  eexists _, _. split; [reflexivity|].
  eapply (proj2 buy_a_house_savings Examples.exact_consumer_20000_6 _
            Examples.exact_market_100003 _);
    [vm_compute; discriminate | reflexivity].
Defined.

(** C10: a consumer who owns no house and whose savings are [<= 0], as the
    initial savings 0.0 are, makes [buy_a_house] raise the [ValueError] of
    the market's check [max_price <= 0]; consumer and market stay as they
    were.  Stated for binary64, the arithmetic of the code. *)
Theorem buy_a_house_without_savings_raises
    (c : @Consumers.Consumer Binary64.arith)
    (m : @HouseMarket.HousingMarket Binary64.arith) :
  Consumers.house c = None ->
  @fle Binary64.arith (Consumers.savings c) (lit 0) = true ->
  Consumers.buy_a_house c m = Raise ValueError.
Proof.
  intros Hnone Hs.
  pose proof (binary64_times_five_nonpositive Hs) as H5.
  unfold Consumers.buy_a_house. rewrite Hnone.
  unfold HouseMarket.get_houses_that_meet_requirements.
  replace (@fle Binary64.arith
             (Consumers.savings c * of_int 5)%py (lit 0)) with true
    by (symmetry; exact H5).
  reflexivity.
Qed.

(** A new consumer, with savings 0.0, raises at any market. *)
Lemma buy_a_house_new_consumer_raises :
  Consumers.buy_a_house Examples.consumer_new Examples.market_three
  = Raise ValueError.
Proof.
  apply buy_a_house_without_savings_raises; reflexivity.
Defined.

(** The same in exact arithmetic. *)
Lemma buy_a_house_without_savings_raises_exact
    (c : @Consumers.Consumer Exact.arith)
    (m : @HouseMarket.HousingMarket Exact.arith) :
  Consumers.house c = None ->
  (Consumers.savings c <= 0)%Q ->
  Consumers.buy_a_house c m = Raise ValueError.
Proof.
  intros Hnone Hs.
  unfold Consumers.buy_a_house. rewrite Hnone.
  unfold HouseMarket.get_houses_that_meet_requirements.
  replace (@fle Exact.arith (Consumers.savings c * of_int 5)%py (lit 0))
    with true; [reflexivity|].
  symmetry. apply Qle_bool_iff. unfold of_int. simpl.
  change (inject_Z 5) with (5 # 1)%Q. lra.
Qed.

(** ** Market clearing (simulation.py) *)

Section Clearing.
Context {A : Arith}.
Import Houses HouseMarket Consumers.

Lemma availability_only_falls_refl (hs : list House) :
  availability_only_falls hs hs.
Proof.
  split; [reflexivity|]. intros i h h' H1 H2 Hav. congruence.
Qed.

Lemma availability_only_falls_trans (hs1 hs2 hs3 : list House) :
  availability_only_falls hs1 hs2 -> availability_only_falls hs2 hs3 ->
  availability_only_falls hs1 hs3.
Proof.
  intros [L12 H12] [L23 H23]. split; [congruence|].
  intros i h h' H1 H3 Hav.
  destruct (nth_error hs2 i) as [h2|] eqn:H2.
  - eapply H23; eauto.
  - apply nth_error_None in H2.
    assert (i < List.length hs1)%nat by (apply nth_error_Some; congruence).
    lia.
Qed.

Lemma availability_only_falls_sale (hs : list House) (i : nat) (h : House) :
  nth_error hs i = Some h ->
  availability_only_falls hs (list_set hs i (sell_house h)).
Proof.
  intros Hn. split; [apply list_set_length|].
  intros j h1 h2 H1 H2 Hav.
  apply nth_error_list_set_inv in H2.
  destruct H2 as [(-> & -> & _)|(_ & H2)]; [reflexivity|congruence].
Qed.

Lemma count_sold_available (hs : list House) :
  (Sim.count_sold hs + Sim.count_available hs = List.length hs)%nat.
Proof.
  unfold Sim.count_sold, Sim.count_available.
  induction hs as [|h hs IH]; simpl; [reflexivity|].
  destruct (available h); simpl; lia.
Qed.

Lemma all_available_count_sold (hs : list House) :
  all_available hs -> Sim.count_sold hs = 0%nat.
Proof.
  unfold Sim.count_sold. induction 1 as [|h hs Hh _ IH]; simpl; [reflexivity|].
  rewrite Hh. exact IH.
Qed.

Lemma nobody_owns_sound (cs : list Consumer) (m : HousingMarket) :
  nobody_owns cs -> owned_houses_sold cs m /\ no_shared_house cs.
Proof.
  intros Hn.
  assert (Hnone : forall k c, nth_error cs k = Some c -> house c = None).
  { intros k c Hk. apply nth_error_In in Hk.
    unfold nobody_owns in Hn. rewrite Forall_forall in Hn. now apply Hn. }
  split.
  - intros k c r Hk Hr. rewrite (Hnone _ _ Hk) in Hr. discriminate.
  - intros j k cj ck r Hj _ Hr. rewrite (Hnone _ _ Hj) in Hr. discriminate.
Qed.

(** One call of [buy_a_house] on the consumer at position [i] keeps the
    ownership sound. *)
Lemma buy_a_house_step (cs : list Consumer) (m m' : HousingMarket)
    (i : nat) (c c' : Consumer) :
  nth_error cs i = Some c ->
  buy_a_house c m = Ok (c', m') ->
  owned_houses_sold cs m -> no_shared_house cs ->
  owned_houses_sold (list_set cs i c') m'
  /\ no_shared_house (list_set cs i c')
  /\ availability_only_falls (houses m) (houses m').
Proof.
  intros Hi Hbuy Hsold Hshare.
  apply buy_a_house_inv in Hbuy.
  destruct Hbuy as [[-> ->]|(Hnone & j & l & h & _ & Hj & Hav & _ & -> & ->)].
  - (* nothing changed *)
    split; [|split].
    + intros k ck r Hk Hr. apply nth_error_list_set_inv in Hk.
      destruct Hk as [(-> & -> & _)|(_ & Hk)]; eapply Hsold; eauto.
    + intros k1 k2 c1 c2 r H1 H2 Hr1 Hr2.
      apply nth_error_list_set_inv in H1, H2.
      destruct H1 as [(<- & -> & _)|(_ & H1)];
        destruct H2 as [(<- & -> & _)|(_ & H2)]; eauto.
    + apply availability_only_falls_refl.
  - (* the house at position [j] was bought *)
    simpl.
    assert (Hfree : forall k ck, nth_error cs k = Some ck -> house ck <> Some j).
    { intros k ck Hk Hr. destruct (Hsold _ _ _ Hk Hr) as (h0 & Hh0 & Hav0).
      congruence. }
    assert (Hlt : (j < List.length (houses m))%nat)
      by (apply nth_error_Some; congruence).
    split; [|split].
    + intros k ck r Hk Hr. apply nth_error_list_set_inv in Hk.
      destruct Hk as [(<- & -> & _)|(Hne & Hk)].
      * simpl in Hr. injection Hr as <-.
        exists (sell_house h). split; [|reflexivity].
        now apply nth_error_list_set_same.
      * destruct (Hsold _ _ _ Hk Hr) as (h0 & Hh0 & Hav0).
        exists h0. split; [|exact Hav0]. simpl.
        rewrite nth_error_list_set_other; [exact Hh0|].
        intros <-. congruence.
    + intros k1 k2 c1 c2 r H1 H2 Hr1 Hr2.
      apply nth_error_list_set_inv in H1, H2.
      destruct H1 as [(<- & -> & _)|(Hne1 & H1)];
        destruct H2 as [(<- & -> & _)|(Hne2 & H2)].
      * reflexivity.
      * simpl in Hr1. injection Hr1 as <-. now destruct (Hfree _ _ H2).
      * simpl in Hr2. injection Hr2 as <-. now destruct (Hfree _ _ H1).
      * eauto.
    + now apply availability_only_falls_sale.
Qed.

(** The loop over the consumers keeps the ownership sound, in whatever
    order it runs and whether it ends or is left by an exception. *)
Lemma buy_loop_invariants (order : list nat) :
  forall (cs cs' : list Consumer) (m m' : HousingMarket) (r : result unit),
    Sim.buy_loop order cs m = (cs', m', r) ->
    owned_houses_sold cs m -> no_shared_house cs ->
    owned_houses_sold cs' m'
    /\ no_shared_house cs'
    /\ availability_only_falls (houses m) (houses m').
Proof.
  induction order as [|i order IH]; intros cs cs' m m' r Hrun Hsold Hshare.
  - simpl in Hrun. inversion Hrun; subst.
    auto using availability_only_falls_refl.
  - simpl in Hrun. destruct (nth_error cs i) as [c|] eqn:Hi.
    + destruct (buy_a_house c m) as [[c1 m1]|e] eqn:Hbuy.
      * edestruct buy_a_house_step as (Hsold1 & Hshare1 & Hfall1);
          [exact Hi | exact Hbuy | exact Hsold | exact Hshare |].
        destruct (IH _ _ _ _ _ Hrun Hsold1 Hshare1) as (H1 & H2 & H3).
        split; [exact H1|]. split; [exact H2|].
        eapply availability_only_falls_trans; eauto.
      * inversion Hrun; subst.
        auto using availability_only_falls_refl.
    + eapply IH; eauto.
Qed.

End Clearing.

(** C1: market clearing, under any mechanism, never makes a house the owned
    house of more than one consumer, and never makes an unavailable house
    available again; this holds after the consumers of every initial part
    of the processing order, and at the end of [clean_the_market], also when
    an exception ends it.  The houses unavailable at the end, less those
    unavailable before, are at most the houses available before; on a
    market in which every house is available before clearing, as
    [create_housing_market] builds it, the houses unavailable at the end are
    at most the houses available before.  Before clearing, every owned house
    is an unavailable house of the market owned by one consumer; this holds
    when nobody owns a house, as after [create_consumers]. *)
Theorem clean_the_market_invariants {A : Arith}
    (shuffle : list nat -> list nat) (s : Sim.Simulation)
    (cs : list Consumers.Consumer) (m : HouseMarket.HousingMarket) :
  Sim.consumers s = Some cs ->
  Sim.housing_market s = Some m ->
  owned_houses_sold cs m ->
  no_shared_house cs ->
  (forall done rest,
      Sim.processing_order shuffle (Sim.cleaning_market_mechanism s) cs
      = done ++ rest ->
      forall cs1 m1 r1,
        Sim.buy_loop done cs m = (cs1, m1, r1) ->
        no_shared_house cs1
        /\ owned_houses_sold cs1 m1
        /\ availability_only_falls
             (HouseMarket.houses m) (HouseMarket.houses m1))
  /\ exists cs' m' r,
       Sim.clean_the_market shuffle s
       = (Sim.set_housing_market (Sim.set_consumers s (Some cs')) (Some m'), r)
       /\ no_shared_house cs'
       /\ owned_houses_sold cs' m'
       /\ availability_only_falls
            (HouseMarket.houses m) (HouseMarket.houses m')
       /\ (Sim.count_sold (HouseMarket.houses m')
           - Sim.count_sold (HouseMarket.houses m)
           <= Sim.count_available (HouseMarket.houses m))%nat
       /\ (all_available (HouseMarket.houses m) ->
           (Sim.count_sold (HouseMarket.houses m')
            <= Sim.count_available (HouseMarket.houses m))%nat).
Proof.
  intros Hcs Hm Hsold Hshare. split.
  - intros done rest _ cs1 m1 r1 Hrun.
    edestruct buy_loop_invariants as (H1 & H2 & H3);
      [exact Hrun | exact Hsold | exact Hshare |].
    auto.
  - unfold Sim.clean_the_market. rewrite Hcs, Hm.
    destruct (Sim.buy_loop
                (Sim.processing_order shuffle
                   (Sim.cleaning_market_mechanism s) cs) cs m)
      as [[cs' m'] r] eqn:Hrun.
    edestruct buy_loop_invariants as (H1 & H2 & H3);
      [exact Hrun | exact Hsold | exact Hshare |].
    exists cs', m', r. split; [reflexivity|].
    split; [exact H2|]. split; [exact H1|]. split; [exact H3|].
    pose proof (count_sold_available (HouseMarket.houses m)) as Hc.
    pose proof (count_sold_available (HouseMarket.houses m')) as Hc'.
    destruct H3 as [Hlen _].
    split.
    + lia.
    + intros Hall. apply all_available_count_sold in Hall. lia.
Qed.

(** Clearing the market of three houses for two consumers who own nothing:
    no house is shared afterwards, and at most three houses are sold. *)
Lemma clean_the_market_example :
  exists cs' m' r,
    Sim.clean_the_market (fun order => order) Examples.simulation_two_consumers
    = (Sim.set_housing_market
         (Sim.set_consumers Examples.simulation_two_consumers (Some cs'))
         (Some m'), r)
    /\ no_shared_house cs'
    /\ (Sim.count_sold (HouseMarket.houses m') <= 3)%nat.
Proof.
  assert (Hn : nobody_owns [ Examples.mk_consumer 0 45000 AVERAGE 30000;
                             Examples.mk_consumer 1 60000 AVERAGE 40000 ])
    by (repeat constructor).
  assert (Ha : all_available (HouseMarket.houses Examples.market_three))
    by (repeat constructor).
  destruct (nobody_owns_sound Examples.market_three Hn) as [Hsold Hshare].
  destruct (proj2 (@clean_the_market_invariants Examples.B
                     (fun order => order) Examples.simulation_two_consumers
                     _ Examples.market_three eq_refl eq_refl Hsold Hshare))
    as (cs' & m' & r & Hrun & Hns & _ & _ & _ & Hcount).
  exists cs', m', r. split; [exact Hrun|]. split; [exact Hns|].
  exact (Hcount Ha).
Defined.

(** ** The quality score (houses.py) *)

Section Quality.
Context {A : Arith}.
Import Houses.



End Quality.

Section QualityExact.
Import Houses.
Local Open Scope Q_scope.






End QualityExact.



(** In binary64 the composite score of the newest and largest house is
    1.0, that of the oldest house without area is 0.0, and the house of
    1000 square feet built in 2000 is GOOD. *)
Lemma total_score_binary64_examples :
  Houses.total_score (Examples.mk_house 0 500000 4000 1 2024 None)
  = @lit Examples.B 1
  /\ Houses.total_score (Examples.mk_house 0 500000 0 1 1800 None)
     = @lit Examples.B 0
  /\ Houses.quality_score
       (Houses.get_quality_score
          (Examples.mk_house 0 100003 1000 3 2000 None))
     = Some GOOD.
Proof. repeat split; vm_compute; reflexivity. Qed.


(** The same in exact arithmetic. *)
Lemma total_score_above_one_exact :
  (1 < Houses.total_score (Examples.exact_house 2100 4000 1))%Q.
Proof. vm_compute. reflexivity. Qed.

(** ** Building the market (simulation.py) *)

Section Ingestion.
Context {A : Arith} {P : Parsers}.
Import Houses.

Lemma dict_get_In (data : RawRecord) (key : string) (v : PyVal) :
  dict_get data key = Ok v -> In (key, v) data.
Proof.
  unfold dict_get.
  destruct (find (fun kv => String.eqb (fst kv) key) data) as [[k v']|] eqn:Hf;
    [|discriminate].
  intros H; inversion H; subst.
  apply find_some in Hf. destruct Hf as [Hin Hk].
  simpl in Hk. apply String.eqb_eq in Hk. subst. exact Hin.
Qed.

Lemma py_int_string (s : string) :
  Sim.py_int (PyStr s) = Raise TypeError -> False.
Proof. simpl. destruct (int_of_str s); discriminate. Qed.

Lemma py_float_string (s : string) :
  Sim.py_float (PyStr s) = Raise TypeError -> False.
Proof. simpl. destruct (float_of_str s); discriminate. Qed.

(** What a cell of a record of strings can raise. *)
Lemma get_int_strings (data : RawRecord) (key : string) :
  cells_are_strings data ->
  match bind (dict_get data key) Sim.py_int with
  | Ok _ => field_ok int_cell data key = true
  | Raise e => field_ok int_cell data key = false
               /\ (e = KeyError \/ e = ValueError)
  end.
Proof.
  intros Hs. unfold field_ok, int_cell.
  destruct (dict_get data key) as [v|e] eqn:Hg; simpl.
  - destruct v as [|s].
    + apply dict_get_In in Hg. destruct (Hs _ Hg).
    + simpl. destruct (int_of_str s); simpl; auto.
  - unfold dict_get in Hg.
    destruct (find (fun kv => String.eqb (fst kv) key) data);
      inversion Hg; auto.
Qed.

Lemma get_float_strings (data : RawRecord) (key : string) :
  cells_are_strings data ->
  match bind (dict_get data key) Sim.py_float with
  | Ok _ => field_ok float_cell data key = true
  | Raise e => field_ok float_cell data key = false
               /\ (e = KeyError \/ e = ValueError)
  end.
Proof.
  intros Hs. unfold field_ok, float_cell.
  destruct (dict_get data key) as [v|e] eqn:Hg; simpl.
  - destruct v as [|s].
    + apply dict_get_In in Hg. destruct (Hs _ Hg).
    + simpl. destruct (float_of_str s); simpl; auto.
  - unfold dict_get in Hg.
    destruct (find (fun kv => String.eqb (fst kv) key) data);
      inversion Hg; auto.
Qed.

(** A record of strings yields a house when it is well formed, and
    otherwise raises one of the two exceptions that skip the record. *)
Lemma house_of_record_strings (idx : nat) (data : RawRecord) :
  cells_are_strings data ->
  match Sim.house_of_record idx data with
  | Ok h => well_formed_record data = true
            /\ Houses.id h = Z.of_nat idx /\ available h = true
  | Raise e => well_formed_record data = false
               /\ (e = KeyError \/ e = ValueError)
  end.
Proof.
  intros Hs. unfold Sim.house_of_record, well_formed_record.
  pose proof (get_int_strings "overall_qual" Hs) as Hq.
  pose proof (get_float_strings "sale_price" Hs) as Hp.
  pose proof (get_float_strings "gr_liv_area" Hs) as Ha.
  pose proof (get_int_strings "bedroom_abv_gr" Hs) as Hb.
  pose proof (get_int_strings "year_built" Hs) as Hy.
  set (quality := if dict_mem data "overall_qual"
           then v <- dict_get data "overall_qual" ;;
                score_value <- Sim.py_int v ;;
                Ok (Some (Sim.quality_of_overall_qual score_value))
           else Ok None).
  set (quality_ok := if dict_mem data "overall_qual"
               then field_ok int_cell data "overall_qual" else true).
  assert (Hq' :
    match quality with
    | Ok _ => quality_ok = true
    | Raise e => quality_ok = false /\ (e = KeyError \/ e = ValueError)
    end).
  { subst quality quality_ok.
    destruct (dict_mem data "overall_qual"); [|reflexivity].
    destruct (dict_get data "overall_qual") as [v|e]; simpl in *; [|exact Hq].
    destruct (Sim.py_int v); simpl in *; exact Hq. }
  clearbody quality quality_ok.
  unfold bind in *.
  destruct quality as [q|e];
    [rewrite Hq' | destruct Hq' as [-> He]; split; [reflexivity|exact He]].
  destruct (dict_get data "sale_price") as [v|e];
    [destruct (Sim.py_float v) as [p|e]|];
    [rewrite Hp | destruct Hp as [-> He]; split; [reflexivity|exact He] ..].
  destruct (dict_get data "gr_liv_area") as [v1|e];
    [destruct (Sim.py_float v1) as [a|e]|];
    [rewrite Ha | destruct Ha as [-> He]; split; [reflexivity|exact He] ..].
  destruct (dict_get data "bedroom_abv_gr") as [v2|e];
    [destruct (Sim.py_int v2) as [b|e]|];
    [rewrite Hb | destruct Hb as [-> He]; split; [reflexivity|exact He] ..].
  destruct (dict_get data "year_built") as [v3|e];
    [destruct (Sim.py_int v3) as [y|e]|];
    [rewrite Hy | destruct Hy as [-> He]; split; [reflexivity|exact He] ..].
  repeat split.
Qed.

(** On records of strings the loop never raises, and it builds one house
    for every well-formed record. *)
Lemma houses_loop_strings (records : list RawRecord) (idx : nat) :
  Forall cells_are_strings records ->
  exists houses,
    Sim.houses_loop idx records = Ok houses
    /\ List.length houses = List.length (filter well_formed_record records)
    /\ Forall (fun h => available h = true) houses.
Proof.
  revert idx; induction records as [|data rest IH]; intros idx Hs.
  - exists []. repeat split; constructor.
  - inversion Hs as [|? ? Hd Hrest]; subst.
    destruct (IH (S idx) Hrest) as (hs & Hl & Hlen & Hav).
    simpl Sim.houses_loop. rewrite Hl.
    pose proof (house_of_record_strings idx Hd) as Hr.
    destruct (Sim.house_of_record idx data) as [h|e]; simpl.
    + destruct Hr as (-> & _ & Hh). exists (h :: hs).
      repeat split; simpl; auto.
    + destruct Hr as [-> [-> | ->]]; simpl; exists hs; auto.
Qed.

Lemma filter_length_le {X : Type} (f : X -> bool) (l : list X) :
  (List.length (filter f l) <= List.length l)%nat.
Proof.
  induction l as [|x l IH]; simpl; [lia|]. destruct (f x); simpl; lia.
Qed.

Lemma filter_length_all {X : Type} (f : X -> bool) (l : list X) :
  Forall (fun x => f x = true) l -> List.length (filter f l) = List.length l.
Proof.
  induction 1 as [|x l Hx _ IH]; simpl; [reflexivity|].
  rewrite Hx. simpl. congruence.
Qed.

Lemma filter_length_some {X : Type} (f : X -> bool) (l : list X) (x : X) :
  In x l -> f x = false -> (List.length (filter f l) < List.length l)%nat.
Proof.
  induction l as [|y l IH]; simpl; [tauto|].
  intros [->|Hin] Hx.
  - rewrite Hx. pose proof (filter_length_le f l). lia.
  - specialize (IH Hin Hx). destruct (f y); simpl; lia.
Qed.

(** X10 ([Simulation.create_housing_market]): building the market from
    records whose cells are all strings.  On such records
    [create_housing_market] raises nothing; it builds exactly N houses,
    all available, from N well-formed records, and fewer than N when some
    record misses a required field or holds a string that is not a
    numeral. *)
Lemma create_housing_market_strings (s : Sim.Simulation) :
  Forall cells_are_strings (Sim.housing_market_data s) ->
  exists houses,
    Sim.create_housing_market s
    = Ok (Sim.set_housing_market s
            (Some {| HouseMarket.houses := houses |}))
    /\ all_available houses
    /\ List.length houses
       = List.length (filter well_formed_record (Sim.housing_market_data s))
    /\ (Forall (fun data => well_formed_record data = true)
          (Sim.housing_market_data s) ->
        List.length houses = List.length (Sim.housing_market_data s))
    /\ (forall data,
          In data (Sim.housing_market_data s) ->
          well_formed_record data = false ->
          (List.length houses < List.length (Sim.housing_market_data s))%nat).
Proof.
  intros Hs. destruct (houses_loop_strings 0 Hs) as (hs & Hl & Hlen & Hav).
  exists hs. unfold Sim.create_housing_market. rewrite Hl. simpl.
  split; [reflexivity|]. split; [exact Hav|]. split; [exact Hlen|]. split.
  - intros Hall. rewrite Hlen. now apply filter_length_all.
  - intros data Hin Hbad. rewrite Hlen. now apply filter_length_some with data.
Qed.

(** A cell that is [None] in a required field ends the loop with a
    [TypeError], whatever follows, when the records before it hold
    strings. *)
Lemma houses_loop_none_cell (before : list RawRecord) (data : RawRecord)
    (rest : list RawRecord) (idx : nat) :
  Forall cells_are_strings before ->
  Sim.house_of_record (idx + List.length before) data = Raise TypeError ->
  Sim.houses_loop idx (before ++ data :: rest) = Raise TypeError.
Proof.
  revert idx; induction before as [|d before IH]; intros idx Hs Hbad.
  - simpl in *. rewrite Nat.add_0_r in Hbad. rewrite Hbad. reflexivity.
  - inversion Hs as [|? ? Hd Hrest]; subst.
    simpl app. simpl Sim.houses_loop.
    rewrite (IH (S idx) Hrest)
      by (simpl in Hbad; rewrite <- Nat.add_succ_comm in Hbad; exact Hbad).
    pose proof (house_of_record_strings idx Hd) as Hr.
    destruct (Sim.house_of_record idx d) as [h|e]; simpl; [reflexivity|].
    destruct Hr as [_ [-> | ->]]; reflexivity.
Qed.

End Ingestion.

(** C9: a record that fails a numeric conversion should be skipped and the
    batch continue.  Here the second of two records has [None] in
    [sale_price], as the loader leaves an empty cell: [float(None)] raises
    [TypeError], which [except (KeyError, ValueError)] does not catch, and
    [create_housing_market] ends with the exception, whatever the parsers of
    numerals accept. *)
Theorem create_housing_market_none_cell_raises
    (P : @Parsers Examples.B) :
  Sim.create_housing_market
    (Examples.simulation_with_records
       [Examples.record_complete; Examples.record_empty_price])
  = Raise TypeError.
Proof.
  unfold Sim.create_housing_market.
  change (Sim.housing_market_data (Examples.simulation_with_records
            [Examples.record_complete; Examples.record_empty_price]))
    with ([Examples.record_complete] ++ Examples.record_empty_price :: []).
  rewrite houses_loop_none_cell; [reflexivity| |reflexivity].
  constructor; [|constructor].
  intros key Hin. simpl in Hin.
  repeat (destruct Hin as [Hin|Hin]; [discriminate Hin|]). exact Hin.
Qed.

(** ** The state in which the market is cleared *)

Section BeforeClearing.
Context {A : Arith} {P : Parsers}.
Import Houses HouseMarket Consumers.

(** [create_consumers] gives every consumer no house and no savings. *)
Lemma create_consumers_fresh (s : Sim.Simulation)
    (draws : list (num * Z * Segment)) :
  exists cs,
    Sim.consumers (Sim.create_consumers s draws) = Some cs
    /\ List.length cs = List.length draws
    /\ nobody_owns cs
    /\ Forall (fun c => savings c = lit 0) cs
    /\ Sim.housing_market (Sim.create_consumers s draws) = Sim.housing_market s.
Proof.
  unfold Sim.create_consumers. simpl. eexists. split; [reflexivity|].
  split.
  - rewrite length_map, length_combine, length_seq. lia.
  - split; [|split; [|reflexivity]].
    + unfold nobody_owns. apply Forall_forall. intros c Hc.
      apply in_map_iff in Hc. destruct Hc as ([i [[x y] z]] & <- & _).
      reflexivity.
    + apply Forall_forall. intros c Hc.
      apply in_map_iff in Hc. destruct Hc as ([i [[x y] z]] & <- & _).
      reflexivity.
Qed.

Lemma compute_savings_keeps_house (c c' : Consumer) (years : Z) :
  compute_savings c years = Ok c' -> house c' = house c.
Proof.
  unfold compute_savings. destruct (years <? 0)%Z; [discriminate|].
  intros H; inversion H; reflexivity.
Qed.

Lemma savings_all_keeps_houses (years : Z) (todo : list Consumer) :
  forall done cs r,
    Sim.savings_all years done todo = (cs, r) ->
    nobody_owns done -> nobody_owns todo -> nobody_owns cs.
Proof.
  unfold nobody_owns.
  induction todo as [|c todo IH]; intros done cs r Hrun Hd Ht.
  - simpl in Hrun. inversion Hrun; subst. exact Hd.
  - simpl in Hrun. inversion Ht as [|? ? Hc Ht']; subst.
    destruct (compute_savings c years) as [c'|e] eqn:Hs.
    + eapply IH; [exact Hrun| |exact Ht'].
      apply Forall_app. split; [exact Hd|].
      constructor; [|constructor].
      rewrite (compute_savings_keeps_house _ _ Hs). exact Hc.
    + inversion Hrun; subst. apply Forall_app. split; assumption.
Qed.

(** Every house that [create_housing_market] builds is available. *)
Lemma house_of_record_available (idx : nat) (data : RawRecord) (h : House) :
  Sim.house_of_record idx data = Ok h -> available h = true.
Proof.
  unfold Sim.house_of_record. intros H.
  repeat match type of H with
         | bind ?r _ = _ =>
             destruct r; unfold bind at 1 in H; try discriminate
         end.
  inversion H; reflexivity.
Qed.

Lemma houses_loop_available (records : list RawRecord) :
  forall idx hs, Sim.houses_loop idx records = Ok hs -> all_available hs.
Proof.
  unfold all_available.
  induction records as [|data rest IH]; intros idx hs Hl; simpl in Hl.
  - inversion Hl. constructor.
  - destruct (Sim.house_of_record idx data) as [h|e] eqn:Hh; simpl in Hl.
    + destruct (Sim.houses_loop (S idx) rest) as [hs'|e] eqn:Hl';
        simpl in Hl; [|discriminate].
      inversion Hl; subst. constructor.
      * eapply house_of_record_available; exact Hh.
      * eapply IH; exact Hl'.
    + destruct e; simpl in Hl; try discriminate;
        (destruct (Sim.houses_loop (S idx) rest) as [hs'|e'] eqn:Hl';
         simpl in Hl; [|discriminate]);
        inversion Hl; subst; eapply IH; exact Hl'.
Qed.

(** X13 ([Simulation.create_housing_market], [Simulation.create_consumers],
    [Simulation.compute_consumers_savings]): the state before clearing.
    After [create_housing_market], [create_consumers] and
    [compute_consumers_savings], nobody owns a house and every house is
    available: the state in which [clean_the_market] finds the
    simulation. *)
Lemma simulation_before_clearing (s s1 : Sim.Simulation)
    (draws : list (num * Z * Segment)) :
  Sim.create_housing_market s = Ok s1 ->
  exists cs m r,
    Sim.compute_consumers_savings (Sim.create_consumers s1 draws)
    = (Sim.set_consumers (Sim.create_consumers s1 draws) (Some cs), r)
    /\ Sim.housing_market (Sim.create_consumers s1 draws) = Some m
    /\ nobody_owns cs
    /\ all_available (houses m)
    /\ owned_houses_sold cs m
    /\ no_shared_house cs.
Proof.
  intros Hm.
  destruct (create_consumers_fresh s1 draws) as (cs0 & Hcs & _ & Hn & _ & Hhm).
  unfold Sim.compute_consumers_savings. rewrite Hcs.
  destruct (Sim.savings_all (Sim.years (Sim.create_consumers s1 draws)) [] cs0)
    as [cs r] eqn:Hrun.
  assert (Hn' : nobody_owns cs).
  { eapply savings_all_keeps_houses; [exact Hrun|constructor|exact Hn]. }
  unfold Sim.create_housing_market in Hm.
  destruct (Sim.houses_loop 0 (Sim.housing_market_data s)) as [hs|e] eqn:Hl;
    [|discriminate].
  simpl in Hm. inversion Hm; subst s1. clear Hm.
  exists cs, {| houses := hs |}, r.
  split; [reflexivity|]. split; [exact Hhm|]. split; [exact Hn'|].
  split.
  - eapply houses_loop_available; exact Hl.
  - apply nobody_owns_sound. exact Hn'.
Qed.

(** Sorting processes every consumer once: the processing order by income
    is a permutation of the positions of the consumers. *)
Lemma insert_by_key_permutation {X : Type} (key : X -> num) (x : X)
    (l : list X) :
  Permutation (Sim.insert_by_key key x l) (x :: l).
Proof.
  induction l as [|y l IH]; simpl; [reflexivity|].
  destruct (key y <? key x)%py; [|reflexivity].
  rewrite IH. apply perm_swap.
Qed.

Lemma sort_by_key_permutation {X : Type} (key : X -> num) (l : list X) :
  Permutation (Sim.sort_by_key key l) l.
Proof.
  induction l as [|x l IH]; simpl; [reflexivity|].
  rewrite insert_by_key_permutation. now constructor.
Qed.

Lemma processing_order_permutation (shuffle : list nat -> list nat)
    (mechanism : CleaningMarketMechanism) (cs : list Consumer) :
  (forall l, Permutation (shuffle l) l) ->
  Permutation (Sim.processing_order shuffle mechanism cs)
    (seq 0 (List.length cs)).
Proof.
  intros Hshuffle. unfold Sim.processing_order.
  assert (Hfst : map fst (combine (seq 0 (List.length cs)) cs)
                 = seq 0 (List.length cs)).
  { generalize 0%nat. induction cs as [|c cs IH]; intros n; simpl;
      [reflexivity|]. now rewrite IH. }
  destruct mechanism.
  - unfold Sim.sort_by_key_reverse. rewrite <- Hfst at 2.
    apply Permutation_map. rewrite <- Permutation_rev.
    rewrite sort_by_key_permutation. now rewrite <- Permutation_rev.
  - rewrite <- Hfst at 2. apply Permutation_map, sort_by_key_permutation.
  - rewrite Hfst. apply Hshuffle.
Qed.

End BeforeClearing.

(** * Further properties *)

(** ** Houses (houses.py) *)


(** X8 ([House.is_new_construction]): the call raises [ValueError] exactly
    for a year after [current_year] or before 1800; it answers [True]
    exactly for the years from 1800 on that are at most 4 before
    [current_year], and [False] exactly for the years from 1800 to
    [current_year - 5].  With a [current_year] before 1800 every house
    raises. *)
Theorem is_new_construction_spec {A : Arith} (h : Houses.House)
    (current_year : Z) :
  (Houses.is_new_construction h current_year = Raise ValueError <->
   (Houses.year_built h > current_year \/ Houses.year_built h < 1800)%Z)
  /\ (Houses.is_new_construction h current_year = Ok true <->
      (1800 <= Houses.year_built h
       /\ current_year - 5 < Houses.year_built h <= current_year)%Z)
  /\ (Houses.is_new_construction h current_year = Ok false <->
      (1800 <= Houses.year_built h <= current_year - 5)%Z)
  /\ ((current_year < 1800)%Z ->
      Houses.is_new_construction h current_year = Raise ValueError).
Proof.
  unfold Houses.is_new_construction.
  destruct (Houses.year_built h >? current_year)%Z eqn:H1;
    [apply Z.gtb_lt in H1
    |assert (Houses.year_built h <= current_year)%Z
       by (rewrite Z.gtb_ltb in H1; apply Z.ltb_ge in H1; exact H1)].
  - repeat split; intros; try discriminate; try lia; auto.
  - destruct (Houses.year_built h <? 1800)%Z eqn:H2;
      [apply Z.ltb_lt in H2|apply Z.ltb_ge in H2].
    + repeat split; intros; try discriminate; try lia; auto.
    + destruct (current_year - Houses.year_built h <? 5)%Z eqn:H3;
        [apply Z.ltb_lt in H3|apply Z.ltb_ge in H3];
        repeat split; intros; try discriminate; try lia; auto.
Qed.

(** ** The market's index and average (house_market.py) *)

Section MarketLookups.
Context {A : Arith}.
Import Houses HouseMarket.

Lemma find_append {X : Type} (p : X -> bool) (l1 l2 : list X) :
  find p (l1 ++ l2)
  = match find p l1 with
    | Some x => Some x
    | None => find p l2
    end.
Proof.
  induction l1 as [|x l1 IH]; simpl; [reflexivity|].
  destruct (p x); [reflexivity|exact IH].
Qed.

(** Searching the reversed list finds the last element that satisfies the
    test. *)
Lemma find_rev_last {X : Type} (p : X -> bool) (l : list X) :
  match find p (rev l) with
  | Some x =>
      p x = true
      /\ exists k, nth_error l k = Some x
                   /\ forall k' y, (k < k')%nat -> nth_error l k' = Some y ->
                                   p y = false
  | None => forall y, In y l -> p y = false
  end.
Proof.
  induction l as [|a l IH]; simpl.
  - intros y [].
  - rewrite find_append. destruct (find p (rev l)) as [x|].
    + destruct IH as (Hp & k & Hk & Hlast). split; [exact Hp|].
      exists (S k). split; [exact Hk|].
      intros [|k'] y Hlt Hy; [lia|]. simpl in Hy.
      apply (Hlast k' y); [lia|exact Hy].
    + simpl. destruct (p a) eqn:Hpa.
      * split; [exact Hpa|]. exists 0%nat. split; [reflexivity|].
        intros [|k'] y Hlt Hy; [lia|]. simpl in Hy.
        apply IH. eapply nth_error_In; eauto.
      * intros y [<-|Hy]; auto.
Qed.

Lemma distinct_ids_same_house (hs : list House) (h h' : House) :
  NoDup (map id hs) -> In h hs -> In h' hs -> id h = id h' -> h = h'.
Proof.
  induction hs as [|a hs IH]; simpl; intros Hnd Hh Hh' Hid; [contradiction|].
  inversion Hnd as [|? ? Hnot Hnd']; subst.
  destruct Hh as [->|Hh], Hh' as [->|Hh']; auto.
  - exfalso. apply Hnot. rewrite Hid. now apply in_map.
  - exfalso. apply Hnot. rewrite <- Hid. now apply in_map.
Qed.

Lemma get_house_by_id_last (m : HousingMarket) (house_id : Z) :
  match get_house_by_id m house_id with
  | Some h =>
      id h = house_id
      /\ exists k,
           nth_error (houses m) k = Some h
           /\ forall k' h',
                (k < k')%nat -> nth_error (houses m) k' = Some h' ->
                id h' <> house_id
  | None => forall h, In h (houses m) -> id h <> house_id
  end.
Proof.
  unfold get_house_by_id.
  pose proof (find_rev_last (fun h => (id h =? house_id)%Z) (houses m)) as H.
  destruct (find (fun h => (id h =? house_id)%Z) (rev (houses m))) as [h0|].
  - destruct H as (Hid & k & Hk & Hlast). apply Z.eqb_eq in Hid.
    split; [exact Hid|]. exists k. split; [exact Hk|].
    intros k' h' Hlt Hk'. apply Z.eqb_neq. eapply Hlast; eauto.
  - intros h Hin. apply Z.eqb_neq. now apply H.
Qed.

Lemma get_house_by_id_distinct (m : HousingMarket) (h : House) :
  NoDup (map id (houses m)) -> In h (houses m) ->
  get_house_by_id m (id h) = Some h.
Proof.
  intros Hnd Hin. pose proof (get_house_by_id_last m (id h)) as H.
  destruct (get_house_by_id m (id h)) as [h0|].
  - destruct H as (Hid & k & Hk & _). f_equal.
    apply (distinct_ids_same_house (houses m)); auto.
    eapply nth_error_In; eauto.
  - now destruct (H h Hin).
Qed.

Lemma get_house_by_id_absent (m : HousingMarket) (house_id : Z) :
  (forall h, In h (houses m) -> id h <> house_id) ->
  get_house_by_id m house_id = None.
Proof.
  intros Habs. pose proof (get_house_by_id_last m house_id) as H.
  destruct (get_house_by_id m house_id) as [h0|]; [|reflexivity].
  destruct H as (Hid & k & Hk & _).
  destruct (Habs h0); [eapply nth_error_In; eauto|exact Hid].
Qed.

End MarketLookups.

(** X5 ([HousingMarket.get_house_by_id], [HousingMarket.__init__]): the
    lookup returns a house of the market with the given id, the last of
    the market's list when several houses share the id, and [None] exactly
    when no house has the id.  When the ids of the market are distinct,
    every house of the market is found by its id. *)
Theorem get_house_by_id_spec {A : Arith} (m : HouseMarket.HousingMarket)
    (house_id : Z) :
  match HouseMarket.get_house_by_id m house_id with
  | Some h =>
      Houses.id h = house_id
      /\ exists k,
           nth_error (HouseMarket.houses m) k = Some h
           /\ forall k' h',
                (k < k')%nat ->
                nth_error (HouseMarket.houses m) k' = Some h' ->
                Houses.id h' <> house_id
  | None =>
      forall h, In h (HouseMarket.houses m) -> Houses.id h <> house_id
  end
  /\ (NoDup (map Houses.id (HouseMarket.houses m)) ->
      forall h,
        In h (HouseMarket.houses m) ->
        Houses.id h = house_id ->
        HouseMarket.get_house_by_id m house_id = Some h).
Proof.
  split.
  - apply get_house_by_id_last.
  - intros Hnd h Hin <-. now apply get_house_by_id_distinct.
Qed.

(** In the market of three houses with the ids 0, 1 and 2, the house at
    position 2 is found by its id. *)
Lemma get_house_by_id_example :
  HouseMarket.get_house_by_id Examples.market_three 2
  = Some (Examples.mk_house 2 60000 1200 3 2010 None).
Proof.
  apply (proj2 (@get_house_by_id_spec Examples.B Examples.market_three 2)).
  - repeat constructor; simpl; intuition discriminate.
  - simpl. auto.
  - reflexivity.
Defined.

(** X4 ([HousingMarket.calculate_average_price]): the only exception is
    [ValueError]; it is raised exactly when [bedrooms] is negative or no
    available house has that number of bedrooms (no available house at
    all, without [bedrooms]); otherwise the result is the mean of the
    prices of the available houses with that number of bedrooms, so that
    houses that are sold do not count. *)
Theorem calculate_average_price_spec {A : Arith}
    (m : HouseMarket.HousingMarket) (bedrooms : option Z) :
  (forall e, HouseMarket.calculate_average_price m bedrooms = Raise e ->
             e = ValueError)
  /\ (raises (HouseMarket.calculate_average_price m bedrooms) = true <->
      (exists b, bedrooms = Some b /\ (b < 0)%Z)
      \/ (forall h, In h (HouseMarket.houses m) ->
                    Houses.available h = true ->
                    exists b, bedrooms = Some b /\ Houses.bedrooms h <> b))
  /\ (forall x,
        HouseMarket.calculate_average_price m bedrooms = Ok x ->
        x = mean (map Houses.price
                    (filter (fun h =>
                               match bedrooms with
                               | None => true
                               | Some b => (Houses.bedrooms h =? b)%Z
                               end)
                       (available_houses m)))).
Proof.
  unfold HouseMarket.calculate_average_price, available_houses.
  set (wanted := fun h : Houses.House =>
                   match bedrooms with
                   | None => true
                   | Some b => (Houses.bedrooms h =? b)%Z
                   end).
  assert (Hf : filter (fun house =>
                         Houses.available house
                         && match bedrooms with
                            | None => true
                            | Some b => (Houses.bedrooms house =? b)%Z
                            end)
                 (HouseMarket.houses m)
               = filter wanted (filter Houses.available (HouseMarket.houses m))).
  { induction (HouseMarket.houses m) as [|a l IH]; simpl; [reflexivity|].
    destruct (Houses.available a); simpl; [|exact IH].
    fold (wanted a). destruct (wanted a); simpl; now rewrite IH. }
  rewrite Hf. clear Hf.
  assert (Hnil : filter wanted (filter Houses.available (HouseMarket.houses m))
                 = [] <->
                 forall h, In h (HouseMarket.houses m) ->
                           Houses.available h = true -> wanted h = false).
  { split.
    - intros Hn h Hin Hav. destruct (wanted h) eqn:Hw; [|reflexivity].
      assert (In h (filter wanted
                      (filter Houses.available (HouseMarket.houses m))))
        by (apply filter_In; split; [apply filter_In; auto|exact Hw]).
      rewrite Hn in H. contradiction.
    - intros Hall.
      destruct (filter wanted
                  (filter Houses.available (HouseMarket.houses m)))
        as [|a l] eqn:Hl; [reflexivity|].
      assert (Hin : In a (filter wanted
                            (filter Houses.available (HouseMarket.houses m))))
        by (rewrite Hl; now left).
      apply filter_In in Hin. destruct Hin as [Hin Hw].
      apply filter_In in Hin. destruct Hin as [Hin Hav].
      rewrite (Hall a Hin Hav) in Hw. discriminate. }
  destruct bedrooms as [b|].
  - destruct (b <? 0)%Z eqn:Hb; [apply Z.ltb_lt in Hb|apply Z.ltb_ge in Hb].
    + split; [intros e He; congruence|]. split; [|discriminate].
      simpl. split; [|reflexivity]. intros _. left. now exists b.
    + destruct (filter wanted
                  (filter Houses.available (HouseMarket.houses m)))
        as [|a l] eqn:Hl.
      * split; [intros e He; congruence|]. split; [|discriminate].
        simpl. split; [|reflexivity]. intros _. right.
        intros h Hin Hav. exists b. split; [reflexivity|].
        apply Z.eqb_neq. apply (proj1 Hnil eq_refl h Hin Hav).
      * split; [discriminate|]. split; [|intros x Hx; congruence].
        simpl. split; [discriminate|].
        intros [(b' & Hb' & Hneg)|Hall].
        -- injection Hb' as <-. lia.
        -- assert (Hnone : a :: l = []).
           { apply Hnil. intros h Hin Hav.
             destruct (Hall h Hin Hav) as (b' & Hb' & Hne).
             injection Hb' as <-. now apply Z.eqb_neq. }
           discriminate.
  - destruct (filter wanted
                (filter Houses.available (HouseMarket.houses m)))
      as [|a l] eqn:Hl.
    + split; [intros e He; congruence|]. split; [|discriminate].
      simpl. split; [|reflexivity]. intros _. right.
      intros h Hin Hav. pose proof (proj1 Hnil eq_refl h Hin Hav) as Hw.
      discriminate.
    + split; [discriminate|]. split; [|intros x Hx; congruence].
      simpl. split; [discriminate|].
      intros [(b' & Hb' & _)|Hall]; [discriminate|].
      assert (Hin : In a (filter wanted
                            (filter Houses.available (HouseMarket.houses m))))
        by (rewrite Hl; now left).
      apply filter_In in Hin. destruct Hin as [Hin _].
      apply filter_In in Hin. destruct Hin as [Hin Hav].
      destruct (Hall a Hin Hav) as (b' & Hb' & _). discriminate.
Qed.

(** ** Ids and exceptions of [create_housing_market] (simulation.py) *)

Section IngestionIndex.
Context {A : Arith} {P : Parsers}.
Import Houses HouseMarket.

Lemma house_of_record_id (idx : nat) (data : RawRecord) (h : House) :
  Sim.house_of_record idx data = Ok h -> id h = Z.of_nat idx.
Proof.
  unfold Sim.house_of_record. intros H.
  repeat match type of H with
         | bind ?r _ = _ =>
             destruct r; unfold bind at 1 in H; try discriminate
         end.
  inversion H; reflexivity.
Qed.

(** Reading one field: a [KeyError] for an absent field, a [ValueError] for
    a string that is no numeral, a [TypeError] for [None]. *)
Lemma read_cell_raises {X : Type} (conv : PyVal -> result X)
    (data : RawRecord) (key : string) (e : exn) :
  (forall s e', conv (PyStr s) = Raise e' -> e' = ValueError) ->
  (conv PyNone = Raise TypeError) ->
  (v <- dict_get data key ;; conv v) = Raise e ->
  e = KeyError \/ e = ValueError
  \/ (e = TypeError /\ dict_get data key = Ok PyNone).
Proof.
  intros Hstr Hnone. unfold dict_get.
  destruct (find (fun kv => String.eqb (fst kv) key) data) as [[k v]|];
    simpl; [|intros H; inversion H; auto].
  destruct v as [|s]; intros H.
  - rewrite Hnone in H. inversion H. auto.
  - apply Hstr in H. auto.
Qed.

Lemma py_int_string_raises (s : string) (e : exn) :
  Sim.py_int (PyStr s) = Raise e -> e = ValueError.
Proof.
  simpl. destruct (int_of_str s); intros H; inversion H; reflexivity.
Qed.

Lemma py_float_string_raises (s : string) (e : exn) :
  Sim.py_float (PyStr s) = Raise e -> e = ValueError.
Proof.
  simpl. destruct (float_of_str s); intros H; inversion H; reflexivity.
Qed.

Lemma house_of_record_raises (idx : nat) (data : RawRecord) (e : exn) :
  Sim.house_of_record idx data = Raise e ->
  e = KeyError \/ e = ValueError
  \/ (e = TypeError
      /\ exists key, In key fields_read /\ dict_get data key = Ok PyNone).
Proof.
  assert (Hint : forall key e',
             (v <- dict_get data key ;; Sim.py_int v) = Raise e' ->
             In key fields_read ->
             e' = KeyError \/ e' = ValueError
             \/ (e' = TypeError
                 /\ exists key, In key fields_read
                                /\ dict_get data key = Ok PyNone)).
  { intros key e' H Hin.
    apply (read_cell_raises Sim.py_int) in H;
      [|apply py_int_string_raises|reflexivity].
    destruct H as [H|[H|[H1 H2]]]; auto. right; right. eauto. }
  assert (Hfloat : forall key e',
             (v <- dict_get data key ;; Sim.py_float v) = Raise e' ->
             In key fields_read ->
             e' = KeyError \/ e' = ValueError
             \/ (e' = TypeError
                 /\ exists key, In key fields_read
                                /\ dict_get data key = Ok PyNone)).
  { intros key e' H Hin.
    apply (read_cell_raises Sim.py_float) in H;
      [|apply py_float_string_raises|reflexivity].
    destruct H as [H|[H|[H1 H2]]]; auto. right; right. eauto. }
  unfold Sim.house_of_record, fields_read in *.
  destruct (dict_mem data "overall_qual").
  - destruct (v <- dict_get data "overall_qual" ;; Sim.py_int v)
      as [q|e1] eqn:Hq.
    + unfold bind in Hq |- * at 1 2 3.
      destruct (dict_get data "overall_qual") as [v|]; [|discriminate].
      rewrite Hq.
      destruct (v0 <- dict_get data "sale_price" ;; Sim.py_float v0)
        as [p|e2] eqn:Hp; unfold bind at 1;
        [|intros H; inversion H; subst; apply (Hfloat _ _ Hp); simpl; tauto].
      destruct (v0 <- dict_get data "gr_liv_area" ;; Sim.py_float v0)
        as [a|e3] eqn:Ha; unfold bind at 1;
        [|intros H; inversion H; subst; apply (Hfloat _ _ Ha); simpl; tauto].
      destruct (v0 <- dict_get data "bedroom_abv_gr" ;; Sim.py_int v0)
        as [b|e4] eqn:Hb; unfold bind at 1;
        [|intros H; inversion H; subst; apply (Hint _ _ Hb); simpl; tauto].
      destruct (v0 <- dict_get data "year_built" ;; Sim.py_int v0)
        as [y|e5] eqn:Hy; unfold bind at 1;
        [|intros H; inversion H; subst; apply (Hint _ _ Hy); simpl; tauto].
      discriminate.
    + intros H.
      assert (He : e = e1).
      { unfold bind in Hq, H.
        destruct (dict_get data "overall_qual") as [v|];
          [|congruence].
        rewrite Hq in H. congruence. }
      subst e1. apply (Hint _ _ Hq). simpl; tauto.
  - unfold bind at 1.
    destruct (v0 <- dict_get data "sale_price" ;; Sim.py_float v0)
      as [p|e2] eqn:Hp; unfold bind at 1;
      [|intros H; inversion H; subst; apply (Hfloat _ _ Hp); simpl; tauto].
    destruct (v0 <- dict_get data "gr_liv_area" ;; Sim.py_float v0)
      as [a|e3] eqn:Ha; unfold bind at 1;
      [|intros H; inversion H; subst; apply (Hfloat _ _ Ha); simpl; tauto].
    destruct (v0 <- dict_get data "bedroom_abv_gr" ;; Sim.py_int v0)
      as [b|e4] eqn:Hb; unfold bind at 1;
      [|intros H; inversion H; subst; apply (Hint _ _ Hb); simpl; tauto].
    destruct (v0 <- dict_get data "year_built" ;; Sim.py_int v0)
      as [y|e5] eqn:Hy; unfold bind at 1;
      [|intros H; inversion H; subst; apply (Hint _ _ Hy); simpl; tauto].
    discriminate.
Qed.

(** The loop, when it ends, has built exactly the houses that the records
    yield, in the order of the records. *)
Lemma houses_loop_built (records : list RawRecord) :
  forall (idx : nat) (hs : list House),
    Sim.houses_loop idx records = Ok hs ->
    (forall h, In h hs <->
               exists k data, nth_error records k = Some data
                              /\ Sim.house_of_record (idx + k) data = Ok h)
    /\ StronglySorted Z.lt (map id hs)
    /\ (forall h, In h hs -> (Z.of_nat idx <= id h)%Z).
Proof.
  induction records as [|data rest IH]; intros idx hs H.
  - simpl in H. inversion H; subst. split; [|split].
    + intros h. split; [intros []|].
      intros (k & d & Hk & _). destruct k; discriminate.
    + constructor.
    + intros h [].
  - simpl Sim.houses_loop in H.
    destruct (Sim.houses_loop (S idx) rest) as [hs'|e'] eqn:Hl.
    + destruct (IH _ _ Hl) as (Hin & Hsort & Hlow).
      assert (Hshift : forall h,
                 In h hs' <->
                 exists k d, nth_error (data :: rest) (S k) = Some d
                             /\ Sim.house_of_record (idx + S k) d = Ok h).
      { intros h. rewrite Hin. split; intros (k & d & Hk & Hr);
          exists k, d; (split; [exact Hk|]).
        - now rewrite Nat.add_succ_r.
        - now rewrite Nat.add_succ_r in Hr. }
      destruct (Sim.house_of_record idx data) as [h0|e] eqn:Hr.
      * simpl in H. inversion H; subst hs. clear H.
        pose proof (house_of_record_id _ _ Hr) as Hid0.
        split; [|split].
        -- intros h. simpl. rewrite Hshift. split.
           ++ intros [<-|(k & d & Hk & Hd)].
              ** exists 0%nat, data. rewrite Nat.add_0_r. auto.
              ** exists (S k), d. auto.
           ++ intros ([|k] & d & Hk & Hd).
              ** left. simpl in Hk. injection Hk as <-.
                 rewrite Nat.add_0_r in Hd. congruence.
              ** right. exists k, d. auto.
        -- simpl. constructor; [exact Hsort|].
           apply Forall_forall. intros z Hz. apply in_map_iff in Hz.
           destruct Hz as (h & <- & Hh). apply Hlow in Hh. lia.
        -- intros h [<-|Hh]; [lia|]. apply Hlow in Hh. lia.
      * assert (Hskip : e = KeyError \/ e = ValueError).
        { destruct e; simpl in H; auto; discriminate. }
        assert (hs = hs')
          by (destruct Hskip as [-> | ->]; simpl in H; congruence).
        subst hs. clear H. split; [|split].
        -- intros h. rewrite Hshift. split.
           ++ intros (k & d & Hk & Hd). exists (S k), d. auto.
           ++ intros ([|k] & d & Hk & Hd).
              ** simpl in Hk. injection Hk as <-.
                 rewrite Nat.add_0_r in Hd. congruence.
              ** exists k, d. auto.
        -- exact Hsort.
        -- intros h Hh. apply Hlow in Hh. lia.
    + exfalso.
      destruct (Sim.house_of_record idx data) as [h0|e];
        [|destruct e]; simpl in H; discriminate.
Qed.

(** The loop is left only by the exception of a record, and not by one of
    the two that skip a record. *)
Lemma houses_loop_raises (records : list RawRecord) :
  forall (idx : nat) (e : exn),
    Sim.houses_loop idx records = Raise e ->
    exists k data, nth_error records k = Some data
                   /\ Sim.house_of_record (idx + k) data = Raise e
                   /\ e <> KeyError /\ e <> ValueError.
Proof.
  induction records as [|data rest IH]; intros idx e H.
  - discriminate.
  - simpl Sim.houses_loop in H.
    destruct (Sim.house_of_record idx data) as [h0|e0] eqn:Hr.
    + simpl in H.
      destruct (Sim.houses_loop (S idx) rest) as [hs'|e'] eqn:Hl;
        simpl in H; [discriminate|].
      inversion H; subst e'.
      destruct (IH _ _ Hl) as (k & d & Hk & Hd & Hne).
      exists (S k), d. rewrite Nat.add_succ_r. auto.
    + destruct (existsb (exn_eqb e0) [KeyError; ValueError]) eqn:Hc.
      * unfold try_except, bind at 2 in H. rewrite Hc in H.
        unfold bind at 1 in H.
        destruct (Sim.houses_loop (S idx) rest) as [hs'|e'] eqn:Hl;
          simpl in H; [discriminate|].
        inversion H; subst e'.
        destruct (IH _ _ Hl) as (k & d & Hk & Hd & Hne).
        exists (S k), d. rewrite Nat.add_succ_r. auto.
      * unfold try_except, bind at 2 in H. rewrite Hc in H.
        unfold bind at 1 in H. inversion H; subst e0.
        exists 0%nat, data. rewrite Nat.add_0_r.
        split; [reflexivity|]. split; [exact Hr|].
        split; intros ->; discriminate.
Qed.

Lemma sorted_ids_distinct (l : list Z) : StronglySorted Z.lt l -> NoDup l.
Proof.
  induction 1 as [|z l Hs IH Hall]; constructor; [|exact IH].
  intros Hin. rewrite Forall_forall in Hall. apply Hall in Hin. lia.
Qed.

End IngestionIndex.

(** X12 ([Simulation.create_housing_market]): when the market is built, a
    house has the index of its record in the input as its id, so that the
    ids are increasing along the market's list and, once a record was
    skipped, differ from the positions; [get_house_by_id(i)] is the house
    built from record [i], and [None] when that record was skipped or does
    not exist.  Nothing else of the simulation changes. *)
Theorem create_housing_market_index {A : Arith} {P : Parsers}
    (s s' : Sim.Simulation) :
  Sim.create_housing_market s = Ok s' ->
  exists m,
    s' = Sim.set_housing_market s (Some m)
    /\ StronglySorted Z.lt (map Houses.id (HouseMarket.houses m))
    /\ (forall h,
          In h (HouseMarket.houses m) <->
          exists i, house_of_index (Sim.housing_market_data s) i = Some h)
    /\ (forall i,
          HouseMarket.get_house_by_id m (Z.of_nat i)
          = house_of_index (Sim.housing_market_data s) i)
    /\ (forall z, (z < 0)%Z -> HouseMarket.get_house_by_id m z = None).
Proof.
  unfold Sim.create_housing_market. intros H.
  destruct (Sim.houses_loop 0 (Sim.housing_market_data s)) as [hs|e] eqn:Hl;
    simpl in H; [|discriminate].
  inversion H; subst s'. clear H.
  exists {| HouseMarket.houses := hs |}. simpl.
  destruct (houses_loop_built _ _ Hl) as (Hin & Hsort & _).
  assert (Hmem : forall h,
             In h hs <->
             exists i, house_of_index (Sim.housing_market_data s) i = Some h).
  { intros h. rewrite Hin. unfold house_of_index. split.
    - intros (k & d & Hk & Hd). exists k. simpl in Hd. now rewrite Hk, Hd.
    - intros (i & Hi).
      destruct (nth_error (Sim.housing_market_data s) i) as [d|] eqn:Hk;
        [|discriminate].
      destruct (Sim.house_of_record i d) as [h'|] eqn:Hd; [|discriminate].
      exists i, d. simpl. split; [exact Hk|congruence]. }
  assert (Hid : forall h i,
             house_of_index (Sim.housing_market_data s) i = Some h ->
             Houses.id h = Z.of_nat i).
  { unfold house_of_index. intros h i Hi.
    destruct (nth_error (Sim.housing_market_data s) i) as [d|];
      [|discriminate].
    destruct (Sim.house_of_record i d) as [h'|] eqn:Hd; [|discriminate].
    injection Hi as <-. eapply house_of_record_id; eauto. }
  split; [reflexivity|]. split; [exact Hsort|]. split; [exact Hmem|].
  split.
  - intros i.
    destruct (house_of_index (Sim.housing_market_data s) i) as [h|] eqn:Hi.
    + rewrite <- (Hid _ _ Hi).
      apply (get_house_by_id_distinct {| HouseMarket.houses := hs |}).
      * simpl. now apply sorted_ids_distinct.
      * simpl. apply Hmem. eauto.
    + apply get_house_by_id_absent. simpl. intros h Hh Heq.
      apply Hmem in Hh. destruct Hh as (j & Hj).
      pose proof (Hid _ _ Hj) as Hidj.
      assert (j = i) by lia. subst j. congruence.
  - intros z Hz. apply get_house_by_id_absent. simpl. intros h Hh Heq.
    apply Hmem in Hh. destruct Hh as (j & Hj).
    pose proof (Hid _ _ Hj). lia.
Qed.

(** Of three records, the second without its area: the market holds the
    houses with the ids 0 and 2; the id 2 finds the house of the third
    record, at position 1 of the market, and the id 1 finds nothing. *)
Lemma create_housing_market_index_example :
  exists m,
    @Sim.create_housing_market Examples.B Examples.plain_parsers
      (Examples.simulation_with_records Examples.records_three)
    = Ok (Sim.set_housing_market
            (Examples.simulation_with_records Examples.records_three)
            (Some m))
    /\ HouseMarket.houses m
       = [Examples.house_of_record_complete; Examples.house_of_record_2001]
    /\ HouseMarket.get_house_by_id m 2 = Some Examples.house_of_record_2001
    /\ HouseMarket.get_house_by_id m 1 = None.
Proof.
  assert (Hc : @Sim.create_housing_market Examples.B Examples.plain_parsers
                 (Examples.simulation_with_records Examples.records_three)
               = Ok (Sim.set_housing_market
                       (Examples.simulation_with_records
                          Examples.records_three)
                       (Some {| HouseMarket.houses :=
                                  [Examples.house_of_record_complete;
                                   Examples.house_of_record_2001] |})))
    by reflexivity.
  destruct (@create_housing_market_index Examples.B Examples.plain_parsers
              _ _ Hc) as (m & Hs & _ & _ & Hlook & _).
  exists m. injection Hs as <-.
  split; [exact Hc|]. split; [reflexivity|].
  split; [exact (Hlook 2%nat)|exact (Hlook 1%nat)].
Defined.

(** X11 ([Simulation.create_housing_market]): neither [KeyError] nor
    [ValueError] leaves the method.  The only exception that does is the
    [TypeError] of [int(None)] or [float(None)], for a record that holds
    [None] in one of the five fields read; the simulation then gets no
    market. *)
Theorem create_housing_market_raises {A : Arith} {P : Parsers}
    (s : Sim.Simulation) (e : exn) :
  Sim.create_housing_market s = Raise e ->
  e = TypeError
  /\ exists i data key,
       nth_error (Sim.housing_market_data s) i = Some data
       /\ In key fields_read
       /\ dict_get data key = Ok PyNone.
Proof.
  unfold Sim.create_housing_market. intros H.
  destruct (Sim.houses_loop 0 (Sim.housing_market_data s)) as [hs|e0] eqn:Hl;
    simpl in H; [discriminate|].
  inversion H; subst e0. clear H.
  destruct (houses_loop_raises _ _ Hl) as (k & d & Hk & Hd & Hn1 & Hn2).
  apply house_of_record_raises in Hd.
  destruct Hd as [Hd|[Hd|(-> & key & Hin & Hget)]]; try contradiction.
  split; [reflexivity|]. exists k, d, key. auto.
Qed.

(** The record whose sale price is an empty cell stops the building of the
    market with a [TypeError]: a record of the input holds [None] in a field
    that is read. *)
Lemma create_housing_market_raises_example :
  exists i data key,
    nth_error [Examples.record_complete; Examples.record_empty_price] i
    = Some data
    /\ In key fields_read
    /\ dict_get data key = Ok PyNone.
Proof.
  exact (proj2 (@create_housing_market_raises Examples.B
                  Examples.plain_parsers
                  (Examples.simulation_with_records
                     [Examples.record_complete; Examples.record_empty_price])
                  TypeError eq_refl)).
Defined.

(** Three records of strings, one of them without its area: the market is
    built without an exception and holds two houses. *)
Lemma create_housing_market_strings_example :
  exists houses,
    @Sim.create_housing_market Examples.B Examples.plain_parsers
      (Examples.simulation_with_records Examples.records_three)
    = Ok (Sim.set_housing_market
            (Examples.simulation_with_records Examples.records_three)
            (Some {| HouseMarket.houses := houses |}))
    /\ List.length houses = 2%nat.
Proof.
  assert (Hs : Forall (@cells_are_strings)
                 (Sim.housing_market_data
                    (Examples.simulation_with_records
                       Examples.records_three))).
  { repeat constructor; intros key Hin; simpl in Hin;
      repeat (destruct Hin as [Hin|Hin]; [discriminate Hin|]);
      exact Hin. }
  destruct (@create_housing_market_strings Examples.B Examples.plain_parsers
              _ Hs) as (hs & Hc & _ & Hlen & _).
  exists hs. split; [exact Hc|]. rewrite Hlen. reflexivity.
Defined.

(** ** What clearing changes (simulation.py, consumers.py) *)

Section ClearingFrame.
Context {A : Arith}.
Import Houses HouseMarket Consumers.

Lemma list_set_same {X : Type} (l : list X) (i : nat) (x : X) :
  nth_error l i = Some x -> list_set l i x = l.
Proof.
  revert i; induction l as [|y l IH]; intros [|i] H; simpl in *;
    try discriminate; [congruence|]. now rewrite IH.
Qed.

Lemma Forall2_same {X : Type} (R : X -> X -> Prop) (l : list X) :
  (forall x, R x x) -> Forall2 R l l.
Proof. intros HR. induction l; constructor; auto. Qed.

Lemma Forall2_list_set {X : Type} (R : X -> X -> Prop) (l : list X)
    (i : nat) (x y : X) :
  (forall z, R z z) -> nth_error l i = Some x -> R x y ->
  Forall2 R l (list_set l i y).
Proof.
  intros HR. revert i; induction l as [|z l IH]; intros [|i] H Hxy;
    simpl in *; try discriminate.
  - injection H as ->. constructor; [exact Hxy|now apply Forall2_same].
  - constructor; [apply HR|now apply IH].
Qed.

Lemma Forall2_compose {X : Type} (R S T : X -> X -> Prop)
    (l1 l2 l3 : list X) :
  (forall x y z, R x y -> S y z -> T x z) ->
  Forall2 R l1 l2 -> Forall2 S l2 l3 -> Forall2 T l1 l3.
Proof.
  intros H H12. revert l3. induction H12 as [|x y l1 l2 Hxy _ IH];
    intros l3 H23; inversion H23; subst; constructor; eauto.
Qed.

Lemma Forall2_nth_error_right {X : Type} (R : X -> X -> Prop)
    (l l' : list X) (i : nat) (y : X) :
  Forall2 R l l' -> nth_error l' i = Some y ->
  exists x, nth_error l i = Some x /\ R x y.
Proof.
  intros H. revert i. induction H as [|x0 y0 l l' Hxy _ IH]; intros [|i] Hi;
    simpl in *; try discriminate.
  - injection Hi as ->. eauto.
  - now apply IH.
Qed.

Lemma only_purchases_refl (cs : list Consumer) (m : HousingMarket) :
  only_purchases cs m cs m.
Proof.
  split; apply Forall2_same; intros; now left.
Qed.

Lemma only_purchases_trans (cs cs1 cs2 : list Consumer)
    (m m1 m2 : HousingMarket) :
  only_purchases cs m cs1 m1 -> only_purchases cs1 m1 cs2 m2 ->
  only_purchases cs m cs2 m2.
Proof.
  intros [Hh1 Hc1] [Hh2 Hc2]. split.
  - eapply (@Forall2_compose _ house_kept_or_sold house_kept_or_sold
              house_kept_or_sold); [|exact Hh1|exact Hh2].
    intros x y z [->|[Hav ->]] [->|[Hav' ->]].
    + now left.
    + right; auto.
    + right; auto.
    + discriminate.
  - eapply (@Forall2_compose _ (consumer_kept_or_bought m)
              (consumer_kept_or_bought m1) (consumer_kept_or_bought m));
      [|exact Hc1|exact Hc2].
    intros x y z [->|(Hn & j & h & Hj & Hav & Hpr & Hf & ->)]
           [->|(Hn' & j' & h' & Hj' & Hav' & Hpr' & Hf' & ->)].
    + now left.
    + right. split; [exact Hn'|].
      destruct (Forall2_nth_error_right j' Hh1 Hj') as (h0 & Hj0 & Hrel).
      destruct Hrel as [->|[_ ->]]; [|discriminate].
      exists j', h0. auto.
    + right. split; [exact Hn|]. exists j, h. auto.
    + discriminate.
Qed.

(** A house that the FANCY query returns is EXCELLENT and new. *)
Lemma get_houses_fancy_member (m : HousingMarket) (max_price : num)
    (l : list nat) (k : nat) (h : House) :
  get_houses_that_meet_requirements m max_price FANCY = Ok l ->
  In k l -> nth_error (houses m) k = Some h ->
  quality_score h = Some EXCELLENT /\ (2020 <= year_built h <= 2024)%Z.
Proof.
  intros H Hk Hn. apply get_houses_sound in H. destruct H as [_ ->].
  apply positions_from_spec in Hk. destruct Hk as (h' & _ & Hn' & Hp).
  rewrite Nat.sub_0_r in Hn'. assert (h' = h) by congruence. subst h'.
  unfold appended in Hp. apply andb_prop in Hp. destruct Hp as [_ Hf].
  unfold segment_filter, is_new_construction in Hf.
  destruct (year_built h >? 2024)%Z eqn:H1; [discriminate|].
  destruct (year_built h <? 1800)%Z eqn:H2; [discriminate|].
  unfold bind in Hf.
  destruct (2024 - year_built h <? 5)%Z eqn:H3; [|discriminate].
  destruct (quality_score h) as [q|]; [|discriminate].
  rewrite quality_eqb_excellent in Hf.
  split; [destruct q; try discriminate; reflexivity|lia].
Qed.

(** One call of [buy_a_house] is at most one purchase. *)
Lemma buy_a_house_only_purchases (cs : list Consumer) (m m' : HousingMarket)
    (i : nat) (c c' : Consumer) :
  nth_error cs i = Some c ->
  buy_a_house c m = Ok (c', m') ->
  only_purchases cs m (list_set cs i c') m'.
Proof.
  intros Hi Hbuy. apply buy_a_house_inv in Hbuy.
  destruct Hbuy
    as [[-> ->]|(Hnone & j & l & h & Hq & Hj & Hav & Hpr & -> & ->)].
  - rewrite (list_set_same _ _ Hi). apply only_purchases_refl.
  - split; simpl.
    + apply Forall2_list_set with (x := h); auto.
      * intros; now left.
      * right; auto.
    + apply Forall2_list_set with (x := c); auto.
      * intros; now left.
      * right. split; [exact Hnone|]. exists j, h.
        split; [exact Hj|]. split; [exact Hav|]. split; [exact Hpr|].
        split; [|reflexivity].
        intros Hs. rewrite Hs in Hq.
        apply (get_houses_fancy_member _ _ j Hq); [now left|exact Hj].
Qed.

Lemma buy_loop_only_purchases (order : list nat) :
  forall (cs cs' : list Consumer) (m m' : HousingMarket) (r : result unit),
    Sim.buy_loop order cs m = (cs', m', r) ->
    only_purchases cs m cs' m'.
Proof.
  induction order as [|i order IH]; intros cs cs' m m' r Hrun.
  - simpl in Hrun. inversion Hrun; subst. apply only_purchases_refl.
  - simpl in Hrun. destruct (nth_error cs i) as [c|] eqn:Hi.
    + destruct (buy_a_house c m) as [[c1 m1]|e] eqn:Hbuy.
      * eapply only_purchases_trans;
          [eapply buy_a_house_only_purchases; eauto|eapply IH; eauto].
      * inversion Hrun; subst. apply only_purchases_refl.
    + eapply IH; eauto.
Qed.

(** Counting through an update at one position. *)
Lemma filter_length_list_set {X : Type} (p : X -> bool) (l : list X)
    (i : nat) (x y : X) :
  nth_error l i = Some x ->
  ((if p x then 1 else 0) + List.length (filter p (list_set l i y))
   = (if p y then 1 else 0) + List.length (filter p l))%nat.
Proof.
  revert i; induction l as [|z l IH]; intros [|i] H; simpl in *;
    try discriminate.
  - injection H as ->. destruct (p x), (p y); simpl; lia.
  - specialize (IH _ H). destruct (p z); simpl; lia.
Qed.

(** A purchase makes one owner more and one available house less. *)
Lemma buy_a_house_conserves (cs : list Consumer) (m m' : HousingMarket)
    (i : nat) (c c' : Consumer) :
  nth_error cs i = Some c ->
  buy_a_house c m = Ok (c', m') ->
  (Sim.count_owners (list_set cs i c') + Sim.count_available (houses m')
   = Sim.count_owners cs + Sim.count_available (houses m))%nat.
Proof.
  intros Hi Hbuy. apply buy_a_house_inv in Hbuy.
  destruct Hbuy as [[-> ->]|(Hnone & j & l & h & _ & Hj & Hav & _ & -> & ->)].
  - now rewrite (list_set_same _ _ Hi).
  - unfold Sim.count_owners, Sim.count_available. simpl houses.
    pose proof (filter_length_list_set
                  (fun c => match house c with
                            | Some _ => true
                            | None => false
                            end)
                  cs i
                  (set_savings (set_house c (Some j))
                     (savings c - down_payment h)%py) Hi) as Hc.
    pose proof (filter_length_list_set available (houses m) j
                  (sell_house h) Hj) as Hh.
    cbv beta in Hc. rewrite Hnone in Hc. rewrite Hav in Hh.
    simpl in Hc, Hh. lia.
Qed.

Lemma buy_loop_conserves (order : list nat) :
  forall (cs cs' : list Consumer) (m m' : HousingMarket) (r : result unit),
    Sim.buy_loop order cs m = (cs', m', r) ->
    (Sim.count_owners cs' + Sim.count_available (houses m')
     = Sim.count_owners cs + Sim.count_available (houses m))%nat.
Proof.
  induction order as [|i order IH]; intros cs cs' m m' r Hrun.
  - simpl in Hrun. inversion Hrun; subst. reflexivity.
  - simpl in Hrun. destruct (nth_error cs i) as [c|] eqn:Hi.
    + destruct (buy_a_house c m) as [[c1 m1]|e] eqn:Hbuy.
      * rewrite (IH _ _ _ _ _ Hrun).
        eapply buy_a_house_conserves; eauto.
      * inversion Hrun; subst. reflexivity.
    + eapply IH; eauto.
Qed.

Lemma nobody_owns_count (cs : list Consumer) :
  nobody_owns cs -> Sim.count_owners cs = 0%nat.
Proof.
  unfold Sim.count_owners. induction 1 as [|c cs Hc _ IH]; simpl;
    [reflexivity|]. rewrite Hc. exact IH.
Qed.

Lemma all_available_count (hs : list House) :
  all_available hs -> Sim.count_available hs = List.length hs.
Proof.
  unfold Sim.count_available. induction 1 as [|h hs Hh _ IH]; simpl;
    [reflexivity|]. rewrite Hh. simpl. now rewrite IH.
Qed.

End ClearingFrame.

(** X19 ([Simulation.clean_the_market], [Consumer.buy_a_house]): clearing
    conserves the sum of the consumers who own a house and the houses that
    are available: every purchase makes one owner more and one available
    house less, also when an exception ends the clearing.  When nobody owns
    a house and every house is available before, the owners afterwards are
    as many as the houses that are sold. *)
Theorem clean_the_market_conserves {A : Arith}
    (shuffle : list nat -> list nat) (s : Sim.Simulation)
    (cs : list Consumers.Consumer) (m : HouseMarket.HousingMarket) :
  Sim.consumers s = Some cs ->
  Sim.housing_market s = Some m ->
  exists cs' m' r,
    Sim.clean_the_market shuffle s
    = (Sim.set_housing_market (Sim.set_consumers s (Some cs')) (Some m'), r)
    /\ (Sim.count_owners cs' + Sim.count_available (HouseMarket.houses m')
        = Sim.count_owners cs + Sim.count_available (HouseMarket.houses m))%nat
    /\ List.length (HouseMarket.houses m')
       = List.length (HouseMarket.houses m)
    /\ (nobody_owns cs -> all_available (HouseMarket.houses m) ->
        Sim.count_owners cs' = Sim.count_sold (HouseMarket.houses m')).
Proof.
  intros Hcs Hm. unfold Sim.clean_the_market. rewrite Hcs, Hm.
  destruct (Sim.buy_loop
              (Sim.processing_order shuffle
                 (Sim.cleaning_market_mechanism s) cs) cs m)
    as [[cs' m'] r] eqn:Hrun.
  exists cs', m', r. split; [reflexivity|].
  pose proof (buy_loop_conserves _ _ _ Hrun) as Hsum.
  destruct (buy_loop_only_purchases _ _ _ Hrun) as [Hh _].
  apply Forall2_length in Hh.
  split; [exact Hsum|]. split; [now symmetry|].
  intros Hn Ha.
  rewrite (nobody_owns_count Hn), (all_available_count Ha) in Hsum.
  pose proof (count_sold_available (HouseMarket.houses m')). lia.
Qed.

(** Two consumers who own nothing clear the market of three available
    houses: afterwards the owners are as many as the houses sold. *)
Lemma clean_the_market_conserves_example :
  exists cs' m' r,
    Sim.clean_the_market (fun order => order) Examples.simulation_two_consumers
    = (Sim.set_housing_market
         (Sim.set_consumers Examples.simulation_two_consumers (Some cs'))
         (Some m'), r)
    /\ Sim.count_owners cs' = Sim.count_sold (HouseMarket.houses m').
Proof.
  destruct (@clean_the_market_conserves Examples.B (fun order => order)
              Examples.simulation_two_consumers _ Examples.market_three
              eq_refl eq_refl)
    as (cs' & m' & r & Hrun & _ & _ & Hcount).
  exists cs', m', r. split; [exact Hrun|].
  apply Hcount; repeat constructor.
Defined.

(** X18 ([Simulation.clean_the_market], [Consumer.buy_a_house],
    [House.sell_house]): clearing does nothing but purchases, also when an
    exception ends it.  A house is afterwards as it was or, if it was
    available, differs in [available] alone; a consumer is as it was or, if
    it held no house, holds one house that was available before and whose
    price was not above 5 times the savings, with the savings less 0.2 of
    its price and every other field as before.  The house of a FANCY
    consumer is EXCELLENT and was built from 2020 to 2024. *)
Theorem clean_the_market_only_purchases {A : Arith}
    (shuffle : list nat -> list nat) (s : Sim.Simulation)
    (cs : list Consumers.Consumer) (m : HouseMarket.HousingMarket) :
  Sim.consumers s = Some cs ->
  Sim.housing_market s = Some m ->
  exists cs' m' r,
    Sim.clean_the_market shuffle s
    = (Sim.set_housing_market (Sim.set_consumers s (Some cs')) (Some m'), r)
    /\ only_purchases cs m cs' m'.
Proof.
  intros Hcs Hm. unfold Sim.clean_the_market. rewrite Hcs, Hm.
  destruct (Sim.buy_loop
              (Sim.processing_order shuffle
                 (Sim.cleaning_market_mechanism s) cs) cs m)
    as [[cs' m'] r] eqn:Hrun.
  exists cs', m', r. split; [reflexivity|].
  eapply buy_loop_only_purchases; eauto.
Qed.

(** The same two consumers and three houses: after clearing the market
    still has three houses and the simulation two consumers. *)
Lemma clean_the_market_only_purchases_example :
  exists cs' m' r,
    Sim.clean_the_market (fun order => order) Examples.simulation_two_consumers
    = (Sim.set_housing_market
         (Sim.set_consumers Examples.simulation_two_consumers (Some cs'))
         (Some m'), r)
    /\ List.length cs' = 2%nat
    /\ List.length (HouseMarket.houses m') = 3%nat.
Proof.
  destruct (@clean_the_market_only_purchases Examples.B (fun order => order)
              Examples.simulation_two_consumers _ Examples.market_three
              eq_refl eq_refl)
    as (cs' & m' & r & Hrun & Hh & Hc).
  exists cs', m', r. split; [exact Hrun|].
  apply Forall2_length in Hh, Hc. simpl in Hh, Hc. auto.
Defined.

(** ** The exceptions of the query and of clearing *)

Section QueryExceptions.
Context {A : Arith}.
Import Houses HouseMarket Consumers.

(** A year that fails the validation of [is_new_construction(2024)]. *)
Lemma is_new_construction_raises (h : House) (e : exn) :
  is_new_construction h 2024 = Raise e ->
  e = ValueError /\ (year_built h > 2024 \/ year_built h < 1800)%Z.
Proof.
  unfold is_new_construction.
  destruct (year_built h >? 2024)%Z eqn:H1.
  - intros H; inversion H. split; [reflexivity|]. left. lia.
  - destruct (year_built h <? 1800)%Z eqn:H2; [|discriminate].
    intros H; inversion H. split; [reflexivity|]. right. lia.
Qed.

(** The filter of a segment raises only for FANCY, on a house whose year
    fails the validation: what the averages of OPTIMIZER and AVERAGE raise
    is caught. *)
Lemma segment_filter_raises (m : HousingMarket) (segment : Segment)
    (h : House) (e : exn) :
  segment_filter m segment h = Raise e ->
  segment = FANCY /\ e = ValueError
  /\ (year_built h > 2024 \/ year_built h < 1800)%Z.
Proof.
  destruct segment; unfold segment_filter.
  - destruct (is_new_construction h 2024) as [b|e0] eqn:Hn; simpl.
    + destruct (negb b
                || negb match quality_score h with
                        | Some q => quality_eqb q EXCELLENT
                        | None => false
                        end); discriminate.
    + intros H; inversion H; subst e0.
      destruct (is_new_construction_raises _ Hn) as [-> Hy]. auto.
  - unfold calculate_price_per_square_foot, calculate_average_price.
    destruct (area h <=? lit 0)%py; simpl; [discriminate|].
    destruct (filter (fun house => available house && true) (houses m));
      simpl; [discriminate|].
    unfold py_mean.
    destruct (map area (filter available (houses m))); simpl;
      [discriminate|].
    unfold truediv.
    match goal with
    | |- context [if ?c then Raise ZeroDivisionError else _] => destruct c
    end; simpl; [discriminate|].
    match goal with
    | |- context [if ?c then Ok false else Ok true] => destruct c
    end; discriminate.
  - unfold calculate_average_price.
    destruct (filter (fun house => available house && true) (houses m));
      simpl; [discriminate|].
    match goal with
    | |- context [if ?c then Ok false else Ok true] => destruct c
    end; discriminate.
Qed.

Lemma matching_loop_raises (m : HousingMarket) (max_price : num)
    (segment : Segment) (hs : list House) :
  forall i,
    raises (matching_loop m max_price segment i hs) = true <->
    segment = FANCY
    /\ exists h, In h hs /\ available h = true
                 /\ (price h >? max_price)%py = false
                 /\ (year_built h > 2024 \/ year_built h < 1800)%Z.
Proof.
  induction hs as [|h hs IH]; intros i.
  - simpl. split; [discriminate|]. intros (_ & h & [] & _).
  - simpl matching_loop.
    destruct (available h) eqn:Hav; simpl.
    + destruct (price h >? max_price)%py eqn:Hpr; simpl.
      * rewrite IH. split.
        -- intros (Hs & h' & Hin & H). split; [exact Hs|]. exists h'.
           split; [now right|exact H].
        -- intros (Hs & h' & [<-|Hin] & Hav' & Hpr' & Hy);
             [congruence|]. split; [exact Hs|]. exists h'. auto.
      * destruct (segment_filter m segment h) as [keep|e] eqn:Hf; simpl.
        -- assert (Hvalid : segment = FANCY ->
                            (1800 <= year_built h <= 2024)%Z).
           { intros ->. unfold segment_filter in Hf.
             destruct (is_new_construction h 2024) as [b|e0] eqn:Hn;
               [|discriminate].
             unfold is_new_construction in Hn.
             destruct (year_built h >? 2024)%Z eqn:H1; [discriminate|].
             destruct (year_built h <? 1800)%Z eqn:H2; [discriminate|].
             lia. }
           specialize (IH (S i)).
           destruct (matching_loop m max_price segment (S i) hs)
             as [l|e] eqn:Hl; simpl in *.
           ++ split; [discriminate|].
              intros (Hs & h' & [<-|Hin] & Hav' & Hpr' & Hy).
              ** specialize (Hvalid Hs). lia.
              ** apply IH. split; [exact Hs|]. exists h'. auto.
           ++ split; [|reflexivity]. intros _.
              destruct (proj1 IH eq_refl) as (Hs & h' & Hin & H).
              split; [exact Hs|]. exists h'. split; [now right|exact H].
        -- split; [|reflexivity]. intros _.
           destruct (segment_filter_raises _ _ _ Hf) as (Hs & _ & Hy).
           split; [exact Hs|]. exists h. auto.
    + rewrite IH. split.
      * intros (Hs & h' & Hin & H). split; [exact Hs|]. exists h'.
        split; [now right|exact H].
      * intros (Hs & h' & [<-|Hin] & Hav' & Hpr' & Hy);
          [congruence|]. split; [exact Hs|]. exists h'. auto.
Qed.

Lemma matching_loop_value_error (m : HousingMarket) (max_price : num)
    (segment : Segment) (hs : list House) :
  forall i e,
    matching_loop m max_price segment i hs = Raise e -> e = ValueError.
Proof.
  induction hs as [|h hs IH]; intros i e; simpl; [discriminate|].
  destruct (negb (available h) || (price h >? max_price)%py); [apply IH|].
  destruct (segment_filter m segment h) as [keep|e0] eqn:Hf; simpl.
  - destruct (matching_loop m max_price segment (S i) hs) as [l|e1] eqn:Hl;
      simpl; [discriminate|].
    intros H; inversion H; subst. eapply IH; eauto.
  - intros H; inversion H; subst.
    now destruct (segment_filter_raises _ _ _ Hf) as (_ & -> & _).
Qed.

Lemma get_houses_value_error (m : HousingMarket) (max_price : num)
    (segment : Segment) (e : exn) :
  get_houses_that_meet_requirements m max_price segment = Raise e ->
  e = ValueError.
Proof.
  unfold get_houses_that_meet_requirements.
  destruct (max_price <=? lit 0)%py.
  - intros H; inversion H; reflexivity.
  - apply matching_loop_value_error.
Qed.

Lemma buy_a_house_value_error (c : Consumer) (m : HousingMarket) (e : exn) :
  buy_a_house c m = Raise e ->
  e = ValueError /\ house c = None
  /\ get_houses_that_meet_requirements m (max_affordable c) (segment c)
     = Raise ValueError.
Proof.
  unfold buy_a_house. fold (max_affordable c).
  destruct (house c); [discriminate|].
  destruct (get_houses_that_meet_requirements m (max_affordable c)
              (segment c)) as [l|e0] eqn:Hq; simpl.
  - destruct l as [|j l]; [discriminate|].
    destruct (nth_error (houses m) j); discriminate.
  - intros H; inversion H; subst e0.
    pose proof (get_houses_value_error _ _ _ Hq) as ->. auto.
Qed.

Lemma buy_loop_value_error (order : list nat) :
  forall (cs cs' : list Consumer) (m m' : HousingMarket) (e : exn),
    Sim.buy_loop order cs m = (cs', m', Raise e) -> e = ValueError.
Proof.
  induction order as [|i order IH]; intros cs cs' m m' e Hrun;
    simpl in Hrun; [discriminate|].
  destruct (nth_error cs i) as [c|]; [|eapply IH; eauto].
  destruct (buy_a_house c m) as [[c1 m1]|e0] eqn:Hbuy; [eapply IH; eauto|].
  inversion Hrun; subst.
  now destruct (buy_a_house_value_error _ _ Hbuy) as [-> _].
Qed.

End QueryExceptions.

(** X2 ([HousingMarket.get_houses_that_meet_requirements]): the query
    raises nothing but [ValueError], and it raises exactly when
    [max_price <= 0] or when, for the segment FANCY, some available house
    whose price is not above [max_price] has a year after 2024 or before
    1800.  For OPTIMIZER and AVERAGE a positive [max_price] is answered
    without an exception on every market, the empty one included. *)
Theorem get_houses_that_meet_requirements_raises {A : Arith}
    (m : HouseMarket.HousingMarket) (max_price : num) (segment : Segment) :
  (forall e,
      HouseMarket.get_houses_that_meet_requirements m max_price segment
      = Raise e -> e = ValueError)
  /\ (raises
        (HouseMarket.get_houses_that_meet_requirements m max_price segment)
      = true <->
      (max_price <=? lit 0)%py = true
      \/ (segment = FANCY
          /\ exists h,
               In h (HouseMarket.houses m)
               /\ Houses.available h = true
               /\ (Houses.price h >? max_price)%py = false
               /\ (Houses.year_built h > 2024
                   \/ Houses.year_built h < 1800)%Z)).
Proof.
  split; [intros e; apply get_houses_value_error|].
  unfold HouseMarket.get_houses_that_meet_requirements.
  destruct (max_price <=? lit 0)%py; simpl.
  - split; auto.
  - rewrite matching_loop_raises. split; [auto|].
    intros [H|H]; [discriminate|exact H].
Qed.

(** X16 ([Simulation.clean_the_market]): the method raises [RuntimeError]
    exactly when the consumers or the market have not been created, and
    then changes nothing; every other exception that ends it is the
    [ValueError] of a consumer's query of the market. *)
Theorem clean_the_market_exceptions {A : Arith}
    (shuffle : list nat -> list nat) (s : Sim.Simulation) :
  ((Sim.consumers s = None \/ Sim.housing_market s = None) ->
   Sim.clean_the_market shuffle s = (s, Raise RuntimeError))
  /\ (forall s' e,
        Sim.clean_the_market shuffle s = (s', Raise e) ->
        (e = RuntimeError /\ s' = s
         /\ (Sim.consumers s = None \/ Sim.housing_market s = None))
        \/ (e = ValueError
            /\ Sim.consumers s <> None /\ Sim.housing_market s <> None)).
Proof.
  unfold Sim.clean_the_market.
  destruct (Sim.consumers s) as [cs|] eqn:Hcs;
    [destruct (Sim.housing_market s) as [m|] eqn:Hm|].
  - split; [intros [H|H]; discriminate|].
    intros s' e.
    destruct (Sim.buy_loop
                (Sim.processing_order shuffle
                   (Sim.cleaning_market_mechanism s) cs) cs m)
      as [[cs' m'] r] eqn:Hrun.
    intros H. inversion H; subst. right.
    split; [eapply buy_loop_value_error; eauto|].
    split; discriminate.
  - split; [reflexivity|]. intros s' e H. inversion H; subst. left. auto.
  - split; [reflexivity|]. intros s' e H. inversion H; subst. left. auto.
Qed.

(** ** Savings of all consumers, and the two rates (simulation.py) *)

Section Rates.
Context {A : Arith}.
Import Houses HouseMarket Consumers.

Lemma savings_all_negative_years (years : Z) (todo done : list Consumer) :
  (years <? 0)%Z = true ->
  Sim.savings_all years done todo
  = (done ++ todo, match todo with
                   | [] => Ok tt
                   | _ :: _ => Raise ValueError
                   end).
Proof.
  intros Hy. destruct todo as [|c todo]; simpl.
  - now rewrite app_nil_r.
  - unfold compute_savings. rewrite Hy. reflexivity.
Qed.

Lemma savings_all_years (years : Z) (todo : list Consumer) :
  (years <? 0)%Z = false ->
  forall done,
  exists todo',
    Sim.savings_all years done todo = (done ++ todo', Ok tt)
    /\ Forall2 (fun c c' => compute_savings c years = Ok c') todo todo'.
Proof.
  intros Hy. induction todo as [|c todo IH]; intros done; simpl.
  - exists []. rewrite app_nil_r. split; [reflexivity|constructor].
  - destruct (compute_savings c years) as [c'|e] eqn:Hs.
    + destruct (IH (done ++ [c'])) as (todo' & Hrun & Hall).
      exists (c' :: todo'). rewrite Hrun, <- app_assoc. simpl.
      split; [reflexivity|]. constructor; assumption.
    + unfold compute_savings in Hs. rewrite Hy in Hs. discriminate.
Qed.

Lemma set_consumers_same (s : Sim.Simulation) (cs : list Consumer) :
  Sim.consumers s = Some cs -> Sim.set_consumers s (Some cs) = s.
Proof. destruct s; simpl; intros ->; reflexivity. Qed.

(** The quotient of two counts, the first not above the second. *)
Lemma int_truediv_counts (a b : nat) :
  b <> 0%nat -> (a <= b)%nat ->
  exists q,
    Sim.int_truediv (Z.of_nat a) (Z.of_nat b) = Ok (lit q)
    /\ (q == inject_Z (Z.of_nat a) / inject_Z (Z.of_nat b))%Q
    /\ (0 <= q <= 1)%Q
    /\ (a = 0%nat -> q = 0%Q)
    /\ (a = b -> q = 1%Q).
Proof.
  intros Hb Hab. unfold Sim.int_truediv.
  replace (Z.of_nat b =? 0)%Z with false by (symmetry; apply Z.eqb_neq; lia).
  exists (Qred (inject_Z (Z.of_nat a) / inject_Z (Z.of_nat b))).
  assert (Hpos : (0 < inject_Z (Z.of_nat b))%Q)
    by (unfold Qlt, inject_Z; simpl; lia).
  split; [reflexivity|]. split; [apply Qred_correct|]. split; [|split].
  - rewrite Qred_correct. split.
    + apply Qle_shift_div_l; [exact Hpos|].
      rewrite Qmult_0_l. change 0%Q with (inject_Z 0).
      rewrite <- Zle_Qle. lia.
    + apply Qle_shift_div_r; [exact Hpos|].
      rewrite Qmult_1_l, <- Zle_Qle. lia.
  - intros ->. change 0%Q with (Qred 0). apply Qred_complete.
    unfold Qdiv. apply Qmult_0_l.
  - intros ->. change 1%Q with (Qred 1). apply Qred_complete.
    apply Qmult_inv_r. intros H. unfold Qeq, inject_Z in H; simpl in H. lia.
Qed.

Lemma count_owners_le (cs : list Consumer) :
  (Sim.count_owners cs <= List.length cs)%nat.
Proof. apply filter_length_le. Qed.

Lemma count_available_le (hs : list House) :
  (Sim.count_available hs <= List.length hs)%nat.
Proof. apply filter_length_le. Qed.

End Rates.

(** X14 ([Simulation.compute_consumers_savings]): before
    [create_consumers] the method raises [RuntimeError].  With negative
    [years] it raises the [ValueError] of the first consumer and changes
    no consumer, but it returns normally when there is no consumer at all.
    Otherwise it returns normally, and every consumer, in the same place
    of the list, is the result of its own [compute_savings(years)]. *)
Theorem compute_consumers_savings_spec {A : Arith} (s : Sim.Simulation) :
  (Sim.consumers s = None ->
   Sim.compute_consumers_savings s = (s, Raise RuntimeError))
  /\ (forall cs,
        Sim.consumers s = Some cs ->
        if (Sim.years s <? 0)%Z
        then Sim.compute_consumers_savings s
             = (s, match cs with
                   | [] => Ok tt
                   | _ :: _ => Raise ValueError
                   end)
        else exists cs',
               Sim.compute_consumers_savings s
               = (Sim.set_consumers s (Some cs'), Ok tt)
               /\ Forall2
                    (fun c c' =>
                       Consumers.compute_savings c (Sim.years s) = Ok c')
                    cs cs').
Proof.
  unfold Sim.compute_consumers_savings. split.
  - intros ->. reflexivity.
  - intros cs Hcs. rewrite Hcs.
    destruct (Sim.years s <? 0)%Z eqn:Hy.
    + rewrite (@savings_all_negative_years _ _ cs [] Hy). simpl.
      now rewrite (set_consumers_same _ Hcs).
    + destruct (@savings_all_years _ _ cs Hy []) as (cs' & Hrun & Hall).
      rewrite Hrun. simpl. exists cs'. auto.
Qed.

(** Five years of saving for the two consumers of the example: the
    method returns normally and there are two consumers afterwards. *)
Lemma compute_consumers_savings_example :
  exists cs',
    Sim.compute_consumers_savings Examples.simulation_two_consumers
    = (Sim.set_consumers Examples.simulation_two_consumers (Some cs'), Ok tt)
    /\ List.length cs' = 2%nat.
Proof.
  pose proof (proj2 (@compute_consumers_savings_spec Examples.B
                       Examples.simulation_two_consumers) _ eq_refl) as H.
  change (Sim.years Examples.simulation_two_consumers <? 0)%Z with false in H.
  destruct H as (cs' & Hrun & Hall).
  exists cs'. split; [exact Hrun|].
  apply Forall2_length in Hall. simpl in Hall. now symmetry.
Defined.

(** X21 ([Simulation.compute_owners_population_rate]): before
    [create_consumers] the method raises [RuntimeError]; for an empty list
    of consumers it raises [ZeroDivisionError]; otherwise it returns the
    float nearest to owners / consumers, a quotient from 0 to 1, which is
    0.0 when nobody owns a house and 1.0 when everybody does.  Right after
    [create_consumers] the rate is 0.0, or the [ZeroDivisionError] when no
    consumer was created. *)
Theorem compute_owners_population_rate_spec {A : Arith}
    (s : Sim.Simulation) :
  (Sim.consumers s = None ->
   Sim.compute_owners_population_rate s = Raise RuntimeError)
  /\ (Sim.consumers s = Some [] ->
      Sim.compute_owners_population_rate s = Raise ZeroDivisionError)
  /\ (forall cs,
        Sim.consumers s = Some cs -> cs <> [] ->
        exists q,
          Sim.compute_owners_population_rate s = Ok (lit q)
          /\ (q == inject_Z (Z.of_nat (Sim.count_owners cs))
                   / inject_Z (Z.of_nat (List.length cs)))%Q
          /\ (0 <= q <= 1)%Q
          /\ (nobody_owns cs -> q = 0%Q)
          /\ (Sim.count_owners cs = List.length cs -> q = 1%Q))
  /\ (forall draws,
        Sim.compute_owners_population_rate (Sim.create_consumers s draws)
        = match draws with
          | [] => Raise ZeroDivisionError
          | _ :: _ => Ok (lit 0)
          end).
Proof.
  unfold Sim.compute_owners_population_rate.
  assert (Hne : forall cs : list Consumers.Consumer,
             cs <> [] ->
             exists q,
               Sim.int_truediv (Z.of_nat (Sim.count_owners cs))
                 (Z.of_nat (List.length cs)) = Ok (lit q)
               /\ (q == inject_Z (Z.of_nat (Sim.count_owners cs))
                        / inject_Z (Z.of_nat (List.length cs)))%Q
               /\ (0 <= q <= 1)%Q
               /\ (nobody_owns cs -> q = 0%Q)
               /\ (Sim.count_owners cs = List.length cs -> q = 1%Q)).
  { intros cs Hcs.
    destruct (@int_truediv_counts A (Sim.count_owners cs) (List.length cs))
      as (q & Hq & Heq & Hrange & H0 & H1).
    - destruct cs; [congruence|discriminate].
    - apply count_owners_le.
    - exists q. split; [exact Hq|]. split; [exact Heq|].
      split; [exact Hrange|]. split; [|exact H1].
      intros Hn. apply H0. now apply nobody_owns_count. }
  split; [intros ->; reflexivity|]. split; [intros ->; reflexivity|].
  split.
  - intros cs -> Hcs. now apply Hne.
  - intros draws.
    destruct (create_consumers_fresh s draws) as (cs & Hcs & Hlen & Hn & _).
    rewrite Hcs. destruct draws as [|d draws].
    + destruct cs; [reflexivity|discriminate].
    + destruct (Hne cs) as (q & Hq & _ & _ & H0 & _).
      * destruct cs; [discriminate|congruence].
      * rewrite Hq, (H0 Hn). reflexivity.
Qed.

(** X22 ([Simulation.compute_houses_availability_rate]): before
    [create_housing_market] the method raises [RuntimeError]; for a market
    without houses it raises [ZeroDivisionError]; otherwise it returns the
    float nearest to available / houses, a quotient from 0 to 1, which is
    1.0 when every house is available and 0.0 when none is.  Right after
    [create_housing_market] the rate is 1.0, or the [ZeroDivisionError]
    when no record yielded a house. *)
Theorem compute_houses_availability_rate_spec {A : Arith} {P : Parsers}
    (s : Sim.Simulation) :
  (Sim.housing_market s = None ->
   Sim.compute_houses_availability_rate s = Raise RuntimeError)
  /\ (forall m,
        Sim.housing_market s = Some m -> HouseMarket.houses m = [] ->
        Sim.compute_houses_availability_rate s = Raise ZeroDivisionError)
  /\ (forall m,
        Sim.housing_market s = Some m -> HouseMarket.houses m <> [] ->
        exists q,
          Sim.compute_houses_availability_rate s = Ok (lit q)
          /\ (q == inject_Z
                     (Z.of_nat (Sim.count_available (HouseMarket.houses m)))
                   / inject_Z (Z.of_nat (List.length (HouseMarket.houses m))))%Q
          /\ (0 <= q <= 1)%Q
          /\ (all_available (HouseMarket.houses m) -> q = 1%Q)
          /\ (Sim.count_available (HouseMarket.houses m) = 0%nat ->
              q = 0%Q))
  /\ (forall s',
        Sim.create_housing_market s = Ok s' ->
        exists m,
          Sim.housing_market s' = Some m
          /\ Sim.compute_houses_availability_rate s'
             = match HouseMarket.houses m with
               | [] => Raise ZeroDivisionError
               | _ :: _ => Ok (lit 1)
               end).
Proof.
  assert (Hne : forall hs : list Houses.House,
             hs <> [] ->
             exists q,
               Sim.int_truediv (Z.of_nat (Sim.count_available hs))
                 (Z.of_nat (List.length hs)) = Ok (lit q)
               /\ (q == inject_Z (Z.of_nat (Sim.count_available hs))
                        / inject_Z (Z.of_nat (List.length hs)))%Q
               /\ (0 <= q <= 1)%Q
               /\ (all_available hs -> q = 1%Q)
               /\ (Sim.count_available hs = 0%nat -> q = 0%Q)).
  { intros hs Hhs.
    destruct (@int_truediv_counts A (Sim.count_available hs)
                (List.length hs))
      as (q & Hq & Heq & Hrange & H0 & H1).
    - destruct hs; [congruence|discriminate].
    - apply count_available_le.
    - exists q. split; [exact Hq|]. split; [exact Heq|].
      split; [exact Hrange|]. split; [|exact H0].
      intros Ha. apply H1. now apply all_available_count. }
  unfold Sim.compute_houses_availability_rate.
  split; [intros ->; reflexivity|].
  split; [intros m -> ->; reflexivity|]. split.
  - intros m -> Hm. now apply Hne.
  - intros s' Hc. unfold Sim.create_housing_market in Hc.
    destruct (Sim.houses_loop 0 (Sim.housing_market_data s)) as [hs|e] eqn:Hl;
      simpl in Hc; [|discriminate].
    inversion Hc; subst s'. clear Hc. simpl.
    exists {| HouseMarket.houses := hs |}. split; [reflexivity|]. simpl.
    destruct hs as [|h hs]; [reflexivity|].
    destruct (Hne (h :: hs)) as (q & Hq & _ & _ & H1 & _); [discriminate|].
    rewrite Hq, H1; [reflexivity|].
    eapply houses_loop_available; eauto.
Qed.

(** ** The order of processing (simulation.py) *)

Section StableSort.
Context {A : Arith}.
Variables (X : Type) (key : X -> num) (earlier : X -> X -> Prop).
Variable comparable : X -> Prop.

Hypothesis lt_asym :
  forall x y, comparable x -> comparable y ->
              (key x <? key y)%py = true -> (key y <? key x)%py = false.
Hypothesis le_trans :
  forall x y z, comparable x -> comparable y -> comparable z ->
                (key y <? key x)%py = false -> (key z <? key y)%py = false ->
                (key z <? key x)%py = false.

Lemma sorted_before_not_less (x y : X) :
  comparable x -> comparable y ->
  sorted_before key earlier x y -> (key y <? key x)%py = false.
Proof.
  intros Hx Hy [H|[H _]]; [now apply lt_asym|exact H].
Qed.

Lemma insert_by_key_sorted (x : X) (l : list X) :
  comparable x -> Forall comparable l ->
  StronglySorted (sorted_before key earlier) l -> Forall (earlier x) l ->
  StronglySorted (sorted_before key earlier) (Sim.insert_by_key key x l).
Proof.
  intros Hx. induction l as [|y l IH]; intros Hc Hs He; simpl.
  - repeat constructor.
  - inversion Hc as [|? ? Hy Hc']; subst.
    inversion Hs as [|? ? Hs' Hall]; subst.
    inversion He as [|? ? Hey He']; subst.
    destruct (key y <? key x)%py eqn:Hlt.
    + constructor; [now apply IH|].
      apply Forall_forall. intros w Hw.
      apply (Permutation_in _ (insert_by_key_permutation key x l)) in Hw.
      destruct Hw as [<-|Hw]; [now left|].
      rewrite Forall_forall in Hall. now apply Hall.
    + constructor; [exact Hs|].
      constructor; [right; auto|].
      apply Forall_forall. intros w Hw. right.
      rewrite Forall_forall in Hall, He', Hc'. split; [|now apply He'].
      apply le_trans with (y := y); auto.
      apply sorted_before_not_less; auto.
Qed.

Lemma sort_by_key_sorted (l : list X) :
  Forall comparable l -> StronglySorted earlier l ->
  StronglySorted (sorted_before key earlier) (Sim.sort_by_key key l).
Proof.
  induction l as [|x l IH]; intros Hc Hs; simpl; [constructor|].
  inversion Hc as [|? ? Hx Hc']; subst.
  inversion Hs as [|? ? Hs' Hall]; subst.
  apply insert_by_key_sorted; auto.
  - apply (Permutation_Forall (Permutation_sym (sort_by_key_permutation key l))).
    exact Hc'.
  - apply (Permutation_Forall (Permutation_sym (sort_by_key_permutation key l))).
    exact Hall.
Qed.

End StableSort.

Section SortedLists.

Lemma StronglySorted_app {X : Type} (R : X -> X -> Prop) (l1 l2 : list X) :
  StronglySorted R l1 -> StronglySorted R l2 ->
  (forall x y, In x l1 -> In y l2 -> R x y) ->
  StronglySorted R (l1 ++ l2).
Proof.
  induction l1 as [|a l1 IH]; intros H1 H2 H12; simpl; [exact H2|].
  inversion H1 as [|? ? H1' Hall]; subst.
  constructor.
  - apply IH; auto. intros x y Hx Hy. apply H12; [now right|exact Hy].
  - apply Forall_app. split; [exact Hall|].
    apply Forall_forall. intros y Hy. apply H12; [now left|exact Hy].
Qed.

Lemma StronglySorted_reverse {X : Type} (R : X -> X -> Prop) (l : list X) :
  StronglySorted R l -> StronglySorted (fun x y => R y x) (rev l).
Proof.
  induction 1 as [|a l Hs IH Hall]; simpl; [constructor|].
  apply StronglySorted_app; [exact IH|repeat constructor|].
  intros x y Hx [<-|[]]. rewrite Forall_forall in Hall.
  apply Hall. now apply in_rev.
Qed.

Lemma StronglySorted_map {X Y : Type} (R : X -> X -> Prop)
    (S : Y -> Y -> Prop) (f : X -> Y) (l : list X) :
  (forall x y, In x l -> In y l -> R x y -> S (f x) (f y)) ->
  StronglySorted R l -> StronglySorted S (map f l).
Proof.
  intros Hf. induction 1 as [|a l Hs IH Hall]; simpl; [constructor|].
  constructor.
  - apply IH. intros x y Hx Hy. apply Hf; now right.
  - apply Forall_forall. intros z Hz. apply in_map_iff in Hz.
    destruct Hz as (y & <- & Hy). rewrite Forall_forall in Hall.
    apply Hf; [now left|now right|now apply Hall].
Qed.

(** The consumers paired with their positions. *)
Lemma combine_seq_nth_error {X : Type} (l : list X) (n i : nat) (x : X) :
  In (i, x) (combine (seq n (List.length l)) l) ->
  (n <= i)%nat /\ nth_error l (i - n) = Some x.
Proof.
  revert n; induction l as [|y l IH]; intros n; simpl; [intros []|].
  intros [H|H].
  - injection H as <- <-. rewrite Nat.sub_diag. auto.
  - apply IH in H. destruct H as [Hle Hn]. split; [lia|].
    replace (i - n)%nat with (S (i - S n)) by lia. exact Hn.
Qed.

Lemma combine_seq_sorted {X : Type} (l : list X) (n : nat) :
  StronglySorted (fun a b : nat * X => (fst a < fst b)%nat)
    (combine (seq n (List.length l)) l).
Proof.
  revert n; induction l as [|y l IH]; intros n; simpl; constructor.
  - apply IH.
  - apply Forall_forall. intros [i x] Hin.
    apply combine_seq_nth_error in Hin. simpl. lia.
Qed.

End SortedLists.

Section Binary64Order.

Lemma SFleb_trans (x y z : spec_float) :
  SFleb x y = true -> SFleb y z = true -> SFleb x z = true.
Proof.
  unfold SFleb.
  destruct x as [sx|sx| |sx mx ex], y as [sy|sy| |sy my ey],
           z as [sz|sz| |sz mz ez]; simpl;
    try discriminate; try reflexivity;
    try (destruct sx; simpl; try discriminate; try reflexivity;
         destruct sy; simpl; try discriminate; try reflexivity;
         destruct sz; simpl; try discriminate; reflexivity);
    try (destruct sx; simpl; try discriminate; try reflexivity;
         destruct sz; simpl; try discriminate; reflexivity);
    try (destruct sy; simpl; try discriminate; try reflexivity;
         destruct sz; simpl; try discriminate; reflexivity);
    try (destruct sx; simpl; try discriminate; try reflexivity;
         destruct sy; simpl; try discriminate; reflexivity).
  all: change (Pos.compare_cont Eq mx my) with (Pos.compare mx my);
       change (Pos.compare_cont Eq my mz) with (Pos.compare my mz);
       change (Pos.compare_cont Eq mx mz) with (Pos.compare mx mz).
  all: destruct sx, sy, sz; simpl; try discriminate; try reflexivity.
  all: destruct (Z.compare_spec ex ey), (Z.compare_spec ey ez),
         (Z.compare_spec ex ez); simpl; try discriminate; try reflexivity;
       try lia; subst.
  all: destruct (Pos.compare_spec mx my), (Pos.compare_spec my mz),
         (Pos.compare_spec mx mz); simpl; try discriminate; try reflexivity;
       try lia.
Qed.

Lemma binary64_lt_asym (x y : float) :
  PrimFloat.ltb x y = true -> PrimFloat.ltb y x = false.
Proof.
  rewrite !ltb_spec. unfold SFltb.
  rewrite (SFcompare_antisym (Prim2SF x) (Prim2SF y)).
  destruct (SFcompare (Prim2SF x) (Prim2SF y)) as [[| |]|]; simpl;
    try discriminate; reflexivity.
Qed.

(** Among floats that are not NaN, [<=] is transitive; it is written with
    [<] as the sort compares. *)
Lemma binary64_not_less_trans (x y z : float) :
  is_nan x = false -> is_nan y = false -> is_nan z = false ->
  PrimFloat.ltb y x = false -> PrimFloat.ltb z y = false ->
  PrimFloat.ltb z x = false.
Proof.
  intros Hx Hy Hz Hxy Hyz.
  pose proof (binary64_not_above_is_le x y Hx Hy) as H1.
  pose proof (binary64_not_above_is_le y z Hy Hz) as H2.
  pose proof (binary64_not_above_is_le x z Hx Hz) as H3.
  change (PrimFloat.ltb y x = negb (PrimFloat.leb x y)) in H1.
  change (PrimFloat.ltb z y = negb (PrimFloat.leb y z)) in H2.
  change (PrimFloat.ltb z x = negb (PrimFloat.leb x z)) in H3.
  rewrite H3. rewrite H1 in Hxy. rewrite H2 in Hyz.
  apply negb_false_iff in Hxy, Hyz. apply negb_false_iff.
  rewrite leb_spec in *. eapply SFleb_trans; eauto.
Qed.

End Binary64Order.

(** X15 ([Simulation.clean_the_market]): the order of processing by
    income, for incomes that are numbers.  With INCOME_ORDER_ASCENDANT a
    consumer is processed before another exactly as the incomes ascend,
    and with INCOME_ORDER_DESCENDANT as they descend; consumers whose
    incomes tie are processed in the order of the list of consumers (the
    sort is stable, also with [reverse=True]).  Either order holds every
    consumer once. *)
Theorem processing_order_by_income (shuffle : list nat -> list nat)
    (cs : list (@Consumers.Consumer Binary64.arith)) :
  Forall (fun c : @Consumers.Consumer Binary64.arith =>
            is_nan (Consumers.annual_income c) = false) cs ->
  (StronglySorted (before_ascending cs)
     (Sim.processing_order shuffle INCOME_ORDER_ASCENDANT cs)
   /\ Permutation (Sim.processing_order shuffle INCOME_ORDER_ASCENDANT cs)
        (seq 0 (List.length cs)))
  /\ (StronglySorted (before_descending cs)
        (Sim.processing_order shuffle INCOME_ORDER_DESCENDANT cs)
      /\ Permutation (Sim.processing_order shuffle INCOME_ORDER_DESCENDANT cs)
           (seq 0 (List.length cs))).
Proof.
  intros Hnan.
  set (pairs := combine (seq 0 (List.length cs)) cs).
  set (key := fun ic : nat * @Consumers.Consumer Binary64.arith =>
                Consumers.annual_income (snd ic)).
  set (comparable := fun ic : nat * @Consumers.Consumer Binary64.arith =>
                       is_nan (key ic) = false).
  assert (Hpairs : forall i c, In (i, c) pairs -> nth_error cs i = Some c).
  { intros i c Hin. apply combine_seq_nth_error in Hin.
    rewrite Nat.sub_0_r in Hin. tauto. }
  assert (Hcomp : Forall comparable pairs).
  { apply Forall_forall. intros [i c] Hin. apply Hpairs in Hin.
    apply nth_error_In in Hin. rewrite Forall_forall in Hnan.
    unfold comparable, key. simpl. now apply Hnan. }
  assert (Hasym : forall x y, comparable x -> comparable y ->
                              (key x <? key y)%py = true ->
                              (key y <? key x)%py = false).
  { intros x y _ _. apply binary64_lt_asym. }
  assert (Htrans : forall x y z,
             comparable x -> comparable y -> comparable z ->
             (key y <? key x)%py = false -> (key z <? key y)%py = false ->
             (key z <? key x)%py = false).
  { intros x y z Hx Hy Hz. now apply binary64_not_less_trans. }
  split; split.
  - unfold Sim.processing_order. fold pairs. fold key.
    apply StronglySorted_map
      with (R := sorted_before key (fun a b => (fst a < fst b)%nat)).
    + intros [i ci] [j cj] Hi Hj Hr.
      apply (Permutation_in _ (sort_by_key_permutation key pairs)) in Hi, Hj.
      unfold before_ascending. simpl.
      rewrite (Hpairs _ _ Hi), (Hpairs _ _ Hj). exact Hr.
    + apply (@sort_by_key_sorted _ _ key _ comparable Hasym Htrans);
        [exact Hcomp|apply combine_seq_sorted].
  - change (Permutation
              (Sim.processing_order (fun l => l) INCOME_ORDER_ASCENDANT cs)
              (seq 0 (List.length cs))).
    apply processing_order_permutation. reflexivity.
  - unfold Sim.processing_order, Sim.sort_by_key_reverse.
    fold pairs. fold key.
    apply StronglySorted_map
      with (R := fun a b =>
                   sorted_before key (fun a b => (fst b < fst a)%nat) b a).
    + intros [i ci] [j cj] Hi Hj Hr.
      apply in_rev in Hi, Hj.
      apply (Permutation_in _ (sort_by_key_permutation key (rev pairs)))
        in Hi, Hj.
      apply in_rev in Hi, Hj.
      unfold before_descending. simpl.
      rewrite (Hpairs _ _ Hi), (Hpairs _ _ Hj). exact Hr.
    + apply StronglySorted_reverse.
      apply (@sort_by_key_sorted _ _ key _ comparable Hasym Htrans).
      * apply Forall_rev. exact Hcomp.
      * apply (StronglySorted_reverse (combine_seq_sorted cs 0)).
  - change (Permutation
              (Sim.processing_order (fun l => l) INCOME_ORDER_DESCENDANT cs)
              (seq 0 (List.length cs))).
    apply processing_order_permutation. reflexivity.
Qed.

(** The two consumers of the example, with the incomes 45000 and 60000:
    by descending income the second is processed first. *)
Lemma processing_order_by_income_example :
  Sim.processing_order (fun l => l) INCOME_ORDER_DESCENDANT
    [ Examples.mk_consumer 0 45000 AVERAGE 30000;
      Examples.mk_consumer 1 60000 AVERAGE 40000 ]
  = [1%nat; 0%nat]
  /\ Sim.processing_order (fun l => l) INCOME_ORDER_ASCENDANT
       [ Examples.mk_consumer 0 45000 AVERAGE 30000;
         Examples.mk_consumer 1 60000 AVERAGE 40000 ]
     = [0%nat; 1%nat]
  /\ StronglySorted
       (before_descending
          [ Examples.mk_consumer 0 45000 AVERAGE 30000;
            Examples.mk_consumer 1 60000 AVERAGE 40000 ])
       [1%nat; 0%nat].
Proof.
  assert (H1 : Sim.processing_order (fun l => l) INCOME_ORDER_DESCENDANT
                 [ Examples.mk_consumer 0 45000 AVERAGE 30000;
                   Examples.mk_consumer 1 60000 AVERAGE 40000 ]
               = [1%nat; 0%nat]) by (vm_compute; reflexivity).
  split; [exact H1|]. split; [vm_compute; reflexivity|].
  rewrite <- H1.
  apply (proj2 (@processing_order_by_income (fun l => l)
                  [ Examples.mk_consumer 0 45000 AVERAGE 30000;
                    Examples.mk_consumer 1 60000 AVERAGE 40000 ]
                  ltac:(repeat constructor))).
Defined.

(** ** Clearing needs savings *)

Section ClearingNeedsSavings.
Context {A : Arith}.
Import Houses HouseMarket Consumers.

(** When the loop ends normally, every consumer it processed held a house
    or could afford a positive price. *)
Lemma buy_loop_ok_affordable (order : list nat) :
  forall (cs cs' : list Consumer) (m m' : HousingMarket),
    Sim.buy_loop order cs m = (cs', m', Ok tt) ->
    forall i c,
      In i order -> nth_error cs i = Some c -> house c = None ->
      (max_affordable c <=? lit 0)%py = false.
Proof.
  induction order as [|i0 order IH]; intros cs cs' m m' Hrun i c Hin Hi Hnone;
    [contradiction|].
  simpl in Hrun.
  destruct (Nat.eq_dec i0 i) as [->|Hne].
  - rewrite Hi in Hrun.
    destruct (buy_a_house c m) as [[c1 m1]|e] eqn:Hbuy; [|discriminate].
    unfold buy_a_house in Hbuy. rewrite Hnone in Hbuy.
    fold (max_affordable c) in Hbuy.
    destruct (get_houses_that_meet_requirements m (max_affordable c)
                (segment c)) as [l|e] eqn:Hq; [|discriminate].
    now destruct (get_houses_sound _ _ _ Hq).
  - destruct Hin as [Heq|Hin]; [contradiction|].
    destruct (nth_error cs i0) as [c0|] eqn:Hi0.
    + destruct (buy_a_house c0 m) as [[c1 m1]|e] eqn:Hbuy; [|discriminate].
      eapply IH; eauto.
      rewrite nth_error_list_set_other; auto.
    + eapply IH; eauto.
Qed.


End ClearingNeedsSavings.

Section ClearingNeedsSavingsBinary64.
Import Houses HouseMarket Consumers.

(** In binary64: a consumer without a house whose savings are not positive
    ends the loop with an exception, once the order holds its position. *)
Lemma buy_loop_needs_savings (order : list nat)
    (cs cs' : list (@Consumer Binary64.arith))
    (m m' : @HousingMarket Binary64.arith) (r : result unit)
    (i : nat) (c : @Consumer Binary64.arith) :
  Sim.buy_loop order cs m = (cs', m', r) ->
  In i order -> nth_error cs i = Some c -> house c = None ->
  @fle Binary64.arith (savings c) (lit 0) = true ->
  r = Raise ValueError.
Proof.
  intros Hrun Hin Hi Hnone Hs. destruct r as [[]|e].
  - exfalso.
    pose proof (@buy_loop_ok_affordable Binary64.arith _ _ _ _ _ Hrun
                  i c Hin Hi Hnone) as Hpos.
    pose proof (binary64_times_five_nonpositive Hs) as H5.
    unfold max_affordable in Hpos.
    change (PrimFloat.leb
              (PrimFloat.mul (savings c) (Binary64.of_Q (inject_Z 5)))
              (Binary64.of_Q 0) = false) in Hpos.
    congruence.
  - f_equal. eapply buy_loop_value_error; eauto.
Qed.

End ClearingNeedsSavingsBinary64.

(** X17 ([Simulation.clean_the_market], [Consumer.buy_a_house],
    [Simulation.compute_consumers_savings]): a single consumer without a
    house whose savings are not positive makes the clearing fail.  Under a
    mechanism that processes every consumer, [clean_the_market] then ends
    with [ValueError]: when that consumer's turn comes, unless an earlier
    consumer has raised already.  In particular a simulation that runs
    over [years = 0] cannot clear its market: after [create_consumers] and
    [compute_consumers_savings] every consumer has savings 0.0, and
    [clean_the_market] ends with [ValueError] as soon as there is a
    consumer. *)
Theorem clean_the_market_needs_savings :
  (forall (shuffle : list nat -> list nat)
          (s : @Sim.Simulation Binary64.arith)
          (cs : list (@Consumers.Consumer Binary64.arith))
          (m : @HouseMarket.HousingMarket Binary64.arith)
          (i : nat) (c : @Consumers.Consumer Binary64.arith),
      (forall l, Permutation (shuffle l) l) ->
      Sim.consumers s = Some cs ->
      Sim.housing_market s = Some m ->
      nth_error cs i = Some c ->
      Consumers.house c = None ->
      @fle Binary64.arith (Consumers.savings c) (lit 0) = true ->
      snd (Sim.clean_the_market shuffle s) = Raise ValueError)
  /\ (forall (shuffle : list nat -> list nat)
             (s : @Sim.Simulation Binary64.arith)
             (draws : list (@num Binary64.arith * Z * Segment)),
         (forall l, Permutation (shuffle l) l) ->
         Sim.years s = 0%Z ->
         Sim.housing_market s <> None ->
         draws <> [] ->
         snd (Sim.compute_consumers_savings (Sim.create_consumers s draws))
         = Ok tt
         /\ snd (Sim.clean_the_market shuffle
                   (fst (Sim.compute_consumers_savings
                           (Sim.create_consumers s draws))))
            = Raise ValueError).
Proof.
  assert (Hfail : forall (shuffle : list nat -> list nat)
                         (s : @Sim.Simulation Binary64.arith)
                         (cs : list (@Consumers.Consumer Binary64.arith))
                         (m : @HouseMarket.HousingMarket Binary64.arith)
                         (i : nat) (c : @Consumers.Consumer Binary64.arith),
             (forall l, Permutation (shuffle l) l) ->
             Sim.consumers s = Some cs ->
             Sim.housing_market s = Some m ->
             nth_error cs i = Some c ->
             Consumers.house c = None ->
             @fle Binary64.arith (Consumers.savings c) (lit 0) = true ->
             snd (Sim.clean_the_market shuffle s) = Raise ValueError).
  { intros shuffle s cs m i c Hshuffle Hcs Hm Hi Hnone Hs.
    unfold Sim.clean_the_market. rewrite Hcs, Hm.
    destruct (Sim.buy_loop
                (Sim.processing_order shuffle
                   (Sim.cleaning_market_mechanism s) cs) cs m)
      as [[cs' m'] r] eqn:Hrun.
    simpl. eapply buy_loop_needs_savings; eauto.
    apply (Permutation_in i
             (Permutation_sym
                (@processing_order_permutation _ shuffle
                   (Sim.cleaning_market_mechanism s) cs Hshuffle))).
    apply in_seq. split; [lia|]. simpl.
    apply nth_error_Some. congruence. }
  split; [exact Hfail|].
  intros shuffle s draws Hshuffle Hyears Hmarket Hdraws.
  destruct (Sim.housing_market s) as [m|] eqn:Hm; [|congruence].
  destruct (create_consumers_fresh s draws)
    as (cs0 & Hcs0 & Hlen & Hnobody & Hzero & Hhm).
  assert (Hy : (Sim.years (Sim.create_consumers s draws) <? 0)%Z = false)
    by (simpl; rewrite Hyears; reflexivity).
  unfold Sim.compute_consumers_savings. rewrite Hcs0.
  destruct (@savings_all_years Binary64.arith
              (Sim.years (Sim.create_consumers s draws)) cs0 Hy [])
    as (cs1 & Hrun & Hall).
  rewrite Hrun. simpl fst. simpl snd. split; [reflexivity|].
  destruct cs0 as [|c0 cs0]; [destruct draws; [congruence|discriminate]|].
  inversion Hall as [|? c1 ? cs1' Hc1 Hrest]; subst.
  inversion Hnobody as [|? ? Hn0 _]; subst.
  inversion Hzero as [|? ? Hz0 _]; subst.
  apply (Hfail shuffle _ (c1 :: cs1') m 0%nat c1 Hshuffle).
  - reflexivity.
  - simpl. rewrite <- Hm. exact Hhm.
  - reflexivity.
  - rewrite (compute_savings_keeps_house _ _ Hc1). exact Hn0.
  - simpl in Hc1. rewrite Hyears in Hc1.
    unfold Consumers.compute_savings in Hc1. simpl in Hc1.
    injection Hc1 as <-. simpl. rewrite Hz0. reflexivity.
Qed.

(** A consumer who has not saved yet stops the clearing of the market of
    three houses. *)
Lemma clean_the_market_needs_savings_example :
  snd (Sim.clean_the_market (fun l => l)
         (Sim.set_consumers Examples.simulation_two_consumers
            (Some [ Examples.consumer_40000; Examples.consumer_new ])))
  = Raise ValueError.
Proof.
  apply (proj1 clean_the_market_needs_savings (fun l => l) _
           [ Examples.consumer_40000; Examples.consumer_new ]
           Examples.market_three 1%nat Examples.consumer_new);
    try reflexivity.
Defined.

(** ** Savings are not negative (consumers.py) *)

Section Binary64Signs.

Lemma binary_round_aux_not_negative (mx ex : Z) (lx : location) :
  (0 <= mx)%Z ->
  SF_not_negative (binary_round_aux prec emax false mx ex lx) = true.
Proof.
  intros H. pose proof (@binary_round_aux_sign false mx ex lx H) as Hs.
  destruct (binary_round_aux prec emax false mx ex lx) as [s|s| |s m e];
    try subst s; try reflexivity.
Qed.

Lemma binary_round_not_negative (mx : positive) (ex : Z) :
  SF_not_negative (binary_round prec emax false mx ex) = true.
Proof.
  unfold binary_round.
  destruct (shl_align mx ex (fexp prec emax (Z.pos (digits2_pos mx) + ex)))
    as [mz ez].
  apply binary_round_aux_not_negative. lia.
Qed.

Lemma binary_normalize_not_negative (m e : Z) :
  (0 <= m)%Z ->
  SF_not_negative (binary_normalize prec emax m e false) = true.
Proof.
  intros H. destruct m as [|p|p]; simpl; [reflexivity| |lia].
  apply binary_round_not_negative.
Qed.

Lemma SF64add_not_negative (x y : spec_float) :
  SF_not_negative x = true -> SF_not_negative y = true ->
  SF_not_negative (SF64add x y) = true.
Proof.
  unfold SF64add, SFadd.
  destruct x as [sx|sx| |sx mx ex], y as [sy|sy| |sy my ey]; simpl;
    try reflexivity; try (destruct sx; simpl; congruence);
    try (destruct sy; simpl; congruence);
    try (destruct sx, sy; simpl; congruence).
  destruct sx; [discriminate|]. destruct sy; [discriminate|]. intros _ _.
  apply binary_normalize_not_negative. simpl. lia.
Qed.

Lemma SF64mul_not_negative (x y : spec_float) :
  SF_not_negative x = true -> SF_not_negative y = true ->
  SF_not_negative (SF64mul x y) = true.
Proof.
  unfold SF64mul, SFmul.
  destruct x as [sx|sx| |sx mx ex], y as [sy|sy| |sy my ey]; simpl;
    try reflexivity; try (destruct sx; simpl; congruence);
    try (destruct sy; simpl; congruence);
    try (destruct sx, sy; simpl; congruence).
  destruct sx; [discriminate|]. destruct sy; [discriminate|]. intros _ _.
  apply binary_round_aux_not_negative. lia.
Qed.

Lemma SFldexp_not_negative (f : spec_float) (e : Z) :
  SF_not_negative f = true ->
  SF_not_negative (SFldexp prec emax f e) = true.
Proof.
  destruct f as [s|s| |s m ex]; simpl; auto.
  destruct s; [discriminate|]. intros _. apply binary_round_not_negative.
Qed.

Lemma SF2Prim_not_negative (s : spec_float) :
  SF_not_negative s = true -> SF_not_negative (Prim2SF (SF2Prim s)) = true.
Proof.
  destruct s as [b|b| |b m e]; simpl.
  - destruct b; reflexivity.
  - destruct b; [discriminate|reflexivity].
  - reflexivity.
  - destruct b; [discriminate|]. intros _.
    unfold Z.ldexp. rewrite ldshiftexp_spec, of_uint63_spec.
    apply SFldexp_not_negative, binary_normalize_not_negative.
    apply Uint63.to_Z_bounded.
Qed.

Lemma SFdiv_not_negative (n d : positive) :
  SF_not_negative
    (SFdiv prec emax (S754_finite false n 0) (S754_finite false d 0)) = true.
Proof.
  unfold SFdiv, SFdiv_core_binary.
  set (m' := match
               (0 - 0
                - Z.min
                    (fexp prec emax
                       (Zdigits2 (Z.pos n) + 0 - (Zdigits2 (Z.pos d) + 0)))
                    (0 - 0))%Z
             with
             | 0%Z => Z.pos n
             | Z.pos _ =>
                 Z.shiftl (Z.pos n)
                   (0 - 0
                    - Z.min
                        (fexp prec emax
                           (Zdigits2 (Z.pos n) + 0
                            - (Zdigits2 (Z.pos d) + 0)))
                        (0 - 0))
             | Z.neg _ => 0%Z
             end).
  assert (Hm : (0 <= m')%Z).
  { unfold m'.
    destruct (0 - 0
              - Z.min
                  (fexp prec emax
                     (Zdigits2 (Z.pos n) + 0 - (Zdigits2 (Z.pos d) + 0)))
                  (0 - 0))%Z; try lia.
    apply Z.shiftl_nonneg. lia. }
  pose proof (Z_div_mod m' (Z.pos d) ltac:(lia)) as Hdiv.
  destruct (Z.div_eucl m' (Z.pos d)) as [q r].
  apply binary_round_aux_not_negative.
  destruct Hdiv as [Heq Hr]. nia.
Qed.

Lemma of_Q_not_negative (q : Q) :
  (0 <= Qnum q)%Z -> SF_not_negative (Prim2SF (Binary64.of_Q q)) = true.
Proof.
  intros H. unfold Binary64.of_Q, Binary64.SF_of_Q.
  destruct (Qnum q) as [|n|n]; [reflexivity| |lia].
  apply SF2Prim_not_negative, SFdiv_not_negative.
Qed.

Lemma not_negative_SF (x : float) :
  @not_negative Binary64.arith x <-> SF_not_negative (Prim2SF x) = true.
Proof.
  unfold not_negative.
  change (PrimFloat.ltb x (Binary64.of_Q 0) = false
          <-> SF_not_negative (Prim2SF x) = true).
  rewrite ltb_spec.
  change (Prim2SF (Binary64.of_Q 0)) with (S754_zero false).
  unfold SFltb. destruct (Prim2SF x) as [s|s| |s m e]; simpl;
    try tauto; destruct s; simpl; split; auto; discriminate.
Qed.

Lemma to_Q_not_negative (x : float) (q : Q) :
  SF_not_negative (Prim2SF x) = true -> Binary64.to_Q x = Some q ->
  (0 <= Qnum q)%Z.
Proof.
  unfold Binary64.to_Q, Binary64.Q_of_SF.
  destruct (Prim2SF x) as [s|s| |s m e]; try discriminate.
  - intros _ H; injection H as <-. cbn [Qnum]. lia.
  - cbn [SF_not_negative]. destruct s; [discriminate|].
    intros _ H; injection H as <-.
    destruct e as [|p|p].
    + cbn [Qnum]. lia.
    + change (0 <= Z.pos m * 2 ^ Z.pos p)%Z.
      apply Z.mul_nonneg_nonneg; [lia|apply Z.pow_nonneg; lia].
    + cbn [Qnum]. lia.
Qed.

Lemma round_half_even_nonneg (q : Q) :
  (0 <= Qnum q)%Z -> (0 <= round_half_even q)%Z.
Proof.
  intros H. unfold round_half_even.
  assert (Hf : (0 <= Qnum q / Z.pos (Qden q))%Z)
    by (apply Z.div_pos; lia).
  destruct (2 * (Qnum q mod Z.pos (Qden q)) ?= Z.pos (Qden q))%Z; try lia.
  destruct (Z.even (Qnum q / Z.pos (Qden q))); lia.
Qed.

Lemma round2_not_negative (x : float) :
  SF_not_negative (Prim2SF x) = true ->
  SF_not_negative (Prim2SF (Binary64.round2 x)) = true.
Proof.
  intros H. unfold Binary64.round2.
  destruct (Binary64.to_Q x) as [q|] eqn:Hq; [|exact H].
  pose proof (to_Q_not_negative x H Hq) as Hn.
  assert (Hr : (0 <= round_half_even (q * 100))%Z).
  { apply round_half_even_nonneg. simpl. lia. }
  destruct (round_half_even (q * 100) =? 0)%Z.
  - destruct (get_sign x); reflexivity.
  - apply of_Q_not_negative. exact Hr.
Qed.

End Binary64Signs.

Section SavingsSigns.
Import Consumers.

Lemma savings_loop_not_negative (n : nat) (contribution rate s : float) :
  SF_not_negative (Prim2SF contribution) = true ->
  SF_not_negative (Prim2SF rate) = true ->
  SF_not_negative (Prim2SF s) = true ->
  SF_not_negative
    (Prim2SF (@savings_loop Binary64.arith n contribution rate s)) = true.
Proof.
  intros Hc Hr. revert s. induction n as [|n IH]; intros s Hs; simpl;
    [exact Hs|].
  apply IH.
  change (SF_not_negative
            (Prim2SF (PrimFloat.mul (PrimFloat.add s contribution)
                        (PrimFloat.add (Binary64.of_Q 1) rate))) = true).
  rewrite mul_spec, !add_spec.
  apply SF64mul_not_negative; apply SF64add_not_negative;
    try assumption.
  apply of_Q_not_negative. simpl. lia.
Qed.

End SavingsSigns.

(** X9 ([Consumer.compute_savings]): saving never makes the savings
    negative.  In binary64, when the savings, the income, the saving rate
    and the interest rate are not negative, the savings after
    [compute_savings(years)] are not negative, for every number of years
    and also when a sum overflows to infinity. *)
Theorem compute_savings_not_negative
    (c c' : @Consumers.Consumer Binary64.arith) (years : Z) :
  not_negative (Consumers.savings c) ->
  not_negative (Consumers.annual_income c) ->
  not_negative (Consumers.saving_rate c) ->
  not_negative (Consumers.interest_rate c) ->
  Consumers.compute_savings c years = Ok c' ->
  not_negative (Consumers.savings c').
Proof.
  intros Hs Hi Hr Hn. unfold Consumers.compute_savings.
  destruct (years <? 0)%Z; [discriminate|].
  intros H; injection H as <-. simpl.
  apply not_negative_SF in Hs, Hi, Hr, Hn. apply not_negative_SF.
  change (SF_not_negative
            (Prim2SF
               (Binary64.round2
                  (@Consumers.savings_loop Binary64.arith (Z.to_nat years)
                     (PrimFloat.mul (Consumers.annual_income c)
                        (Consumers.saving_rate c))
                     (Consumers.interest_rate c) (Consumers.savings c))))
          = true).
  apply round2_not_negative, savings_loop_not_negative; auto.
  rewrite mul_spec. now apply SF64mul_not_negative.
Qed.

(** Three years of saving for the consumer with savings of 40000 and an
    income of 60000: the savings are not negative afterwards. *)
Lemma compute_savings_not_negative_example :
  match Consumers.compute_savings Examples.consumer_40000 3 with
  | Ok c' => not_negative (Consumers.savings c')
  | Raise _ => False
  end.
Proof.
  destruct (Consumers.compute_savings Examples.consumer_40000 3)
    as [c'|e] eqn:H.
  - apply (@compute_savings_not_negative Examples.consumer_40000 c' 3);
      [reflexivity|reflexivity|reflexivity|reflexivity|exact H].
  - unfold Consumers.compute_savings in H.
    change (3 <? 0)%Z with false in H. discriminate.
Defined.

(** ** Monotonicity in binary64 *)

Section Binary64Monotone.
Import Houses HouseMarket.

(** If [p1 <= p2] and [x] is not above [p1], then [x] is not above [p2];
    this holds for a NaN [x] as well, which is above nothing. *)
Lemma SF_not_above_trans (p1 p2 x : spec_float) :
  SFleb p1 p2 = true -> SFltb p1 x = false -> SFltb p2 x = false.
Proof.
  unfold SFleb, SFltb.
  destruct p1 as [s1|s1| |s1 m1 e1], p2 as [s2|s2| |s2 m2 e2],
           x as [sx|sx| |sx mx ex]; simpl;
    try discriminate; try reflexivity;
    try (destruct s1; simpl; try discriminate; try reflexivity;
         destruct s2; simpl; try discriminate; try reflexivity;
         destruct sx; simpl; try discriminate; reflexivity);
    try (destruct s1; simpl; try discriminate; try reflexivity;
         destruct sx; simpl; try discriminate; reflexivity);
    try (destruct s2; simpl; try discriminate; try reflexivity;
         destruct sx; simpl; try discriminate; reflexivity);
    try (destruct s1; simpl; try discriminate; try reflexivity;
         destruct s2; simpl; try discriminate; reflexivity).
  all: change (Pos.compare_cont Eq m1 m2) with (Pos.compare m1 m2);
       change (Pos.compare_cont Eq m2 mx) with (Pos.compare m2 mx);
       change (Pos.compare_cont Eq m1 mx) with (Pos.compare m1 mx).
  all: destruct s1, s2, sx; simpl; try discriminate; try reflexivity.
  all: destruct (Z.compare_spec e1 e2), (Z.compare_spec e2 ex),
         (Z.compare_spec e1 ex); simpl; try discriminate; try reflexivity;
       try lia; subst.
  all: destruct (Pos.compare_spec m1 m2), (Pos.compare_spec m2 mx),
         (Pos.compare_spec m1 mx); simpl; try discriminate; try reflexivity;
       try lia.
Qed.

Lemma binary64_not_above_trans (p1 p2 x : float) :
  PrimFloat.leb p1 p2 = true -> PrimFloat.ltb p1 x = false ->
  PrimFloat.ltb p2 x = false.
Proof. rewrite leb_spec, !ltb_spec. apply SF_not_above_trans. Qed.



End Binary64Monotone.



(** X3 ([HousingMarket.get_houses_that_meet_requirements]): the answer
    is monotone in [max_price].  When the query is answered for
    [max_price1] and for a [max_price2] that is not smaller, every house of
    the first answer is in the second: a buyer who can pay more chooses
    from at least the same houses. *)
Theorem get_houses_that_meet_requirements_monotone
    (m : @HouseMarket.HousingMarket Binary64.arith)
    (max_price1 max_price2 : @num Binary64.arith) (segment : Segment)
    (l1 l2 : list nat) :
  @fle Binary64.arith max_price1 max_price2 = true ->
  HouseMarket.get_houses_that_meet_requirements m max_price1 segment = Ok l1 ->
  HouseMarket.get_houses_that_meet_requirements m max_price2 segment = Ok l2 ->
  incl l1 l2.
Proof.
  intros Hle H1 H2 k Hk.
  apply get_houses_sound in H1, H2.
  destruct H1 as [_ ->], H2 as [_ ->].
  apply positions_from_spec in Hk. apply positions_from_spec.
  destruct Hk as (h & Hlow & Hn & Hp). exists h.
  split; [exact Hlow|]. split; [exact Hn|].
  unfold appended in *.
  apply andb_prop in Hp. destruct Hp as [Hp Hf].
  apply andb_prop in Hp. destruct Hp as [Hav Hpr].
  rewrite Hav, Hf. simpl. rewrite andb_true_r.
  apply negb_true_iff in Hpr. apply negb_true_iff.
  exact (binary64_not_above_trans Hle Hpr).
Qed.

(** The market of three houses and the segment AVERAGE: with 55000 the
    first house is offered, with 150000 the first and the third. *)
Lemma get_houses_that_meet_requirements_monotone_example :
  incl [0%nat] [0%nat; 2%nat].
Proof.
  apply (@get_houses_that_meet_requirements_monotone Examples.market_three
           (@lit Examples.B 55000) (@lit Examples.B 150000) AVERAGE);
    vm_compute; reflexivity.
Defined.

(** Three records, the second without its area: after the market and the
    consumers are created and the savings computed, nobody owns a house and
    every house is available. *)
Lemma simulation_before_clearing_example :
  exists (cs : list (@Consumers.Consumer Examples.B))
         (m : @HouseMarket.HousingMarket Examples.B) (r : result unit),
    Sim.compute_consumers_savings
      (Sim.create_consumers
         (Sim.set_housing_market
            (Examples.simulation_with_records Examples.records_three)
            (Some {| HouseMarket.houses :=
                       [Examples.house_of_record_complete;
                        Examples.house_of_record_2001] |}))
         [(@lit Examples.B 45000, 1%Z, AVERAGE)])
    = (Sim.set_consumers
         (Sim.create_consumers
            (Sim.set_housing_market
               (Examples.simulation_with_records Examples.records_three)
               (Some {| HouseMarket.houses :=
                          [Examples.house_of_record_complete;
                           Examples.house_of_record_2001] |}))
            [(@lit Examples.B 45000, 1%Z, AVERAGE)])
         (Some cs), r)
    /\ nobody_owns cs
    /\ all_available (HouseMarket.houses m).
Proof.
  destruct (@simulation_before_clearing Examples.B Examples.plain_parsers
              (Examples.simulation_with_records Examples.records_three)
              _ [(@lit Examples.B 45000, 1%Z, AVERAGE)] eq_refl)
    as (cs & m & r & Hrun & _ & Hn & Ha & _).
  exists cs, m, r. auto.
Defined.

(** ** The first consumer chooses first *)

Section FirstChoice.
Context {A : Arith}.
Import Houses HouseMarket Consumers.

Lemma Forall2_nth_error_left {X : Type} (R : X -> X -> Prop)
    (l l' : list X) (i : nat) (x : X) :
  Forall2 R l l' -> nth_error l i = Some x ->
  exists y, nth_error l' i = Some y /\ R x y.
Proof.
  intros H. revert i. induction H as [|x0 y0 l l' Hxy _ IH]; intros [|i] Hi;
    simpl in *; try discriminate.
  - injection Hi as ->. eauto.
  - now apply IH.
Qed.

(** Once a consumer holds a house, the rest of the loop leaves it as it
    is. *)
Lemma buy_loop_keeps_owner (order : list nat)
    (cs cs' : list Consumer) (m m' : HousingMarket) (r : result unit)
    (i j : nat) (c : Consumer) :
  Sim.buy_loop order cs m = (cs', m', r) ->
  nth_error cs i = Some c -> house c = Some j ->
  nth_error cs' i = Some c.
Proof.
  intros Hrun Hi Hown.
  destruct (buy_loop_only_purchases _ _ _ Hrun) as [_ Hc].
  destruct (Forall2_nth_error_left i Hc Hi) as (c' & Hi' & [->|[Hnone _]]);
    [exact Hi'|congruence].
Qed.

End FirstChoice.

(** X20 ([Simulation.clean_the_market], [Consumer.buy_a_house]): the
    consumer who is processed first chooses first.  When the first consumer
    of the processing order holds no house and the market, as it is before
    clearing, answers its query with a non-empty list, then after clearing
    that consumer holds the first house of that answer and has paid 0.2 of
    its price, whatever happens to the consumers after it. *)
Theorem clean_the_market_first_choice {A : Arith}
    (shuffle : list nat -> list nat) (s : Sim.Simulation)
    (cs : list Consumers.Consumer) (m : HouseMarket.HousingMarket)
    (first : nat) (rest : list nat) (c : Consumers.Consumer)
    (j : nat) (l : list nat) :
  Sim.consumers s = Some cs ->
  Sim.housing_market s = Some m ->
  Sim.processing_order shuffle (Sim.cleaning_market_mechanism s) cs
  = first :: rest ->
  nth_error cs first = Some c ->
  Consumers.house c = None ->
  HouseMarket.get_houses_that_meet_requirements m (max_affordable c)
    (Consumers.segment c) = Ok (j :: l) ->
  exists cs' m' r h,
    Sim.clean_the_market shuffle s
    = (Sim.set_housing_market (Sim.set_consumers s (Some cs')) (Some m'), r)
    /\ nth_error (HouseMarket.houses m) j = Some h
    /\ nth_error cs' first
       = Some (Consumers.set_savings (Consumers.set_house c (Some j))
                 (Consumers.savings c - down_payment h)%py)
    /\ option_map Houses.available (nth_error (HouseMarket.houses m') j)
       = Some false.
Proof.
  intros Hcs Hm Horder Hfirst Hnone Hq.
  unfold Sim.clean_the_market. rewrite Hcs, Hm, Horder.
  destruct (get_houses_member _ _ _ j Hq (or_introl eq_refl))
    as (h & Hj & Hav & _).
  set (c1 := Consumers.set_savings (Consumers.set_house c (Some j))
               (Consumers.savings c - down_payment h)%py).
  set (m1 := {| HouseMarket.houses :=
                  list_set (HouseMarket.houses m) j (Houses.sell_house h) |}).
  assert (Hbuy : Consumers.buy_a_house c m = Ok (c1, m1)).
  { unfold Consumers.buy_a_house. rewrite Hnone.
    fold (max_affordable c). rewrite Hq. simpl. rewrite Hj. reflexivity. }
  simpl Sim.buy_loop. rewrite Hfirst, Hbuy.
  destruct (Sim.buy_loop rest (list_set cs first c1) m1)
    as [[cs' m'] r] eqn:Hrun.
  exists cs', m', r, h. split; [reflexivity|]. split; [exact Hj|].
  assert (Hlt : (first < List.length cs)%nat)
    by (apply nth_error_Some; congruence).
  assert (Hjlt : (j < List.length (HouseMarket.houses m))%nat)
    by (apply nth_error_Some; congruence).
  split.
  - apply (buy_loop_keeps_owner _ _ _ first (j := j) Hrun).
    + now apply nth_error_list_set_same.
    + reflexivity.
  - destruct (buy_loop_only_purchases _ _ _ Hrun) as [Hh _].
    assert (Hsold : nth_error (HouseMarket.houses m1) j
                    = Some (Houses.sell_house h))
      by (simpl; now apply nth_error_list_set_same).
    destruct (Forall2_nth_error_left j Hh Hsold)
      as (h' & Hj' & [->|[Hav' _]]).
    + rewrite Hj'. reflexivity.
    + discriminate.
Qed.

(** By descending income the consumer with the income 60000 is processed
    first; the market of three houses offers it the houses at the
    positions 0 and 2, and after clearing it holds the house at position
    0. *)
Lemma clean_the_market_first_choice_example :
  exists (cs' : list (@Consumers.Consumer Examples.B))
         (m' : @HouseMarket.HousingMarket Examples.B) (r : result unit),
    Sim.clean_the_market (fun order => order) Examples.simulation_two_consumers
    = (Sim.set_housing_market
         (Sim.set_consumers Examples.simulation_two_consumers (Some cs'))
         (Some m'), r)
    /\ option_map Consumers.house (nth_error cs' 1) = Some (Some 0%nat)
    /\ option_map Houses.available (nth_error (HouseMarket.houses m') 0)
       = Some false.
Proof.
  assert (H1 : Sim.processing_order (fun order => order)
                 (Sim.cleaning_market_mechanism
                    Examples.simulation_two_consumers)
                 [ Examples.mk_consumer 0 45000 AVERAGE 30000;
                   Examples.mk_consumer 1 60000 AVERAGE 40000 ]
               = [1%nat; 0%nat]) by (vm_compute; reflexivity).
  assert (H2 : HouseMarket.get_houses_that_meet_requirements
                 Examples.market_three
                 (max_affordable (Examples.mk_consumer 1 60000 AVERAGE 40000))
                 (Consumers.segment
                    (Examples.mk_consumer 1 60000 AVERAGE 40000))
               = Ok [0%nat; 2%nat]) by (vm_compute; reflexivity).
  destruct (@clean_the_market_first_choice Examples.B (fun order => order)
              Examples.simulation_two_consumers _ Examples.market_three
              1%nat [0%nat] (Examples.mk_consumer 1 60000 AVERAGE 40000)
              0%nat [2%nat] eq_refl eq_refl H1 eq_refl eq_refl H2)
    as (cs' & m' & r & h & Hrun & _ & Hc & Hs).
  exists cs', m', r. split; [exact Hrun|]. split; [|exact Hs].
  rewrite Hc. reflexivity.
Defined.

(** ** A parameter without effect *)

(** X23 ([Simulation], [Consumer.buy_a_house]): the field
    [down_payment_percentage] has no effect.  No method of the simulation
    reads it: with another value every method raises the same exception or
    returns the same result and leaves the same market and the same
    consumers; the down payment of a purchase is 0.2 of the price and the
    affordable price 5 times the savings, whatever the field holds. *)
Theorem down_payment_percentage_has_no_effect {A : Arith} {P : Parsers}
    (shuffle : list nat -> list nat) (s : Sim.Simulation) (d : num)
    (draws : list (num * Z * Segment)) :
  Sim.create_housing_market (with_down_payment_percentage s d)
  = match Sim.create_housing_market s with
    | Ok s' => Ok (with_down_payment_percentage s' d)
    | Raise e => Raise e
    end
  /\ Sim.create_consumers (with_down_payment_percentage s d) draws
     = with_down_payment_percentage (Sim.create_consumers s draws) d
  /\ Sim.compute_consumers_savings (with_down_payment_percentage s d)
     = (with_down_payment_percentage
          (fst (Sim.compute_consumers_savings s)) d,
        snd (Sim.compute_consumers_savings s))
  /\ Sim.clean_the_market shuffle (with_down_payment_percentage s d)
     = (with_down_payment_percentage
          (fst (Sim.clean_the_market shuffle s)) d,
        snd (Sim.clean_the_market shuffle s))
  /\ Sim.compute_owners_population_rate (with_down_payment_percentage s d)
     = Sim.compute_owners_population_rate s
  /\ Sim.compute_houses_availability_rate (with_down_payment_percentage s d)
     = Sim.compute_houses_availability_rate s.
Proof.
  split; [|split; [|split; [|split; [|split]]]].
  - unfold Sim.create_housing_market. simpl.
    destruct (Sim.houses_loop 0 (Sim.housing_market_data s)); reflexivity.
  - reflexivity.
  - unfold Sim.compute_consumers_savings. simpl.
    destruct (Sim.consumers s) as [cs|]; [|reflexivity].
    destruct (Sim.savings_all (Sim.years s) [] cs); reflexivity.
  - unfold Sim.clean_the_market. simpl.
    destruct (Sim.consumers s) as [cs|]; [|reflexivity].
    destruct (Sim.housing_market s) as [m|]; [|reflexivity].
    destruct (Sim.buy_loop
                (Sim.processing_order shuffle
                   (Sim.cleaning_market_mechanism s) cs) cs m)
      as [[cs' m'] r]; reflexivity.
  - reflexivity.
  - reflexivity.
Qed.
